(** * Antigravity gateway: request adapter, schema cleaner, API-key gate,
      OpenAI stream emission and credential import

    A shallow embedding of the parts of [src/utils/utils.js] and of the
    gateway server (the second document of [src/auth/quota_manager.js])
    that the specification's claims talk about, and of what stands next
    to them in the server: the panel sessions, the credential indexes of a
    quota query, and the removal and switching of a credential.

    Conventions of the embedding.
    - A JavaScript string is a [string] holding its UTF-8 encoding.  The
      regular expressions of the source only name ASCII characters, the
      literal markers [<think>] and [<思考>], and character classes closed
      under UTF-8 continuation bytes, so matching on bytes and matching on
      code units agree on well-formed text.
    - A JSON value is a [json]; an object is the list of its own properties
      in enumeration order, without repeated keys.  [undefined] is [None]
      of an [option].  Numbers are integers.
    - Process-wide [Map]s keyed by strings are [gmap string _]; the [Map]
      of [mergeAccounts], whose iteration order is observable, is an
      association list.
    - What the source reads from its environment (the configuration, the
      clock, [JSON.parse], [JSON.stringify], [Number], [Date.parse], the
      TOML parser) is a [Variable] of the section that uses it. *)

From Stdlib Require Import ZArith String Ascii List Bool Lia.
From stdpp Require Import base strings gmap list.

Local Open Scope Z_scope.

(** ** Strings *)

Module Str.

(** [s.startsWith(p)] *)
Definition startsWith (s p : string) : bool := String.prefix p s.

(** [s.slice(n)] for [0 <= n] *)
Fixpoint slice (n : nat) (s : string) : string :=
  match n, s with
  | O, _ => s
  | S k, String _ r => slice k r
  | S _, EmptyString => EmptyString
  end.

(** [s.includes(sub)] *)
Fixpoint includes (s sub : string) : bool :=
  match s with
  | EmptyString => String.prefix sub EmptyString
  | String _ r => String.prefix sub s || includes r sub
  end.

(** [s.endsWith(suf)] *)
Definition endsWith (s suf : string) : bool :=
  (String.length suf <=? String.length s)%nat
  && String.eqb (slice (String.length s - String.length suf) s) suf.

Definition bytes (l : list nat) : string :=
  string_of_list_ascii (map ascii_of_nat l).

Definition LF : string := bytes [10%nat].
Definition CR : string := bytes [13%nat].

(** The UTF-8 encodings of the characters [String.prototype.trim] removes:
    WhiteSpace (TAB, VT, FF, SP, NBSP, ZWNBSP, category Zs) and
    LineTerminator (LF, CR, LS, PS). *)
Definition whitespace : list (list nat) :=
  ([[9]; [10]; [11]; [12]; [13]; [32]; [194; 160]; [225; 154; 128]]
   ++ map (fun b => [226; 128; b]) (seq 128 11)
   ++ [[226; 128; 168]; [226; 128; 169]; [226; 128; 175];
       [226; 129; 159]; [227; 128; 128]; [239; 187; 191]])%nat%list.

(** Length of the first of [pats] that [s] starts with, [0] when none does. *)
Fixpoint match_len (pats : list string) (s : string) : nat :=
  match pats with
  | [] => O
  | p :: ps => if String.prefix p s then String.length p else match_len ps s
  end.

(** Drop leading occurrences of [pats]; [skip] counts the bytes of the
    occurrence being dropped. *)
Fixpoint strip_leading (pats : list string) (skip : nat) (s : string) : string :=
  match s with
  | EmptyString => EmptyString
  | String _ r =>
      match skip with
      | S k => strip_leading pats k r
      | O =>
          match match_len pats s with
          | S k => strip_leading pats k r
          | O => s
          end
      end
  end.

Definition trimStart (s : string) : string :=
  strip_leading (map bytes whitespace) 0 s.

Definition trimEnd (s : string) : string :=
  String.rev
    (strip_leading (map (fun e => bytes (List.rev e)) whitespace) 0 (String.rev s)).

(** [s.trim()] *)
Definition trim (s : string) : string := trimEnd (trimStart s).

(** JavaScript truthiness of a string. *)
Definition truthy (s : string) : bool := negb (String.eqb s EmptyString).

(** Position of the first occurrence of [pat] in [s]. *)
Fixpoint find (pat s : string) : option nat :=
  if String.prefix pat s then Some O
  else match s with
       | EmptyString => None
       | String _ r => option_map S (find pat r)
       end.

(** [s.replace(re, '')] for a global [re] given by [m]: [m t] is the length
    of the match of [re] that starts at the head of [t], if there is one.
    The scan is leftmost-first and resumes after each match. *)
Fixpoint delete_matches (m : string -> option nat) (skip : nat) (s : string) : string :=
  match s with
  | EmptyString => EmptyString
  | String c r =>
      match skip with
      | S k => delete_matches m k r
      | O =>
          match m s with
          | Some (S k) => delete_matches m k r
          | _ => String c (delete_matches m O r)
          end
      end
  end.

(** The matcher of [/open[\s\S]*?close/]: the shortest span from an [open]
    at the head to the next [close]. *)
Definition span_len (open close : string) (s : string) : option nat :=
  if String.prefix open s then
    option_map (fun n => (String.length open + n + String.length close)%nat)
               (find close (slice (String.length open) s))
  else None.

(** Length of the longest prefix whose bytes all satisfy [p]. *)
Fixpoint run_len (p : ascii -> bool) (s : string) : nat :=
  match s with
  | String c r => if p c then S (run_len p r) else O
  | EmptyString => O
  end.

(** [s.replace(/\r\n/g, '\n')] *)
Fixpoint crlf_to_lf (s : string) : string :=
  match s with
  | String c1 ((String c2 r) as t) =>
      if (Ascii.eqb c1 "013" && Ascii.eqb c2 "010")%char
      then String c2 (crlf_to_lf r)
      else String c1 (crlf_to_lf t)
  | _ => s
  end.

End Str.

(** ** JSON values *)

Unset Elimination Schemes.
Inductive json : Type :=
| JNull
| JBool (b : bool)
| JNum (n : Z)
| JStr (s : string)
| JArr (items : list json)
| JObj (fields : list (string * json)).
Set Elimination Schemes.

Module Json.

(** [o[k]] on the own properties of an object. *)
Fixpoint get (k : string) (fields : list (string * json)) : option json :=
  match fields with
  | [] => None
  | (k', v) :: r => if String.eqb k k' then Some v else get k r
  end.

(** [k in o] for an object without inherited properties of that name. *)
Definition has (k : string) (fields : list (string * json)) : bool :=
  match get k fields with Some _ => true | None => false end.

(** [delete o[k]] *)
Fixpoint remove (k : string) (fields : list (string * json)) : list (string * json) :=
  match fields with
  | [] => []
  | (k', v) :: r => if String.eqb k k' then remove k r else (k', v) :: remove k r
  end.

(** [o[k] = v]: an existing property keeps its place, a new one goes last. *)
Fixpoint set (k : string) (v : json) (fields : list (string * json)) : list (string * json) :=
  match fields with
  | [] => [(k, v)]
  | (k', v') :: r => if String.eqb k k' then (k, v) :: r else (k', v') :: set k v r
  end.

(** [{...a, ...b}] *)
Definition spread (a b : list (string * json)) : list (string * json) :=
  fold_left (fun acc kv => set (fst kv) (snd kv) acc) b a.

(** JavaScript truthiness. *)
Definition truthy (v : json) : bool :=
  match v with
  | JNull => false
  | JBool b => b
  | JNum n => negb (n =? 0)
  | JStr s => Str.truthy s
  | JArr _ | JObj _ => true
  end.

(** Truthiness of a property read, [undefined] being falsy. *)
Definition truthy_opt (v : option json) : bool :=
  match v with Some x => truthy x | None => false end.

(** [a ?? b] on property reads. *)
Definition nullish_or (v d : option json) : option json :=
  match v with
  | None | Some JNull => d
  | Some x => Some x
  end.

(** [typeof v === 'object'] *)
Definition is_object (v : json) : bool :=
  match v with
  | JNull | JArr _ | JObj _ => true
  | _ => false
  end.

(** [v === w] for values of separately parsed documents: primitives compare
    by value, objects and arrays by identity and so never agree. *)
Definition strict_eq (v w : json) : bool :=
  match v, w with
  | JNull, JNull => true
  | JBool a, JBool b => Bool.eqb a b
  | JNum a, JNum b => a =? b
  | JStr a, JStr b => String.eqb a b
  | _, _ => false
  end.

(** A property read [v[k]]: [None] when it throws ([v] is [null]), else the
    value read or [undefined].  Only names that no array or primitive
    carries are read this way. *)
Definition prop (k : string) (v : json) : option (option json) :=
  match v with
  | JNull => None
  | JObj fields => Some (get k fields)
  | _ => Some None
  end.

Definition is_str (s : string) (v : option json) : bool :=
  match v with Some (JStr t) => String.eqb s t | _ => false end.

(** [v === false] on a property read *)
Definition is_false (v : option json) : bool :=
  match v with Some (JBool false) => true | _ => false end.

Definition digit (n : nat) : string :=
  String (ascii_of_nat (48 + n)) EmptyString.

Fixpoint digits (fuel n : nat) (acc : string) : string :=
  match fuel with
  | O => acc
  | S f =>
      let acc' := digit (n mod 10) +:+ acc in
      if (n / 10 =? 0)%nat then acc' else digits f (n / 10) acc'
  end.

(** [String(n)] for an integer. *)
Definition num_to_string (n : Z) : string :=
  let m := Z.to_nat (Z.abs n) in
  (if n <? 0 then "-" else "") +:+ digits (S m) m "".

Fixpoint join (sep : string) (l : list string) : string :=
  match l with
  | [] => ""
  | [x] => x
  | x :: r => x +:+ sep +:+ join sep r
  end.

(** [String(v)], what a template literal makes of a value. *)
Fixpoint to_string (v : json) : string :=
  match v with
  | JNull => "null"
  | JBool true => "true"
  | JBool false => "false"
  | JNum n => num_to_string n
  | JStr s => s
  | JArr items =>
      join ","
        (map (fun x => match x with JNull => "" | _ => to_string x end) items)
  | JObj _ => "[object Object]"
  end.

(** [String(v)] of a property read. *)
Definition to_string_opt (v : option json) : string :=
  match v with Some x => to_string x | None => "undefined" end.

End Json.

(** ** Thought-signature memory ([utils.js], lines 6-59) *)

Module Signature.

Record payload : Type := Payload { signature : string; text : string }.

(** The two process-wide maps. *)
Record store : Type := Store {
  thoughtSignatureMap : gmap string string;
  textThoughtSignatureMap : gmap string payload }.

Definition empty : store := Store ∅ ∅.

Definition registerThoughtSignature (id thoughtSignature : string) (st : store) : store :=
  if negb (Str.truthy id) || negb (Str.truthy thoughtSignature) then st
  else Store (<[id := thoughtSignature]> (thoughtSignatureMap st))
             (textThoughtSignatureMap st).

Definition getThoughtSignature (st : store) (id : option string) : option string :=
  match id with
  | Some i => if Str.truthy i then thoughtSignatureMap st !! i else None
  | None => None
  end.

(** The matcher of [/!\[[^\]]*]\([^)]+\)/], a markdown image reference. *)
Definition image_len (s : string) : option nat :=
  if String.prefix "![" s then
    let a := Str.slice 2 s in
    let n := Str.run_len (fun c => negb (Ascii.eqb c "]")) a in
    let b := Str.slice n a in
    if String.prefix "](" b then
      let c := Str.slice 2 b in
      let m := Str.run_len (fun c => negb (Ascii.eqb c ")")) c in
      if (m =? 0)%nat then None
      else if String.prefix ")" (Str.slice m c) then Some (2 + n + 2 + m + 1)%nat
      else None
    else None
  else None.

Definition normalizeTextForSignature (t : string) : string :=
  Str.trim
    (Str.crlf_to_lf
       (Str.delete_matches image_len 0
          (Str.delete_matches (Str.span_len "<think>" "</think>") 0 t))).

Definition set_if (c : bool) (k : string) (p : payload)
    (m : gmap string payload) : gmap string payload :=
  if c then <[k := p]> m else m.

Definition registerTextThoughtSignature (t thoughtSignature : string) (st : store) : store :=
  if negb (Str.truthy t) || negb (Str.truthy thoughtSignature) then st
  else
    let originalText := t in
    let trimmed := Str.trim originalText in
    let normalized := normalizeTextForSignature trimmed in
    let p := Payload thoughtSignature originalText in
    let m1 := set_if (Str.truthy originalText) originalText p (textThoughtSignatureMap st) in
    let m2 := set_if (Str.truthy normalized) normalized p m1 in
    let m3 := set_if (Str.truthy trimmed && negb (String.eqb trimmed normalized)) trimmed p m2 in
    Store (thoughtSignatureMap st) m3.

Definition getTextThoughtSignature (st : store) (t : string) : option payload :=
  if negb (Str.truthy (Str.trim t)) then None
  else
    match textThoughtSignatureMap st !! t with
    | Some p => Some p
    | None =>
        let trimmed := Str.trim t in
        match textThoughtSignatureMap st !! trimmed with
        | Some p => Some p
        | None =>
            let normalized := normalizeTextForSignature trimmed in
            if negb (Str.truthy normalized) then None
            else textThoughtSignatureMap st !! normalized
        end
    end.

(** The stores the program can reach: only the two [register] functions
    write to the maps. *)
Inductive reachable : store -> Prop :=
| reach_empty : reachable empty
| reach_call id sig st :
    reachable st -> reachable (registerThoughtSignature id sig st)
| reach_text t sig st :
    reachable st -> reachable (registerTextThoughtSignature t sig st).

End Signature.

(** ** Request adapter ([utils.js], lines 61-246) *)

(** OpenAI-side data.  A message's [content] is whatever JSON the client
    sent; [tool_calls] is an array of well-formed calls or absent. *)
Module OpenAI.

Record tool_call : Type := ToolCall {
  call_id : option string;
  call_type : option string;
  function_name : string;
  function_arguments : option json }.

Record message : Type := Message {
  role : string;
  content : option json;
  tool_calls : option (list tool_call);
  tool_call_id : option string }.

Record tool : Type := Tool {
  tool_name : option json;
  tool_description : option json;
  tool_parameters : option (list (string * json)) }.

End OpenAI.

(** Upstream-side data: the [contents] of a request. *)
Module Upstream.

Inductive part : Type :=
| TextPart (text : string) (thoughtSignature : option string)
| InlineData (mimeType data : string)
| FunctionCall (id : option string) (name : string) (args : json)
    (thoughtSignature : option string)
| FunctionResponse (id : option string) (name : string) (output : option json).

Record turn : Type := Turn { role : string; parts : list part }.

Definition is_functionResponse (p : part) : bool :=
  match p with FunctionResponse _ _ _ => true | _ => false end.

Definition is_text (p : part) : bool :=
  match p with TextPart _ _ => true | _ => false end.

End Upstream.

Module Adapter.
Import Upstream.

Definition is_word (c : ascii) : bool :=
  let n := nat_of_ascii c in
  ((48 <=? n) && (n <=? 57) || (65 <=? n) && (n <=? 90)
   || (97 <=? n) && (n <=? 122) || (n =? 95))%nat.

(** [/^data:image\/(\w+);base64,(.+)$/]: the two groups of a match. *)
Definition parse_data_uri (u : string) : option (string * string) :=
  if String.prefix "data:image/" u then
    let a := Str.slice 11 u in
    let n := Str.run_len is_word a in
    let b := Str.slice n a in
    if (n =? 0)%nat then None
    else if String.prefix ";base64," b then
      let d := Str.slice 8 b in
      if String.eqb d "" then None
      else if Str.includes d Str.LF || Str.includes d Str.CR
              || Str.includes d (Str.bytes [226; 128; 168]%nat)
              || Str.includes d (Str.bytes [226; 128; 169]%nat)
      then None
      else Some (String.substring 0 n a, d)
    else None
  else None.

(** One round of the loop of [extractImagesFromContent]; [None] is a thrown
    [TypeError]. *)
Definition extract_item (acc : string * list part) (item : json)
    : option (string * list part) :=
  ty ← Json.prop "type" item;
  if Json.is_str "text" ty then
    t ← Json.prop "text" item;
    Some (fst acc +:+ Json.to_string_opt t, snd acc)
  else if Json.is_str "image_url" ty then
    image_url ← Json.prop "image_url" item;
    let url := match image_url with
               | None | Some JNull => None
               | Some v => default None (Json.prop "url" v)
               end in
    match (if Json.truthy_opt url then default (JStr "") url else JStr "") with
    | JStr imageUrl =>
        match parse_data_uri imageUrl with
        | Some (format, base64Data) =>
            Some (fst acc, snd acc ++ [InlineData ("image/" +:+ format) base64Data])
        | None => Some acc
        end
    | _ => None
    end
  else Some acc.

Definition extractImagesFromContent (content : option json)
    : option (string * list part) :=
  match content with
  | Some (JStr s) => Some (s, [])
  | Some (JArr items) => foldl (fun acc item => a ← acc; extract_item a item) (Some ("", [])) items
  | _ => Some ("", [])
  end.

Definition handleUserMessage (extracted : string * list part)
    (antigravityMessages : list turn) : list turn :=
  antigravityMessages ++ [Turn "user" (TextPart (fst extracted) None :: snd extracted)].

(** [lastMessage.parts.push(...more)] *)
Definition push_to_last (more : list part) (msgs : list turn) : list turn :=
  match List.rev msgs with
  | [] => []
  | l :: r => List.rev r ++ [Turn (role l) (parts l ++ more)]
  end.

Section WithEnvironment.

(** [JSON.parse], [None] when it throws, and [JSON.stringify]. *)
Variable JSON_parse : string -> option json.
Variable JSON_stringify : json -> string.

(** The text of an assistant message. *)
Definition contentText (content : option json) : option string :=
  match content with
  | Some (JArr items) =>
      tys ← mapM (fun item => ty ← Json.prop "type" item; Some (ty, item)) items;
      Some (Json.join ""
              (map (fun p =>
                      match default None (Json.prop "text" (snd p)) with
                      | Some t => if Json.truthy t then Json.to_string t else ""
                      | None => ""
                      end)
                   (List.filter (fun p => Json.is_str "text" (fst p)) tys)))
  | Some (JStr s) => Some s
  | _ => Some ""
  end.

Definition toolCallPart (st : Signature.store) (toolCall : OpenAI.tool_call) : part :=
  let args :=
    match OpenAI.function_arguments toolCall with
    | Some (JStr s) => default (JObj []) (JSON_parse s)
    | Some ((JObj _ | JArr _ | JNull) as v) => v
    | _ => JObj []
    end in
  let thoughtSignature := Signature.getThoughtSignature st (OpenAI.call_id toolCall) in
  FunctionCall (OpenAI.call_id toolCall) (OpenAI.function_name toolCall) args
    (match thoughtSignature with
     | Some s => if Str.truthy s then Some s else None
     | None => None
     end).

Definition hasToolCalls (message : OpenAI.message) : bool :=
  match OpenAI.tool_calls message with
  | Some (_ :: _) => true
  | _ => false
  end.

Definition antigravityTools (st : Signature.store) (message : OpenAI.message) : list part :=
  if hasToolCalls message
  then map (toolCallPart st) (default [] (OpenAI.tool_calls message))
  else [].

(** The text part of a new [model] turn: none, or one. *)
Definition textParts (st : Signature.store) (allowThoughtSignature : bool)
    (text : string) : list part :=
  let textThoughtSignature :=
    if allowThoughtSignature then Signature.getTextThoughtSignature st text else None in
  match allowThoughtSignature, textThoughtSignature with
  | true, None => []
  | _, Some p =>
      [TextPart (Signature.text p)
         (if Str.truthy (Signature.signature p) then Some (Signature.signature p) else None)]
  | false, None => [TextPart text None]
  end.

Definition handleAssistantMessage (st : Signature.store) (message : OpenAI.message)
    (antigravityMessages : list turn) (modelName : string) : option (list turn) :=
  let lastMessage := last antigravityMessages in
  let allowThoughtSignature := Str.includes modelName "gemini-3" in
  text ← contentText (OpenAI.content message);
  let hasContent := negb (String.eqb (Str.trim text) "") in
  let tools := antigravityTools st message in
  if bool_decide (role <$> lastMessage = Some "model") && hasToolCalls message && negb hasContent
  then Some (push_to_last tools antigravityMessages)
  else
    let parts :=
      (if hasContent then textParts st allowThoughtSignature text else []) ++ tools in
    Some (antigravityMessages ++ [Turn "model" parts]).

(** The name of the call a tool result answers: the turns are searched from
    the last one back, and a turn whose first matching call has an empty
    name does not end the search. *)
Fixpoint name_in_parts (tool_call_id : option string) (ps : list part) : string :=
  match ps with
  | [] => ""
  | FunctionCall id name _ _ :: r =>
      if bool_decide (id = tool_call_id) then name else name_in_parts tool_call_id r
  | _ :: r => name_in_parts tool_call_id r
  end.

Fixpoint name_in_turns (tool_call_id : option string) (rev_msgs : list turn) : string :=
  match rev_msgs with
  | [] => ""
  | t :: r =>
      if String.eqb (role t) "model" then
        let n := name_in_parts tool_call_id (parts t) in
        if Str.truthy n then n else name_in_turns tool_call_id r
      else name_in_turns tool_call_id r
  end.

Definition toolOutput (content : option json) : option json :=
  match content with
  | Some (JObj fields) =>
      let t := Json.get "text" fields in
      if Json.truthy_opt t then t else Some (JStr (JSON_stringify (JObj fields)))
  | Some (JArr items) => Some (JStr (JSON_stringify (JArr items)))
  | other => other
  end.

Definition handleToolCall (message : OpenAI.message)
    (antigravityMessages : list turn) : list turn :=
  let functionName :=
    name_in_turns (OpenAI.tool_call_id message) (List.rev antigravityMessages) in
  let functionResponse :=
    FunctionResponse (OpenAI.tool_call_id message) functionName
      (toolOutput (OpenAI.content message)) in
  match last antigravityMessages with
  | Some lastMessage =>
      if String.eqb (role lastMessage) "user"
         && existsb is_functionResponse (parts lastMessage)
      then push_to_last [functionResponse] antigravityMessages
      else antigravityMessages ++ [Turn "user" [functionResponse]]
  | None => antigravityMessages ++ [Turn "user" [functionResponse]]
  end.

Definition convert_message (st : Signature.store) (modelName : string)
    (acc : option (list turn)) (message : OpenAI.message) : option (list turn) :=
  antigravityMessages ← acc;
  if String.eqb (OpenAI.role message) "user" || String.eqb (OpenAI.role message) "system" then
    extracted ← extractImagesFromContent (OpenAI.content message);
    Some (handleUserMessage extracted antigravityMessages)
  else if String.eqb (OpenAI.role message) "assistant" then
    handleAssistantMessage st message antigravityMessages modelName
  else if String.eqb (OpenAI.role message) "tool" then
    Some (handleToolCall message antigravityMessages)
  else Some antigravityMessages.

Definition openaiMessageToAntigravity (st : Signature.store)
    (openaiMessages : list OpenAI.message) (modelName : string) : option (list turn) :=
  foldl (convert_message st modelName) (Some []) openaiMessages.

End WithEnvironment.
End Adapter.

(** ** Schema cleaner and tool mapper ([utils.js], lines 271-383) *)

Module SchemaCleaner.

(** The object literal [validationFields]: each name maps to itself. *)
Definition validationFields : list (string * string) :=
  map (fun f => (f, f))
    ["minLength"; "maxLength"; "minimum"; "maximum"; "minItems"; "maxItems";
     "minProperties"; "maxProperties"; "pattern"; "format"; "multipleOf"].

Definition fieldsToRemove : list string :=
  ["$schema"; "additionalProperties"; "uniqueItems"; "exclusiveMinimum";
   "exclusiveMaximum"].

(** The properties every object literal inherits from [Object.prototype]. *)
Definition objectPrototype : list string :=
  ["constructor"; "__defineGetter__"; "__defineSetter__"; "hasOwnProperty";
   "__lookupGetter__"; "__lookupSetter__"; "isPrototypeOf";
   "propertyIsEnumerable"; "toString"; "valueOf"; "__proto__"; "toLocaleString"].

Definition mem (k : string) (l : list string) : bool := existsb (String.eqb k) l.

(** [fieldsToRemove.has(key)] *)
Definition fieldsToRemove_has (key : string) : bool := mem key fieldsToRemove.

(** [key in validationFields]: own and inherited properties. *)
Definition in_validationFields (key : string) : bool :=
  mem key (map fst validationFields) || mem key objectPrototype.

(** [collectValidations]: the notes gathered from one object, and what the
    [delete]s leave of it. *)
Definition collectValidations (obj : list (string * json))
    : list string * list (string * json) :=
  let s1 :=
    fold_left
      (fun (acc : list string * list (string * json)) (fv : string * string) =>
         if Json.has (fst fv) (snd acc)
         then (fst acc ++ [fst fv +:+ ": " +:+ snd fv], Json.remove (fst fv) (snd acc))
         else acc)
      validationFields ([], obj) in
  fold_left
    (fun (acc : list string * list (string * json)) (field : string) =>
       if Json.has field (snd acc)
       then ((if String.eqb field "additionalProperties"
                 && Json.is_false (Json.get field (snd acc))
              then fst acc ++ ["no additional properties"] else fst acc),
             Json.remove field (snd acc))
       else acc)
    fieldsToRemove s1.

(** The top-level [description] with the notes appended. *)
Definition describe (value : json) (validations : list string) : json :=
  JStr (Str.trim ((if Json.truthy value then Json.to_string value else "")
                  +:+ " (" +:+ Json.join ", " validations +:+ ")")).

Definition nonempty {A} (l : list A) : bool :=
  match l with [] => false | _ => true end.

(** The handling of [required] that ends [cleanObject]. *)
Definition drop_empty_required (cleaned : list (string * json)) : list (string * json) :=
  match Json.get "required" cleaned with
  | Some (JArr []) => Json.remove "required" cleaned
  | _ => cleaned
  end.

(** [cleanObject(obj, path)], with [top] for [path === ''].  The loop runs
    over the properties of [obj] as they were on entry: the ones that
    [collectValidations] deleted are ones the loop skips
    ([loop_after_deletes] below). *)
Fixpoint cleanObject (top : bool) (obj : json) {struct obj} : json :=
  match obj with
  | JArr items =>
      JArr (map (fun item => if Json.is_object item then cleanObject top item else item)
                items)
  | JObj fields =>
      let validations := fst (collectValidations fields) in
      let cleaned :=
        (fix entries (l : list (string * json)) : list (string * json) :=
           match l with
           | [] => []
           | (key, value) :: r =>
               if fieldsToRemove_has key then entries r
               else if in_validationFields key then entries r
               else if String.eqb key "description" && nonempty validations && top
               then (key, describe value validations) :: entries r
               else (key, if Json.is_object value then cleanObject false value else value)
                    :: entries r
           end) fields in
      JObj (drop_empty_required cleaned)
  | _ => obj
  end.

(** The loop of [cleanObject] on its own, with the recursive call as [rec]. *)
Fixpoint entries (rec : json -> json) (top : bool) (validations : list string)
    (l : list (string * json)) : list (string * json) :=
  match l with
  | [] => []
  | (key, value) :: r =>
      if fieldsToRemove_has key then entries rec top validations r
      else if in_validationFields key then entries rec top validations r
      else if String.eqb key "description" && nonempty validations && top
      then (key, describe value validations) :: entries rec top validations r
      else (key, if Json.is_object value then rec value else value)
           :: entries rec top validations r
  end.

Definition cleanJsonSchema (schema : json) : json :=
  if negb (Json.truthy schema) || negb (Json.is_object schema) then schema
  else cleanObject true schema.

Record functionDeclaration : Type := FunctionDeclaration {
  name : option json;
  description : option json;
  parameters : json }.

Record toolEntry : Type := ToolEntry { functionDeclarations : list functionDeclaration }.

Definition convertOpenAIToolsToAntigravity (openaiTools : option (list OpenAI.tool))
    : list toolEntry :=
  match openaiTools with
  | None | Some [] => []
  | Some tools =>
      map (fun tool =>
             let parameters := JObj (default [] (OpenAI.tool_parameters tool)) in
             let cleanedParameters := cleanJsonSchema parameters in
             ToolEntry [FunctionDeclaration (OpenAI.tool_name tool)
                          (OpenAI.tool_description tool) cleanedParameters])
          tools
  end.

End SchemaCleaner.

(** ** Request body ([utils.js], lines 247-270 and 384-450) *)

Module Request.
Import Upstream.

(** The part of [config] that the request builder reads. *)
Record defaults : Type := Defaults {
  top_p : option json;
  top_k : option json;
  temperature : option json;
  max_tokens : option json }.

Record thinkingConfig : Type := ThinkingConfig {
  includeThoughts : bool;
  thinkingBudget : Z }.

Record generationConfig : Type := GenerationConfig {
  topP : option json;
  topK : option json;
  temperature_ : option json;
  candidateCount : Z;
  maxOutputTokens : option json;
  stopSequences : option (list string);
  responseModalities : option (list string);
  thinking : thinkingConfig }.

Record token : Type := Token { projectId : option string; sessionId : option string }.

Record request : Type := Request {
  contents : list turn;
  systemInstruction : turn;
  tools : option (list SchemaCleaner.toolEntry);
  functionCallingMode : option string;
  generation : generationConfig;
  session : option string }.

Record requestBody : Type := RequestBody {
  project : option string;
  requestId : string;
  body : request;
  model : string;
  userAgent : string;
  requestType : option string }.

(** [delete part.thoughtSignature] *)
Definition strip_signature (p : part) : part :=
  match p with
  | TextPart t _ => TextPart t None
  | FunctionCall id name args _ => FunctionCall id name args None
  | other => other
  end.

Section WithConfig.

Variable config_defaults : defaults.
Variable config_systemInstruction : string.
Variable JSON_parse : string -> option json.
Variable JSON_stringify : json -> string.
(** The value [generateRequestId()] returns for this request. *)
Variable generatedRequestId : string.

Definition generateGenerationConfig (parameters : list (string * json))
    (enableThinking : bool) (actualModelName : string) : generationConfig :=
  let generationConfig :=
    GenerationConfig
      (Json.nullish_or (Json.get "top_p" parameters) (top_p config_defaults))
      (Json.nullish_or (Json.get "top_k" parameters) (top_k config_defaults))
      (Json.nullish_or (Json.get "temperature" parameters) (temperature config_defaults))
      1
      (Json.nullish_or (Json.get "max_tokens" parameters) (max_tokens config_defaults))
      (Some ["<|user|>"; "<|bot|>"; "<|context_request|>"; "<|endoftext|>";
             "<|end_of_turn|>"])
      None
      (ThinkingConfig enableThinking (if enableThinking then 1024 else 0)) in
  if enableThinking && Str.includes actualModelName "claude"
  then GenerationConfig None (topK generationConfig) (temperature_ generationConfig)
         (candidateCount generationConfig) (maxOutputTokens generationConfig)
         (stopSequences generationConfig) (responseModalities generationConfig)
         (thinking generationConfig)
  else generationConfig.

(** An assistant message that carries at least one tool call. *)
Definition isAssistantToolCall (msg : OpenAI.message) : bool :=
  String.eqb (OpenAI.role msg) "assistant"
  && match OpenAI.tool_calls msg with Some (_ :: _) => true | _ => false end.

Definition hasAssistantToolCalls (openaiMessages : list OpenAI.message) : bool :=
  existsb isAssistantToolCall openaiMessages.

Definition baseEnableThinking (modelName : string) : bool :=
  Str.endsWith modelName "-thinking"
  || String.eqb modelName "gemini-2.5-pro"
  || Str.startsWith modelName "gemini-3-pro-"
  || String.eqb modelName "rev19-uic3-1p"
  || String.eqb modelName "gpt-oss-120b-medium".

Definition enableThinking (openaiMessages : list OpenAI.message) (modelName : string) : bool :=
  baseEnableThinking modelName
  && negb (Str.includes modelName "claude" && hasAssistantToolCalls openaiMessages).

(** [generateRequestBody]; [None] when the conversion of the messages throws. *)
Definition generateRequestBody (st : Signature.store)
    (openaiMessages : list OpenAI.message) (modelName : string)
    (parameters : list (string * json)) (openaiTools : option (list OpenAI.tool))
    (tok : token) : option requestBody :=
  let actualModelName := modelName in
  let enable := enableThinking openaiMessages modelName in
  converted ← Adapter.openaiMessageToAntigravity JSON_parse JSON_stringify st
                openaiMessages actualModelName;
  let contents :=
    if Str.includes actualModelName "claude"
    then map (fun msg => Turn (role msg) (map strip_signature (parts msg))) converted
    else converted in
  Some (RequestBody (projectId tok) generatedRequestId
          (Request contents
             (Turn "user" [TextPart config_systemInstruction None])
             (Some (SchemaCleaner.convertOpenAIToolsToAntigravity openaiTools))
             (Some "VALIDATED")
             (generateGenerationConfig parameters enable actualModelName)
             (sessionId tok))
          actualModelName "antigravity" None).

End WithConfig.
End Request.

(** ** API-key gate (server, lines 659-712) *)

Module ApiKey.

(** [req.headers]: lower-cased names to values. *)
Abbreviation headers := (gmap string string).

Definition is_word_or_dash (c : ascii) : bool :=
  Adapter.is_word c || Ascii.eqb c "-".

(** [/^\/(?:[\w-]+\/)?v1\//.test(pathname || '')] *)
Definition isProtectedApiPath (pathname : string) : bool :=
  String.prefix "/" pathname
  && (let a := Str.slice 1 pathname in
      let n := Str.run_len is_word_or_dash a in
      (negb (n =? 0)%nat && String.prefix "/v1/" (Str.slice n a))
      || String.prefix "v1/" a).

Definition truthy_header (v : option string) : bool :=
  match v with Some s => Str.truthy s | None => false end.

(** [candidates.find(v => v) || null] over the four alternative headers. *)
Definition candidates (hs : headers) : option string :=
  default None
    (List.find truthy_header
       [hs !! "x-api-key"; hs !! "api-key"; hs !! "x-api_key"; hs !! "api_key"]).

Definition extractApiKeyFromHeaders (hs : headers) : option string :=
  match hs !! "authorization" with
  | Some authHeader =>
      if Str.startsWith authHeader "Bearer " then Some (Str.slice 7 authHeader)
      else if Str.truthy authHeader then Some authHeader
      else candidates hs
  | None => candidates hs
  end.

Inductive verdict : Type :=
| Accepted
| Refused (status : Z) (message : string).

Definition validateApiKey (apiKey : option string) (hs : headers) : verdict :=
  let providedKey := extractApiKeyFromHeaders hs in
  if negb (truthy_header apiKey) then Refused 503 "API Key 未配置"
  else if negb (truthy_header providedKey) || negb (bool_decide (providedKey = apiKey))
  then Refused 401 "Invalid API Key"
  else Accepted.

(** What the middleware does with a request: answer it, or pass it on. *)
Inductive outcome : Type :=
| Reply (status : Z) (error : string)
| Next.

Definition gate (apiKey : option string) (path : string) (hs : headers) : outcome :=
  if isProtectedApiPath path then
    match validateApiKey apiKey hs with
    | Refused status message => Reply status message
    | Accepted => Next
    end
  else Next.

End ApiKey.

(** ** The response object *)

Module Http.

(** A thrown error, with the [statusCode] an upstream failure may carry. *)
Record error : Type := Error { message : string; statusCode : option Z }.

(** What the handler can observe of [res], and what it has put on the wire. *)
Record response : Type := Response {
  status : Z;
  headers : list (string * string);
  headersSent : bool;
  written : list string;
  finished : bool }.

Definition fresh : response := Response 200 [] false [] false.

Inductive result (A : Type) : Type :=
| Ok (a : A)
| Thrown (e : error).
Arguments Ok {A} a.
Arguments Thrown {A} e.

(** Handler code: it reads and writes [res] and may throw. *)
Definition M (A : Type) : Type := response -> result A * response.

#[export] Instance M_ret : MRet M := fun A a r => (Ok a, r).
#[export] Instance M_bind : MBind M := fun A B f m r =>
  match m r with
  | (Ok a, r') => f a r'
  | (Thrown e, r') => (Thrown e, r')
  end.

Definition throw {A} (e : error) : M A := fun r => (Thrown e, r).

(** [try { body } catch (error) { handler(error) }] *)
Definition try_catch {A} (body : M A) (handler : error -> M A) : M A := fun r =>
  match body r with
  | (Ok a, r') => (Ok a, r')
  | (Thrown e, r') => handler e r'
  end.

Definition get_headersSent : M bool := fun r => (Ok (headersSent r), r).

Definition set_assoc (k v : string) (l : list (string * string)) : list (string * string) :=
  (k, v) :: List.filter (fun kv => negb (String.eqb (fst kv) k)) l.

(** [res.setHeader(k, v)] *)
Definition setHeader (k v : string) : M unit := fun r =>
  if headersSent r
  then (Thrown (Error "Cannot set headers after they are sent to the client" None), r)
  else (Ok tt, Response (status r) (set_assoc k v (headers r)) false (written r) (finished r)).

(** [res.status(code)] *)
Definition set_status (code : Z) : M unit := fun r =>
  (Ok tt, Response code (headers r) (headersSent r) (written r) (finished r)).

(** [res.write(data)]: the first write sends the headers; nothing goes out
    on a response that has ended. *)
Definition write (data : string) : M unit := fun r =>
  if finished r then (Ok tt, r)
  else (Ok tt, Response (status r) (headers r) true (written r ++ [data]) false).

(** [res.end()] *)
Definition end_ : M unit := fun r =>
  (Ok tt, Response (status r) (headers r) true (written r) true).

End Http.

(** ** Chat-completion handler (server, lines 584-612 and 1813-2031)

    The log written by [writeLog] is left out: it does not touch [res]. *)

Module Chat.
Import Http.

(** The events the upstream client reports to its callback. *)
Inductive event : Type :=
| ToolCalls (tool_calls : option (list (list (string * json))))
| Thinking (content : string)
| Text (content : string)
| Image (url : string)
| Other (type : string).

Definition is_tool_calls (data : event) : bool :=
  match data with ToolCalls _ => true | _ => false end.

(** [req.body], destructured. *)
Record chatRequest : Type := ChatRequest {
  messages : option (list OpenAI.message);
  model : option string;
  stream : option bool;
  tools : option (list OpenAI.tool);
  params : list (string * json) }.

Definition OPEN : string := "<思考>".
Definition CLOSE : string := "</思考>".

(** [content.replace(/^<思考>\n?|\n?<\/思考>$/g, '')] *)
Definition strip_open (s : string) : string :=
  if String.prefix OPEN s then
    let r := Str.slice (String.length OPEN) s in
    if String.prefix Str.LF r then Str.slice 1 r else r
  else s.

Definition strip_close (s : string) : string :=
  let rs := String.rev s in
  if String.prefix (String.rev CLOSE) rs then
    let r := Str.slice (String.length CLOSE) rs in
    String.rev (if String.prefix Str.LF r then Str.slice 1 r else r)
  else s.

Definition cleanThinking (content : string) : string := strip_close (strip_open content).

(** [content.replace(/<思考>[\s\S]*?<\/思考>/g, '')] *)
Definition cleanText (content : string) : string :=
  Str.delete_matches (Str.span_len OPEN CLOSE) 0 content.

(** A property of an object literal: left out when its value is [undefined]. *)
Definition field (k : string) (v : option json) : list (string * json) :=
  match v with Some x => [(k, x)] | None => [] end.

Definition createStreamChunk (id : string) (created : Z) (model : string)
    (delta : json) (finish_reason : json) (usage : option json) : json :=
  JObj ([("id", JStr id); ("object", JStr "chat.completion.chunk");
         ("created", JNum created); ("model", JStr model);
         ("choices", JArr [JObj [("index", JNum 0); ("delta", delta);
                                 ("finish_reason", finish_reason)]])]
        ++ (if Json.truthy_opt usage then field "usage" usage else [])).

(** [createResponseMeta()] when the clock reads [now]. *)
Definition createResponseMeta (now : Z) : string * Z :=
  ("chatcmpl-" +:+ Json.num_to_string now, now / 1000).

(** The [delta] of a tool-call event. *)
Definition toolCallsDelta (tool_calls : option (list (list (string * json)))) : json :=
  JObj [("tool_calls",
         JArr (imap (fun index toolCall =>
                       JObj ([("index", JNum (Z.of_nat index))]
                             ++ field "id" (Json.get "id" toolCall)
                             ++ field "type" (Json.get "type" toolCall)
                             ++ field "function" (Json.get "function" toolCall)))
                    (default [] tool_calls)))].

(** [model || 'unknown'] *)
Definition model_or_unknown (model : option string) : string :=
  match model with
  | Some m => if Str.truthy m then m else "unknown"
  | None => "unknown"
  end.

Section WithEnvironment.

Variable JSON_stringify : json -> string.
Variable JSON_parse : string -> option json.
Variable config_defaults : Request.defaults.
Variable config_systemInstruction : string.
Variable generatedRequestId : string.
(** The thought-signature memory when the request arrives. *)
Variable signatures : Signature.store.
(** The handler's [resolveToken] and its [options]. *)
Variable resolveToken : result (option Request.token).
Variable tokenMissingError : option string.
Variable tokenMissingStatus : option Z.
(** The upstream client: the events it reports, then the usage it returns
    or the error it throws. *)
Variable generateAssistantResponse :
  Request.requestBody -> Request.token -> list event * (error + option json).
Variable generateAssistantResponseNoStream :
  Request.requestBody -> Request.token -> error + (json * list json * option json).
(** The [TypeError] of a request the adapter cannot convert. *)
Variable typeError : error.
(** [Date.now()] in the [try] block and in the [catch] block. *)
Variable now_try now_catch : Z.

Definition setStreamHeaders : M unit :=
  setHeader "Content-Type" "text/event-stream";;
  setHeader "Cache-Control" "no-cache";;
  setHeader "Connection" "keep-alive".

Definition sse (data : json) : string :=
  "data: " +:+ JSON_stringify data +:+ Str.LF +:+ Str.LF.

Definition DONE : string := "data: [DONE]" +:+ Str.LF +:+ Str.LF.

Definition writeStreamData (data : json) : M unit := write (sse data).

Definition endStream (id : string) (created : Z) (model : string)
    (finish_reason : string) (usage : option json) : M unit :=
  writeStreamData (createStreamChunk id created model (JObj []) (JStr finish_reason) usage);;
  write DONE;;
  end_.

(** [res.json(body)] *)
Definition json_ (body : json) : M unit :=
  setHeader "Content-Type" "application/json; charset=utf-8";;
  write (JSON_stringify body);;
  end_.

(** The upstream call: [callback] runs on each event, with the handler's
    local variables in [s]. *)
Fixpoint deliver {S : Type} (callback : S -> event -> M S) (s : S)
    (events : list event) : M S :=
  match events with
  | [] => mret s
  | data :: rest => s' ← callback s data; deliver callback s' rest
  end.

Definition callUpstream {S : Type} (requestBody : Request.requestBody)
    (tok : Request.token) (callback : S -> event -> M S) (s : S)
    : M (S * option json) :=
  let run := generateAssistantResponse requestBody tok in
  s' ← deliver callback s (fst run);
  match snd run with
  | inl e => throw e
  | inr usage => mret (s', usage)
  end.

(** The [delta] the text branch of the stream builds for an event. *)
Definition deltaOf (data : event) : json :=
  match data with
  | ToolCalls tool_calls => toolCallsDelta tool_calls
  | Thinking content => JObj [("reasoning_content", JStr (cleanThinking content))]
  | Text content =>
      let cleanContent := cleanText content in
      if Str.truthy cleanContent then JObj [("content", JStr cleanContent)] else JObj []
  | _ => JObj []
  end.

Definition hasKeys (delta : json) : bool :=
  match delta with JObj (_ :: _) => true | _ => false end.

(** The callback of the text branch; [hasToolCall] is its local flag. *)
Definition onEvent (id : string) (created : Z) (model : string)
    (hasToolCall : bool) (data : event) : M bool :=
  let delta := deltaOf data in
  if hasKeys delta then
    writeStreamData (createStreamChunk id created model delta JNull None);;
    mret (hasToolCall || is_tool_calls data)
  else mret hasToolCall.

(** The callback of the image branch; [imageUrls] is its local list. *)
Definition onImageEvent (id : string) (created : Z) (model : string)
    (imageUrls : list string) (data : event) : M (list string) :=
  match data with
  | Thinking content =>
      writeStreamData (createStreamChunk id created model
                         (JObj [("reasoning_content", JStr content)]) JNull None);;
      mret imageUrls
  | Image url => mret (imageUrls ++ [url])
  | Text content =>
      writeStreamData (createStreamChunk id created model
                         (JObj [("content", JStr content)]) JNull None);;
      mret imageUrls
  | _ => mret imageUrls
  end.

(** The changes the handler makes to the request of an image model. *)
Definition imageRequest (requestBody : Request.requestBody) : Request.requestBody :=
  let r := Request.body requestBody in
  let note := "（当前作为图像生成模型使用，请根据描述生成图片）" in
  let system :=
    match Upstream.parts (Request.systemInstruction r) with
    | Upstream.TextPart t sig :: rest =>
        Upstream.Turn (Upstream.role (Request.systemInstruction r))
          (Upstream.TextPart (t +:+ note) sig :: rest)
    | _ => Request.systemInstruction r
    end in
  Request.RequestBody (Request.project requestBody) (Request.requestId requestBody)
    (Request.Request (Request.contents r) system None None
       (Request.GenerationConfig None None None 1 None None (Some ["TEXT"; "IMAGE"])
          (Request.ThinkingConfig true 1024))
       (Request.session r))
    (Request.model requestBody) (Request.userAgent requestBody) (Some "image_gen").

Definition completion (id : string) (created : Z) (model : string)
    (message : json) (finish_reason : string) (usage : list (string * json)) : json :=
  JObj ([("id", JStr id); ("object", JStr "chat.completion"); ("created", JNum created);
         ("model", JStr model);
         ("choices", JArr [JObj [("index", JNum 0); ("message", message);
                                 ("finish_reason", JStr finish_reason)]])]
        ++ usage).

Definition errorBody (message : string) : json := JObj [("error", JStr message)].

(** The [try] block. *)
Definition tryBlock (req : chatRequest) : M unit :=
  match messages req with
  | None => set_status 400;; json_ (errorBody "messages is required")
  | Some msgs =>
      tok ← (fun r => (resolveToken, r));
      match tok with
      | None =>
          let message :=
            match tokenMissingError with
            | Some m => if Str.truthy m then m
                        else "没有可用的 token，请先通过 OAuth 面板或 npm run login 获取。"
            | None => "没有可用的 token，请先通过 OAuth 面板或 npm run login 获取。"
            end in
          let status :=
            match tokenMissingStatus with
            | Some s => if s =? 0 then 503 else s
            | None => 503
            end in
          set_status status;; json_ (errorBody message)
      | Some token =>
          let isImageModel :=
            match model req with Some m => Str.includes m "-image" | None => false end in
          match model req with
          | None => throw typeError
          | Some m =>
              match Request.generateRequestBody config_defaults config_systemInstruction
                      JSON_parse JSON_stringify generatedRequestId signatures
                      msgs m (params req) (tools req) token with
              | None => throw typeError
              | Some generated =>
                  let requestBody :=
                    if isImageModel then imageRequest generated else generated in
                  let '(id, created) := createResponseMeta now_try in
                  if default true (stream req) then
                    setStreamHeaders;;
                    if isImageModel then
                      ran ← callUpstream requestBody token (onImageEvent id created m) [];
                      let imageUrls : list string := fst ran in
                      let usage := snd ran in
                      (if SchemaCleaner.nonempty imageUrls then
                         let markdown :=
                           Json.join (Str.LF +:+ Str.LF)
                             (map (fun url => "![image](" +:+ url +:+ ")") imageUrls) in
                         writeStreamData
                           (createStreamChunk id created m
                              (JObj [("content", JStr markdown)]) JNull None)
                       else mret tt);;
                      endStream id created m "stop" usage
                    else
                      ran ← callUpstream requestBody token (onEvent id created m) false;
                      let hasToolCall : bool := fst ran in
                      let usage := snd ran in
                      endStream id created m
                        (if hasToolCall then "tool_calls" else "stop") usage
                  else
                    match generateAssistantResponseNoStream requestBody token with
                    | inl e => throw e
                    | inr (content, toolCalls, usage) =>
                        let message :=
                          JObj ([("role", JStr "assistant"); ("content", content)]
                                ++ (if SchemaCleaner.nonempty toolCalls
                                    then [("tool_calls", JArr toolCalls)] else [])) in
                        let finishReason :=
                          if SchemaCleaner.nonempty toolCalls then "tool_calls" else "stop" in
                        json_ (completion id created m message finishReason
                                 [("usage", if Json.truthy_opt usage
                                            then default JNull usage else JNull)])
                    end
              end
          end
      end
  end.

(** The [catch] block. *)
Definition catchBlock (req : chatRequest) (e : error) : M unit :=
  sent ← get_headersSent;
  if negb sent then
    let '(id, created) := createResponseMeta now_catch in
    let errorContent := "错误: " +:+ message e in
    if default true (stream req) then
      setStreamHeaders;;
      writeStreamData
        (createStreamChunk id created (model_or_unknown (model req))
           (JObj [("content", JStr errorContent)]) JNull None);;
      endStream id created (model_or_unknown (model req)) "stop" None
    else
      let status :=
        match statusCode e with
        | Some s => if s =? 0 then 500 else s
        | None => 500
        end in
      set_status status;;
      json_ (completion id created (model_or_unknown (model req))
               (JObj [("role", JStr "assistant"); ("content", JStr errorContent)])
               "stop" [])
  else mret tt.

Definition createChatCompletionHandler (req : chatRequest) : M unit :=
  try_catch (tryBlock req) (catchBlock req).

End WithEnvironment.
End Chat.

(** ** Credential import (server, lines 801-891 and 1250-1319) *)

Module Accounts.

(** A credential record: a JSON object. *)
Abbreviation record := (list (string * json)).

(** The credential file: absent, a text that [JSON.parse] reads as an
    array (of any values), or a text that it rejects or reads as something
    that is not an array. *)
Inductive file : Type :=
| Absent
| Entries (entries : list json)
| Unreadable.

Definition copyPairs : list (string * string) :=
  [("email", "email"); ("user_id", "user_id"); ("userId", "user_id");
   ("user_email", "user_email"); ("userEmail", "user_email");
   ("last_used", "last_used"); ("lastUsed", "last_used");
   ("created_at", "created_at"); ("createdAt", "created_at");
   ("next_reset_time", "next_reset_time"); ("nextResetTime", "next_reset_time");
   ("daily_limit_claude", "daily_limit_claude");
   ("dailyLimitClaude", "daily_limit_claude");
   ("daily_limit_gemini", "daily_limit_gemini");
   ("dailyLimitGemini", "daily_limit_gemini");
   ("daily_limit_total", "daily_limit_total");
   ("dailyLimitTotal", "daily_limit_total");
   ("claude_sonnet_4_5_calls", "claude_sonnet_4_5_calls");
   ("gemini_3_pro_calls", "gemini_3_pro_calls"); ("total_calls", "total_calls");
   ("last_success", "last_success"); ("error_codes", "error_codes");
   ("gemini_3_series_banned_until", "gemini_3_series_banned_until")].

(** [a || b] on property reads. *)
Definition or_else (a b : option json) : option json :=
  if Json.truthy_opt a then a else b.

(** [raw.disabled === true || raw.enable === false] *)
Definition isDisabled (raw : record) : bool :=
  match Json.get "disabled" raw with Some (JBool true) => true | _ => false end
  || Json.is_false (Json.get "enable" raw).

(** The [Map] of [mergeAccounts]: keys in insertion order. *)
Fixpoint map_get (key : json) (m : list (json * record)) : option record :=
  match m with
  | [] => None
  | (k, v) :: r => if Json.strict_eq key k then Some v else map_get key r
  end.

Fixpoint map_set (key : json) (v : record) (m : list (json * record))
    : list (json * record) :=
  match m with
  | [] => [(key, v)]
  | (k, v') :: r =>
      if Json.strict_eq key k then (k, v) :: r else (k, v') :: map_set key v r
  end.

(** [acc.refresh_token || acc.access_token || `${label}-${idx}`] *)
Definition merge_key (label : string) (idx : nat) (acc : record) : json :=
  default (JStr (label +:+ "-" +:+ Json.num_to_string (Z.of_nat idx)))
    (or_else (or_else (Json.get "refresh_token" acc) (Json.get "access_token" acc)) None).

Definition mergeAccounts (existing incoming : list record) (replaceExisting : bool)
    : list record :=
  if replaceExisting then incoming
  else
    let m1 :=
      fold_left (fun m ia => map_set (merge_key "existing" (fst ia) (snd ia)) (snd ia) m)
                (imap (fun idx acc => (idx, acc)) existing) [] in
    let m2 :=
      fold_left (fun m ia =>
                   let key := merge_key "incoming" (fst ia) (snd ia) in
                   let current := default [] (map_get key m) in
                   map_set key (Json.spread current (snd ia)) m)
                (imap (fun idx acc => (idx, acc)) incoming) m1 in
    map snd m2.

(** The [Map] of [mergeAccounts] when the existing array is what the file
    holds: the values are any JSON values. *)
Fixpoint stored_get (key : json) (m : list (json * json)) : option json :=
  match m with
  | [] => None
  | (k, v) :: r => if Json.strict_eq key k then Some v else stored_get key r
  end.

Fixpoint stored_set (key : json) (v : json) (m : list (json * json))
    : list (json * json) :=
  match m with
  | [] => [(key, v)]
  | (k, v') :: r =>
      if Json.strict_eq key k then (k, v) :: r else (k, v') :: stored_set key v r
  end.

(** [acc.refresh_token || acc.access_token || `existing-${idx}`] for an
    entry of the file: the read throws on [null], and finds nothing on a
    value that is not an object. *)
Definition stored_key (idx : nat) (acc : json) : option json :=
  match acc with
  | JNull => None
  | JObj fields => Some (merge_key "existing" idx fields)
  | _ => Some (JStr ("existing" +:+ "-" +:+ Json.num_to_string (Z.of_nat idx)))
  end.

Section WithEnvironment.

(** The one-unit strings [s[0]], [s[1]], ... of a string [s]. *)
Variable String_units : string -> list string.
(** [Number(s)] of a string, when it is finite. *)
Variable string_to_number : string -> option Z.
(** [Date.parse(v)] when it is not [NaN]. *)
Variable Date_parse : json -> option Z.
Variable Date_now : Z.
(** The TOML parser: the message of the error it throws, or the document. *)
Variable parseToml : string -> string + json.

(** [Number(v)] of a property read, when it is finite. *)
Definition JS_Number (v : option json) : option Z :=
  match v with
  | None | Some (JObj _) => None
  | Some JNull => Some 0
  | Some (JBool b) => Some (if b then 1 else 0)
  | Some (JNum n) => Some n
  | Some (JStr s) => string_to_number s
  | Some (JArr l) => string_to_number (Json.to_string (JArr l))
  end.

Definition parseTimestamp (raw : record) : Z :=
  match JS_Number (Json.get "timestamp" raw) with
  | Some n => n
  | None =>
      let dateString := or_else (Json.get "created_at" raw) (Json.get "createdAt" raw) in
      match dateString with
      | Some d =>
          if Json.truthy d then default Date_now (Date_parse d) else Date_now
      | None => Date_now
      end
  end.

Definition normalizeTomlAccount (raw : json) (filterDisabled : bool) : option record :=
  match raw with
  | JObj raw =>
      let accessToken :=
        Json.nullish_or (Json.get "access_token" raw) (Json.get "accessToken" raw) in
      let refreshToken :=
        Json.nullish_or (Json.get "refresh_token" raw) (Json.get "refreshToken" raw) in
      if filterDisabled && isDisabled raw then None
      else if negb (Json.truthy_opt accessToken) || negb (Json.truthy_opt refreshToken)
      then None
      else
        let expires :=
          Json.nullish_or (Json.get "expires_in" raw) (Json.get "expiresIn" raw) in
        let normalized :=
          [("access_token", default JNull accessToken);
           ("refresh_token", default JNull refreshToken);
           ("expires_in", JNum (default 3600 (JS_Number expires)));
           ("timestamp", JNum (parseTimestamp raw));
           ("enable", JBool (negb (isDisabled raw)))] in
        let projectId :=
          Json.nullish_or (Json.get "projectId" raw) (Json.get "project_id" raw) in
        let normalized :=
          if Json.truthy_opt projectId
          then Json.set "projectId" (default JNull projectId) normalized
          else normalized in
        Some (fold_left
                (fun n st =>
                   match Json.get (fst st) raw with
                   | Some v => Json.set (snd st) v n
                   | None => n
                   end)
                copyPairs normalized)
  | _ => None
  end.

(** The own properties that [{...(current || {})}] copies. *)
Definition own_properties (current : option json) : list (string * json) :=
  match current with
  | Some (JObj fields) => fields
  | Some (JArr items) => imap (fun i x => (Json.num_to_string (Z.of_nat i), x)) items
  | Some (JStr s) =>
      if Str.truthy s
      then imap (fun i c => (Json.num_to_string (Z.of_nat i), JStr c)) (String_units s)
      else []
  | _ => []
  end.

(** [mergeAccounts] as the import calls it: [existing] is the array the
    file holds, [incoming] the normalized records.  [None] is the
    [TypeError] of reading a token of [null]. *)
Definition mergeStored (existing : list json) (incoming : list record)
    (replaceExisting : bool) : option (list json) :=
  if replaceExisting then Some (map JObj incoming)
  else
    m1 ← fold_left
           (fun m ia =>
              m ← m;
              key ← stored_key (fst ia) (snd ia);
              Some (stored_set key (snd ia) m))
           (imap (fun idx acc => (idx, acc)) existing) (Some []);
    let m2 :=
      fold_left (fun m ia =>
                   let key := merge_key "incoming" (fst ia) (snd ia) in
                   let current := own_properties (stored_get key m) in
                   stored_set key (JObj (Json.spread current (snd ia))) m)
                (imap (fun idx acc => (idx, acc)) incoming) m1 in
    Some (map snd m2).

(** The body of the request, destructured. *)
Record importRequest : Type := ImportRequest {
  toml : option json;
  replaceExisting : option bool;
  filterDisabled : option bool }.

Record reply : Type := Reply { status : Z; body : json }.

(** What the handler does: it answers, or an error leaves it uncaught
    (Express then answers 500). *)
Inductive outcome : Type :=
| Replied (r : reply)
| Uncaught.

Definition bad_request (message : string) : outcome :=
  Replied (Reply 400 (JObj [("error", JStr message)])).

(** The loop over the accounts of the document: the normalized records and
    the count of the skipped ones. *)
Definition normalize_all (accountsFromToml : list json) (filter : bool)
    : list record * Z :=
  fold_left
    (fun acc raw =>
       match normalizeTomlAccount raw filter with
       | Some a => (fst acc ++ [a], snd acc)
       | None => (fst acc, snd acc + 1)
       end)
    accountsFromToml ([], 0).

(** [POST /auth/accounts/import-toml]: what the handler does and the
    credential file afterwards.  [tokenManager.initialize()] is taken to
    return. *)
Definition importToml (req : importRequest) (disk : file) : outcome * file :=
  match toml req with
  | Some (JStr tomlContent) =>
      if negb (Str.truthy tomlContent) then (bad_request "toml 字段必填且必须为字符串", disk)
      else
        match parseToml tomlContent with
        | inl message => (bad_request ("TOML 解析失败: " +:+ message), disk)
        | inr parsed =>
            let accountsFromToml :=
              match parsed with
              | JObj fields =>
                  match Json.get "accounts" fields with
                  | Some (JArr l) => l
                  | _ => []
                  end
              | _ => []
              end in
            if negb (SchemaCleaner.nonempty accountsFromToml)
            then (bad_request "未在 TOML 中找到 accounts 列表", disk)
            else
              let replace := default false (replaceExisting req) in
              let '(normalized, skipped) :=
                normalize_all accountsFromToml (default true (filterDisabled req)) in
              if negb (SchemaCleaner.nonempty normalized)
              then (bad_request "TOML 中没有有效的账号信息", disk)
              else
                let existing :=
                  if replace then []
                  else match disk with Entries l => l | _ => [] end in
                match mergeStored existing normalized replace with
                | None => (Uncaught, disk)
                | Some merged =>
                    (Replied
                       (Reply 200
                          (JObj [("success", JBool true);
                                 ("imported", JNum (Z.of_nat (length normalized)));
                                 ("skipped", JNum skipped);
                                 ("total", JNum (Z.of_nat (length merged)))])),
                     Entries merged)
                end
        end
  | _ => (bad_request "toml 字段必填且必须为字符串", disk)
  end.

End WithEnvironment.
End Accounts.


(** ** Statements of the specification, and sample inputs *)

Module Spec.




(** "The model name contains gemini-3." *)
Definition gemini3Model (modelName : string) : Prop :=
  exists a b, modelName = a +:+ "gemini-3" +:+ b.

(** The first lookup that finds something. *)
Fixpoint first_found {A : Type} (lookups : list (option A)) : option A :=
  match lookups with
  | [] => None
  | Some a :: _ => Some a
  | None :: r => first_found r
  end.

(** "By exact key, then by trimmed key, then by normalized key." *)
Definition signatureLookup (st : Signature.store) (text : string)
    : option Signature.payload :=
  let m := Signature.textThoughtSignatureMap st in
  first_found
    [m !! text; m !! Str.trim text;
     m !! Signature.normalizeTextForSignature (Str.trim text)].

(** "The text part is omitted from the [model] turn (only tool-call parts
    remain)": the new turn holds the call parts and nothing else. *)
Definition textOmitted (prior : list Upstream.turn) (calls : list Upstream.part)
    (result : option (list Upstream.turn)) : Prop :=
  result = Some (prior ++ [Upstream.Turn "model" calls]).

(** What becomes of a message whose text is blank: its call parts join the
    last turn when that is a [model] turn and there are calls, and make a
    new [model] turn otherwise; no text part either way. *)
Definition blankDropped (prior : list Upstream.turn) (calls : list Upstream.part)
    (result : option (list Upstream.turn)) : Prop :=
  (exists init l,
      prior = init ++ [l] /\ Upstream.role l = "model" /\ calls <> []
      /\ result = Some (init ++ [Upstream.Turn "model" (Upstream.parts l ++ calls)]))
  \/ (~ (exists init l,
           prior = init ++ [l] /\ Upstream.role l = "model" /\ calls <> [])
      /\ result = Some (prior ++ [Upstream.Turn "model" calls])).

(** "The emitted text part carries that signature": the new turn starts
    with the text that was registered, signed, and goes on with the call
    parts. *)
Definition textSigned (prior : list Upstream.turn) (calls : list Upstream.part)
    (p : Signature.payload) (result : option (list Upstream.turn)) : Prop :=
  result = Some (prior ++ [Upstream.Turn "model"
                             (Upstream.TextPart (Signature.text p)
                                (Some (Signature.signature p))
                              :: calls)]).

(** The sentence on assistant text, for texts that satisfy [nonEmpty]. *)
Definition assistantTextRule (nonEmpty : string -> Prop) : Prop :=
  forall (JSON_parse : string -> option json) (st : Signature.store)
         (message : OpenAI.message) (prior : list Upstream.turn)
         (modelName text : string),
    Signature.reachable st ->
    gemini3Model modelName ->
    Adapter.contentText (OpenAI.content message) = Some text ->
    nonEmpty text ->
    let result := Adapter.handleAssistantMessage JSON_parse st message prior modelName in
    let calls := Adapter.antigravityTools JSON_parse st message in
    match signatureLookup st text with
    | None => textOmitted prior calls result
    | Some p => textSigned prior calls p result
    end.

(** *** Schema cleaner *)

(** The fields the cleaned schema may not contain: the dropped ones and the
    extracted validation fields. *)
Definition banned : list string :=
  ["$schema"; "additionalProperties"; "uniqueItems"; "exclusiveMinimum";
   "exclusiveMaximum";
   "minLength"; "maxLength"; "minimum"; "maximum"; "minItems"; "maxItems";
   "minProperties"; "maxProperties"; "pattern"; "format"; "multipleOf"].

Definition validationNames : list string :=
  ["minLength"; "maxLength"; "minimum"; "maximum"; "minItems"; "maxItems";
   "minProperties"; "maxProperties"; "pattern"; "format"; "multipleOf"].

(** Some object of [v], at any nesting level, has a field named in [names]. *)
Fixpoint mentions (names : list string) (v : json) {struct v} : bool :=
  match v with
  | JArr items => existsb (mentions names) items
  | JObj fields =>
      existsb (fun kv => SchemaCleaner.mem (fst kv) names || mentions names (snd kv))
              fields
  | _ => false
  end.

(** Some object of [v], at any nesting level, has an empty [required] array. *)
Fixpoint emptyRequired (v : json) {struct v} : bool :=
  match v with
  | JArr items => existsb emptyRequired items
  | JObj fields =>
      match Json.get "required" fields with Some (JArr []) => true | _ => false end
      || existsb (fun kv => emptyRequired (snd kv)) fields
  | _ => false
  end.

(** Some object of [v], at any nesting level, has a field named like a
    member of [Object.prototype]. *)
Definition prototypeNamed (v : json) : bool :=
  mentions SchemaCleaner.objectPrototype v.

(** An object after the deletes of the fields in [names]. *)
Definition removes (names : list string) (obj : list (string * json))
    : list (string * json) :=
  fold_left (fun o f => Json.remove f o) names obj.

(** The notes on one object: [field: field] for each validation field it
    has, then [no additional properties] when it forbids them. *)
Definition notes (fields : list (string * json)) : list string :=
  map (fun f => f +:+ ": " +:+ f)
      (List.filter (fun f => Json.has f fields) validationNames)
  ++ (if Json.is_false (Json.get "additionalProperties" fields)
      then ["no additional properties"] else []).

(** The fields of one object that stay, [rec] being what happens to their
    values. *)
Fixpoint keep (rec : json -> json) (suffix top : bool) (vs : list string)
    (l : list (string * json)) : list (string * json) :=
  match l with
  | [] => []
  | (k, x) :: r =>
      if SchemaCleaner.mem k banned then keep rec suffix top vs r
      else if suffix && top && String.eqb k "description" && SchemaCleaner.nonempty vs
      then (k, SchemaCleaner.describe x vs) :: keep rec suffix top vs r
      else (k, rec x) :: keep rec suffix top vs r
  end.

(** The cleaned schema in the words of the specification: the banned fields
    go, an empty [required] goes, everything else stays.  With [suffix], the
    [description] of the top-level object takes its notes. *)
Fixpoint retained (suffix top : bool) (v : json) {struct v} : json :=
  match v with
  | JArr items => JArr (map (retained suffix top) items)
  | JObj fields =>
      let kept :=
        (fix keep (l : list (string * json)) : list (string * json) :=
           match l with
           | [] => []
           | (k, x) :: r =>
               if SchemaCleaner.mem k banned then keep r
               else if suffix && top && String.eqb k "description"
                       && SchemaCleaner.nonempty (notes fields)
               then (k, SchemaCleaner.describe x (notes fields)) :: keep r
               else (k, retained suffix false x) :: keep r
           end) fields in
      JObj (match Json.get "required" kept with
            | Some (JArr []) => Json.remove "required" kept
            | _ => kept
            end)
  | _ => v
  end.

(** The sentence on the cleaned schema; [suffix] says whether the top-level
    [description] is allowed to take the notes. *)
Definition cleanerRule (suffix : bool) (covered : json -> Prop) : Prop :=
  forall schema : json,
    mentions banned (SchemaCleaner.cleanJsonSchema schema) = false
    /\ emptyRequired (SchemaCleaner.cleanJsonSchema schema) = false
    /\ (covered schema ->
        SchemaCleaner.cleanJsonSchema schema = retained suffix true schema).

(** *** Thinking *)



(** *** API key *)

Fixpoint all_chars (p : ascii -> bool) (s : string) : bool :=
  match s with
  | EmptyString => true
  | String c r => p c && all_chars p r
  end.

(** A path that matches [^/(?:[\w-]+/)?v1/]: it starts with [/v1/], or with
    one segment of word characters and dashes and then [/v1/]. *)
Definition protectedPath (path : string) : Prop :=
  (exists rest, path = "/v1/" +:+ rest)
  \/ (exists seg rest,
        seg <> ""
        /\ all_chars ApiKey.is_word_or_dash seg = true
        /\ path = "/" +:+ seg +:+ "/v1/" +:+ rest).

(** The headers that may carry the key when there is no [Authorization]. *)
Definition alternatives : list string := ["x-api-key"; "api-key"; "x-api_key"; "api_key"].

(** "No API key is configured." *)
Definition unconfigured (apiKey : option string) : Prop :=
  apiKey = None \/ apiKey = Some "".

(** The key an [Authorization] header presents: what follows [Bearer ], or
    the whole value. *)
Definition presented (authorization : string) : string :=
  if Str.startsWith authorization "Bearer " then Str.slice 7 authorization
  else authorization.

(** The sentence on the precedence of [Authorization], for header values
    that satisfy [carries]. *)
Definition authorizationRule (carries : string -> Prop) : Prop :=
  forall (apiKey : option string) (path : string) (hs : gmap string string)
         (authorization : string),
    protectedPath path ->
    hs !! "authorization" = Some authorization ->
    carries authorization ->
    ApiKey.extractApiKeyFromHeaders hs = Some (presented authorization)
    /\ (forall k, apiKey = Some k -> k <> "" -> presented authorization <> k ->
         ApiKey.gate apiKey path hs = ApiKey.Reply 401 "Invalid API Key").

(** *** Streaming *)

(** The response after the frames [frames] were written to it. *)
Definition wrote (r : Http.response) (frames : list string) : Http.response :=
  Http.Response (Http.status r) (Http.headers r)
    (Http.headersSent r || SchemaCleaner.nonempty frames)
    (Http.written r ++ frames) (Http.finished r).

(** The headers of an event stream. *)
Definition streamHeaders : list (string * string) :=
  [("Connection", "keep-alive"); ("Cache-Control", "no-cache");
   ("Content-Type", "text/event-stream")].

(** The frames the client receives for the events of a text stream: one
    chunk for each event that has a delta. *)
Definition frames_of (JSON_stringify : json -> string) (id : string) (created : Z)
    (model : string) (events : list Chat.event) : list string :=
  flat_map
    (fun data =>
       if Chat.hasKeys (Chat.deltaOf data)
       then [Chat.sse JSON_stringify
               (Chat.createStreamChunk id created model (Chat.deltaOf data) JNull None)]
       else [])
    events.

(** The frames the client receives for the events of an image stream:
    thinking and text as they come, then the images as one markdown block. *)
Definition image_urls (events : list Chat.event) : list string :=
  flat_map (fun data => match data with Chat.Image url => [url] | _ => [] end) events.

Definition image_frames (JSON_stringify : json -> string) (id : string) (created : Z)
    (model : string) (events : list Chat.event) : list string :=
  flat_map
    (fun data =>
       match data with
       | Chat.Thinking content =>
           [Chat.sse JSON_stringify
              (Chat.createStreamChunk id created model
                 (JObj [("reasoning_content", JStr content)]) JNull None)]
       | Chat.Text content =>
           [Chat.sse JSON_stringify
              (Chat.createStreamChunk id created model
                 (JObj [("content", JStr content)]) JNull None)]
       | _ => []
       end)
    events
  ++ (if SchemaCleaner.nonempty (image_urls events)
      then [Chat.sse JSON_stringify
              (Chat.createStreamChunk id created model
                 (JObj [("content",
                         JStr (Json.join (Str.LF +:+ Str.LF)
                                 (map (fun url => "![image](" +:+ url +:+ ")")
                                      (image_urls events))))])
                 JNull None)]
      else []).

(** "A tool call was emitted": the text stream sends a chunk for every
    tool-call event, the image stream for none. *)
Definition toolCallEmitted (image : bool) (events : list Chat.event) : bool :=
  negb image && existsb Chat.is_tool_calls events.

(** "Termination": an empty-delta chunk with the finish reason, then the
    line [data: [DONE]]. *)
Definition termination (JSON_stringify : json -> string) (id : string) (created : Z)
    (model finish_reason : string) (usage : option json) : list string :=
  [Chat.sse JSON_stringify
     (Chat.createStreamChunk id created model (JObj []) (JStr finish_reason) usage);
   "data: [DONE]" +:+ Str.LF +:+ Str.LF].

(** The content chunk that reports an error. *)
Definition errorFrame (JSON_stringify : json -> string) (id : string) (created : Z)
    (model message : string) : string :=
  Chat.sse JSON_stringify
    (Chat.createStreamChunk id created model
       (JObj [("content", JStr ("错误: " +:+ message))]) JNull None).

(** [error.statusCode || 500] *)
Definition errorStatus (e : Http.error) : Z :=
  match Http.statusCode e with
  | Some s => if s =? 0 then 500 else s
  | None => 500
  end.

(** The fields of a delta. *)
Definition fields_of (delta : json) : list (string * json) :=
  match delta with JObj fields => fields | _ => [] end.

(** *** Credential records *)

(** The record [acc] is filed under the refresh token [k]. *)
Definition keyed (acc : list (string * json)) (k : string) : Prop :=
  Json.get "refresh_token" acc = Some (JStr k) /\ k <> "".

(** An object has each of its property names once. *)
Definition wellFormed (acc : list (string * json)) : Prop :=
  List.NoDup (map fst acc).

End Spec.

Module Sample.

Definition defaults : Request.defaults :=
  Request.Defaults (Some (JNum 1)) (Some (JNum 50)) (Some (JNum 1)) (Some (JNum 8096)).

Definition token : Request.token := Request.Token (Some "project-1") (Some "session-1").

Definition parse_nothing : string -> option json := fun _ => None.
Definition stringify_nothing : json -> string := fun _ => "{}".

Definition user_hi : OpenAI.message :=
  OpenAI.Message "user" (Some (JStr "hi")) None None.

Definition call_1 : OpenAI.tool_call :=
  OpenAI.ToolCall (Some "call-1") (Some "function") "lookup" (Some (JObj [])).

Definition assistant_call : OpenAI.message :=
  OpenAI.Message "assistant" None (Some [call_1]) None.

(** The memory after a reply of one blank with signature [sig-1]. *)
Definition blank_signed : Signature.store :=
  Signature.registerTextThoughtSignature " " "sig-1" Signature.empty.

Definition assistant_blank : OpenAI.message :=
  OpenAI.Message "assistant" (Some (JStr " ")) None None.

(** The memory after a reply [ hello ] with signature [sig-2]. *)
Definition hello_signed : Signature.store :=
  Signature.registerTextThoughtSignature " hello " "sig-2" Signature.empty.

Definition assistant_hello : OpenAI.message :=
  OpenAI.Message "assistant" (Some (JStr "hello  ")) (Some [call_1]) None.

(** A schema whose top level has a description and a constraint. *)
Definition described : json :=
  JObj [("type", JStr "string"); ("description", JStr "a name");
        ("minLength", JNum 3)].

(** The tool schema of the specification's third scenario. *)
Definition scenario_schema : list (string * json) :=
  [("type", JStr "object");
   ("properties",
    JObj [("x", JObj [("type", JStr "string"); ("minLength", JNum 3);
                      ("pattern", JStr "^a")])]);
   ("additionalProperties", JBool false);
   ("required", JArr [JStr "x"])].

Definition scenario_tool : OpenAI.tool :=
  OpenAI.Tool (Some (JStr "f")) (Some (JStr "a tool")) (Some scenario_schema).

(** What the specification says the upstream receives for it. *)
Definition scenario_claimed : json :=
  JObj [("type", JStr "object");
        ("properties", JObj [("x", JObj [("type", JStr "string")])]);
        ("required", JArr [JStr "x"]);
        ("description",
         JStr "(minLength: minLength, pattern: pattern, no additional properties)")].

(** What the cleaner returns for it. *)
Definition scenario_cleaned : json :=
  JObj [("type", JStr "object");
        ("properties", JObj [("x", JObj [("type", JStr "string")])]);
        ("required", JArr [JStr "x"])].

(** The same schema with a description at the top. *)
Definition scenario_described : json :=
  JObj (("description", JStr "point") :: scenario_schema).

(** An empty [Authorization] header beside the right key in [x-api-key]. *)
Definition empty_authorization : gmap string string :=
  <["authorization" := ""]> (<["x-api-key" := "secret"]> ∅).

(** A wrong [Authorization] header beside the right key in [x-api-key]. *)
Definition wrong_authorization : gmap string string :=
  <["authorization" := "Bearer guess"]> (<["x-api-key" := "secret"]> ∅).

(** The key in [api-key] alone. *)
Definition key_in_api_key : gmap string string := <["api-key" := "secret"]> ∅.

(** A chat request that streams by default, and an upstream that reports
    thinking, text and one tool call. *)
Definition chat_request : Chat.chatRequest :=
  Chat.ChatRequest (Some [user_hi]) (Some "gemini-2.5-flash") None None [].

Definition tool_call_event : Chat.event :=
  Chat.ToolCalls
    (Some [[("id", JStr "call-1"); ("type", JStr "function");
            ("function", JObj [("name", JStr "lookup"); ("arguments", JStr "{}")])]]).

Definition upstream_events : list Chat.event :=
  [Chat.Thinking "A"; Chat.Text "B"; tool_call_event].

Definition upstream (_ : Request.requestBody) (_ : Request.token)
    : list Chat.event * (Http.error + option json) :=
  (upstream_events, inr None).

Definition upstream_buffered (_ : Request.requestBody) (_ : Request.token)
    : Http.error + (json * list json * option json) :=
  inr (JStr "pong", [], None).

Definition upstream_failing (_ : Request.requestBody) (_ : Request.token)
    : list Chat.event * (Http.error + option json) :=
  (upstream_events, inl (Http.Error "quota exhausted" (Some 429))).

Definition chat_request_buffered : Chat.chatRequest :=
  Chat.ChatRequest (Some [user_hi]) (Some "gemini-2.5-flash") (Some false) None [].

Definition type_error : Http.error := Http.Error "TypeError" None.

(** An upstream failure with status 429. *)
Definition quota_error : Http.error := Http.Error "quota exhausted" (Some 429).

(** A response on which one chunk went out already. *)
Definition streaming_response : Http.response :=
  Http.Response 200 Spec.streamHeaders true ["data: {}"] false.

(** A TOML document of three accounts, the last one disabled, as the
    parser returns it; and a parser that returns it. *)
Definition toml_accounts : list json :=
  [JObj [("access_token", JStr "a1"); ("refresh_token", JStr "r1");
         ("timestamp", JNum 100)];
   JObj [("access_token", JStr "a2"); ("refresh_token", JStr "r2");
         ("timestamp", JNum 200); ("email", JStr "two@example.com")];
   JObj [("access_token", JStr "a3"); ("refresh_token", JStr "r3");
         ("timestamp", JNum 300); ("disabled", JBool true)]].

Definition parse_toml (_ : string) : string + json :=
  inr (JObj [("accounts", JArr toml_accounts)]).

(** The one-unit strings of an ASCII string. *)
Fixpoint ascii_units (s : string) : list string :=
  match s with
  | EmptyString => []
  | String c r => String c EmptyString :: ascii_units r
  end.

Definition no_number (_ : string) : option Z := None.
Definition no_date (_ : json) : option Z := None.


Definition stored_accounts : list (list (string * json)) :=
  [[("access_token", JStr "a0"); ("refresh_token", JStr "r0");
    ("enable", JBool true)]].

End Sample.
(** ** Panel sessions (server, lines 178-187, 578-580, 732-770, 992-1010
       and 1074-1090) *)

Module Panel.

Definition PANEL_SESSION_TTL_MS : Z := 2 * 60 * 60 * 1000.

(** [panelSessions]: session token to expiry time. *)
Abbreviation sessions := (gmap string Z).

(** [s.split(sep)] for a separator of one ASCII character; [cur] is the
    piece being read. *)
Fixpoint split (sep : ascii) (cur s : string) : list string :=
  match s with
  | EmptyString => [cur]
  | String c r =>
      if Ascii.eqb c sep then cur :: split sep "" r
      else split sep (cur +:+ String c "") r
  end.

(** What a guard does with a request. *)
Inductive outcome : Type :=
| Next
| Unauthorized
| Redirect (location : string).

(** What [POST /admin/login] answers: a redirect to the panel (with the
    cookie it sets, if it logs in), or the 401 page. *)
Inductive loginReply : Type :=
| NotEnabled
| LoggedIn (setCookie : string)
| Rejected.

(** [v === s] for a body field and a configured string. *)
Definition same (v : option json) (s : option string) : bool :=
  match v, s with
  | Some (JStr a), Some b => String.eqb a b
  | None, None => true
  | _, _ => false
  end.

Section WithEnvironment.

(** [isPanelPasswordConfigured()] when the server started. *)
Variable PANEL_AUTH_ENABLED : bool.
(** [config.panelUser] and [config.panelPassword] now. *)
Variable panelUser panelPassword : option string.
(** [decodeURIComponent], [None] when it throws, and [encodeURIComponent]
    on the hexadecimal tokens of the server. *)
Variable decodeURIComponent : string -> option string.
Variable encodeURIComponent : string -> string.

Definition getPanelUser : string :=
  match panelUser with
  | Some u => if Str.truthy u then u else "admin"
  | None => "admin"
  end.

Definition isPanelPasswordConfigured : bool :=
  match panelPassword with Some p => Str.truthy p | None => false end.

(** [getSessionTokenFromReq]: [None] when it throws. *)
Definition getSessionTokenFromReq (headers : gmap string string)
    : option (option string) :=
  match headers !! "cookie" with
  | None => Some None
  | Some cookie =>
      if negb (Str.truthy cookie) then Some None
      else
        match List.find (fun c => Str.startsWith c "panel_session=")
                (map Str.trim (split ";" "" cookie)) with
        | None => Some None
        | Some item =>
            match decodeURIComponent (Str.slice (String.length "panel_session=") item) with
            | Some token => Some (Some token)
            | None => None
            end
        end
  end.

(** [isPanelAuthed]: the answer and the sessions afterwards. *)
Definition isPanelAuthed (headers : gmap string string) (now : Z) (s : sessions)
    : option (bool * sessions) :=
  if negb PANEL_AUTH_ENABLED then Some (true, s)
  else
    token ← getSessionTokenFromReq headers;
    match token with
    | None => Some (false, s)
    | Some token =>
        if negb (Str.truthy token) then Some (false, s)
        else
          match s !! token with
          | None => Some (false, s)
          | Some expiresAt =>
              if expiresAt =? 0 then Some (false, s)
              else if now >? expiresAt then Some (false, delete token s)
              else Some (true, s)
          end
    end.

Definition requirePanelAuthPage (headers : gmap string string) (now : Z) (s : sessions)
    : option (outcome * sessions) :=
  if negb isPanelPasswordConfigured then Some (Next, s)
  else
    match isPanelAuthed headers now s with
    | Some (authed, s') => Some (if authed then Next else Redirect "/admin/login", s')
    | None => None
    end.

Definition requirePanelAuthApi (headers : gmap string string) (now : Z) (s : sessions)
    : option (outcome * sessions) :=
  if negb isPanelPasswordConfigured then Some (Next, s)
  else
    match isPanelAuthed headers now s with
    | Some (authed, s') => Some (if authed then Next else Unauthorized, s')
    | None => None
    end.

(** [POST /admin/login]; [token] is what [crypto.randomBytes(24)] gives in
    hexadecimal. *)
Definition login (username password : option json) (token : string) (now : Z)
    (s : sessions) : loginReply * sessions :=
  if negb PANEL_AUTH_ENABLED then (NotEnabled, s)
  else if same username (Some getPanelUser) && same password panelPassword then
    (LoggedIn ("panel_session=" +:+ encodeURIComponent token
               +:+ "; HttpOnly; Path=/; SameSite=Lax; Max-Age="
               +:+ Json.num_to_string (PANEL_SESSION_TTL_MS / 1000)),
     <[token := now + PANEL_SESSION_TTL_MS]> s)
  else (Rejected, s).

(** [POST /admin/logout]: the sessions afterwards. *)
Definition logout (headers : gmap string string) (s : sessions) : option sessions :=
  token ← getSessionTokenFromReq headers;
  match token with
  | Some token => if Str.truthy token then Some (delete token s) else Some s
  | None => Some s
  end.

End WithEnvironment.
End Panel.

(** ** Credential indexes of a quota query (server, lines 1607-1625)

    [parseInt] gives a double: the integers it reads are exact below
    [2^53], and above that the rounding leaves them above any array length,
    as is [Infinity], which [Number.isFinite] drops; so an index that
    passes the test [zeroBased < total] is the integer that was written. *)

Module Quota.

(** The separators of [/[,\s]+/]. *)
Definition separators : list string := "," :: map Str.bytes Str.whitespace.

(** [s.split(/[,\s]+/)]: [skip] counts the bytes left of the separator
    being passed, [in_run] says that the last character belonged to a
    separator, and [cur] is the piece being read. *)
Fixpoint split (skip : nat) (in_run : bool) (cur s : string) : list string :=
  match s with
  | EmptyString => [cur]
  | String c r =>
      match skip with
      | S k => split k true cur r
      | O =>
          match Str.match_len separators s with
          | S k => if in_run then split k true "" r else cur :: split k true "" r
          | O => split O false (cur +:+ String c "") r
          end
      end
  end.

Definition is_digit (c : ascii) : bool :=
  let n := nat_of_ascii c in ((48 <=? n) && (n <=? 57))%nat.

(** The value of the digits that [s] starts with, after [acc]. *)
Fixpoint digits_value (acc : Z) (s : string) : Z :=
  match s with
  | String c r =>
      if is_digit c then digits_value (10 * acc + Z.of_nat (nat_of_ascii c - 48)) r
      else acc
  | EmptyString => acc
  end.

(** [parseInt(s, 10)], [None] for [NaN]. *)
Definition parseInt (s : string) : option Z :=
  let t := Str.trimStart s in
  let negative := String.prefix "-" t in
  let r := if String.prefix "-" t || String.prefix "+" t then Str.slice 1 t else t in
  if (Str.run_len is_digit r =? 0)%nat then None
  else Some (if negative then - digits_value 0 r else digits_value 0 r).

(** [normalized.split(/[,\s]+/).map(part => parseInt(part, 10))
      .filter(num => Number.isFinite(num))] *)
Definition candidates (rawIndexes : json) : list Z :=
  let normalized :=
    match rawIndexes with
    | JArr items =>
        Json.join ","
          (map (fun x => match x with JNull => "" | _ => Json.to_string x end) items)
    | _ => Json.to_string rawIndexes
    end in
  omap parseInt (split 0 false "" normalized).

Definition zeroBased (num : Z) : Z := if num >? 0 then num - 1 else num.

Definition parseQuotaIndexes (rawIndexes : option json) (total : Z) : option (list Z) :=
  match rawIndexes with
  | None | Some JNull => None
  | Some rawIndexes =>
      Some (fold_left
              (fun unique num =>
                 if (zeroBased num >=? 0) && (zeroBased num <? total)
                    && negb (existsb (Z.eqb (zeroBased num)) unique)
                 then unique ++ [zeroBased num]
                 else unique)
              (candidates rawIndexes) [])
  end.

End Quota.

(** ** Removing and switching a credential (server, lines 1455-1489)

    The credential file is seen through [JSON.parse]: what the handlers
    write is read back as the value they wrote.  Writing the file is taken
    to succeed. *)

Module AccountAdmin.

(** The credential file: absent, or a text that [JSON.parse] rejects with
    a message or reads as a value. *)
Inductive stored : Type :=
| Missing
| Text (parsed : string + json).

Record reply : Type := Reply { status : Z; body : json }.

(** The number of UTF-16 code units of a string. *)
Fixpoint code_units (s : string) : nat :=
  match s with
  | EmptyString => O
  | String c r =>
      let n := nat_of_ascii c in
      ((if (128 <=? n) && (n <? 192) then 0 else if 240 <=? n then 2 else 1)
       + code_units r)%nat
  end.

(** What [accounts[index]] reads. *)
Inductive slot : Type :=
| Undefined
| Value (v : json)
| CodeUnit.

Definition truthy_slot (s : slot) : bool :=
  match s with
  | Undefined => false
  | Value v => Json.truthy v
  | CodeUnit => true
  end.

Section WithEnvironment.

(** [String(index)] of a parsed index, for the property name of an
    object. *)
Variable Number_toString : Z -> string.
(** The message of the error [fs.readFileSync] throws on a missing file,
    and of the [TypeError] of a read, a call or an assignment that the
    value does not allow. *)
Variable readError : string.
Variable typeError : json -> Z -> string.
(** [tokenManager.initialize()]: the message of the error it throws, if it
    throws. *)
Variable initialize : option string.

(** [accounts[index]]; [None] when it throws. *)
Definition read (accounts : json) (index : Z) : option slot :=
  match accounts with
  | JNull => None
  | JBool _ | JNum _ => Some Undefined
  | JStr s =>
      Some (if (0 <=? index) && (index <? Z.of_nat (code_units s))
            then CodeUnit else Undefined)
  | JArr items =>
      Some (if index <? 0 then Undefined
            else match items !! Z.to_nat index with
                 | Some v => Value v
                 | None => Undefined
                 end)
  | JObj fields =>
      Some (match Json.get (Number_toString index) fields with
            | Some v => Value v
            | None => Undefined
            end)
  end.

Definition refusal (code : Z) (message : string) : reply :=
  Reply code (JObj [("error", JStr message)]).

(** The [catch] block: [e.message || fallback] at status 500. *)
Definition failure (message fallback : string) : reply :=
  refusal 500 (if Str.truthy message then message else fallback).

(** The end of both handlers, after the write. *)
Definition finish (fallback : string) : reply :=
  match initialize with
  | Some message => failure message fallback
  | None => Reply 200 (JObj [("success", JBool true)])
  end.

(** [DELETE /auth/accounts/:index] *)
Definition deleteAccount (index : string) (disk : stored) : reply * stored :=
  match Quota.parseInt index with
  | None => (refusal 400 "无效的账号序号", disk)
  | Some index =>
      match disk with
      | Missing => (failure readError "删除失败", disk)
      | Text (inl message) => (failure message "删除失败", disk)
      | Text (inr accounts) =>
          match read accounts index with
          | None => (failure (typeError accounts index) "删除失败", disk)
          | Some found =>
              if negb (truthy_slot found) then (refusal 404 "账号不存在", disk)
              else
                match accounts with
                | JArr items =>
                    (finish "删除失败",
                     Text (inr (JArr (delete (Z.to_nat index) items))))
                | _ => (failure (typeError accounts index) "删除失败", disk)
                end
          end
      end
  end.

(** [accounts[index] = v] where [accounts[index]] was read as a value. *)
Definition write_at (accounts : json) (index : Z) (v : json) : json :=
  match accounts with
  | JArr items => JArr (<[Z.to_nat index := v]> items)
  | JObj fields => JObj (Json.set (Number_toString index) v fields)
  | other => other
  end.

(** [POST /auth/accounts/:index/enable] with the [enable] of the body. *)
Definition enableAccount (index : string) (enable : option json) (disk : stored)
    : reply * stored :=
  let enabled := match enable with Some v => Json.truthy v | None => true end in
  match Quota.parseInt index with
  | None => (refusal 400 "无效的账号序号", disk)
  | Some index =>
      match disk with
      | Missing => (failure readError "更新失败", disk)
      | Text (inl message) => (failure message "更新失败", disk)
      | Text (inr accounts) =>
          match read accounts index with
          | None => (failure (typeError accounts index) "更新失败", disk)
          | Some found =>
              if negb (truthy_slot found) then (refusal 404 "账号不存在", disk)
              else
                match found with
                | Value (JObj fields) =>
                    (finish "更新失败",
                     Text (inr (write_at accounts index
                                  (JObj (Json.set "enable" (JBool enabled) fields)))))
                | Value (JArr items) => (finish "更新失败", Text (inr accounts))
                | _ => (failure (typeError accounts index) "更新失败", disk)
                end
          end
      end
  end.

End WithEnvironment.
End AccountAdmin.

(** ** Vocabulary of the further properties *)

Module Props.
Import Upstream.

(** The [thoughtSignature] field of a part. *)
Definition signature_of (p : part) : option string :=
  match p with
  | TextPart _ s => s
  | FunctionCall _ _ _ s => s
  | _ => None
  end.

(** The request brings a session that is on record and has not expired. *)
Definition liveSession (decodeURIComponent : string -> option string)
    (headers : gmap string string) (now : Z) (s : Panel.sessions) : Prop :=
  exists token expiresAt,
    Panel.getSessionTokenFromReq decodeURIComponent headers = Some (Some token)
    /\ token <> ""
    /\ s !! token = Some expiresAt /\ expiresAt <> 0 /\ now <= expiresAt.

(** The request has a [panel_session] cookie whose value
    [decodeURIComponent] rejects. *)
Definition undecodable (decodeURIComponent : string -> option string)
    (headers : gmap string string) : Prop :=
  exists cookie item,
    headers !! "cookie" = Some cookie /\ cookie <> ""
    /\ List.find (fun c => Str.startsWith c "panel_session=")
         (map Str.trim (Panel.split ";" "" cookie)) = Some item
    /\ decodeURIComponent (Str.slice (String.length "panel_session=") item) = None.

(** The roles of the upstream conversation. *)
Definition role_ok (t : turn) : Prop := role t = "user" \/ role t = "model".

(** The first call of an assistant message that a tool result with this
    [tool_call_id] answers. *)
Definition answered (tool_call_id : option string) (calls : list OpenAI.tool_call)
    : option OpenAI.tool_call :=
  List.find (fun c => bool_decide (OpenAI.call_id c = tool_call_id)) calls.

(** The characters of a base64 payload. *)
Definition is_base64 (c : ascii) : bool :=
  let n := nat_of_ascii c in
  ((48 <=? n) && (n <=? 57) || (65 <=? n) && (n <=? 90)
   || (97 <=? n) && (n <=? 122) || (n =? 43) || (n =? 47) || (n =? 61))%nat.

End Props.

(** * Properties *)

#[local] Arguments append !s1 s2 : simpl nomatch.

(** ** Strings *)

Module StrFacts.

Lemma append_nil_r (s : string) : s +:+ "" = s.
Proof. induction s as [|c s IH]; simpl; [reflexivity | now rewrite IH]. Qed.

Lemma append_assoc (a b c : string) : (a +:+ b) +:+ c = a +:+ (b +:+ c).
Proof. induction a as [|x a IH]; simpl; [reflexivity | now rewrite IH]. Qed.

Lemma length_append (a b : string) :
  String.length (a +:+ b) = (String.length a + String.length b)%nat.
Proof. induction a as [|x a IH]; simpl; [reflexivity | now rewrite IH]. Qed.

Lemma prefix_cons (c d : ascii) (p s : string) :
  String.prefix (String c p) (String d s) = Ascii.eqb c d && String.prefix p s.
Proof.
  simpl. destruct (ascii_dec c d) as [->|Hne].
  - now rewrite Ascii.eqb_refl.
  - apply Ascii.eqb_neq in Hne. now rewrite Hne.
Qed.

Lemma prefix_nil (s : string) : String.prefix "" s = true.
Proof. now destruct s. Qed.

Lemma prefix_spec (p s : string) :
  String.prefix p s = true <-> exists r, s = p +:+ r.
Proof.
  revert s. induction p as [|c p IH]; intros s.
  - rewrite prefix_nil. split; [intros _; now exists s | reflexivity].
  - destruct s as [|d s].
    + split; [discriminate | intros [r H]; discriminate].
    + rewrite prefix_cons, andb_true_iff, Ascii.eqb_eq, IH. simpl. split.
      * intros [-> [r ->]]. now exists r.
      * intros [r H]. inversion H. eauto.
Qed.

Lemma prefix_append (p r : string) : String.prefix p (p +:+ r) = true.
Proof. apply prefix_spec. now exists r. Qed.

Lemma slice_append (p r : string) : Str.slice (String.length p) (p +:+ r) = r.
Proof. induction p as [|c p IH]; simpl; [now destruct r | exact IH]. Qed.




Lemma includes_cons (c : ascii) (s sub : string) :
  Str.includes (String c s) sub = String.prefix sub (String c s) || Str.includes s sub.
Proof. reflexivity. Qed.

Lemma includes_spec (s sub : string) :
  Str.includes s sub = true <-> exists a b, s = a +:+ sub +:+ b.
Proof.
  induction s as [|c s IH].
  - unfold Str.includes. rewrite prefix_spec. split.
    + intros [r H]. destruct sub; [|discriminate]. now exists ""%string, ""%string.
    + intros (a & b & H). destruct a; [|discriminate]. now exists b.
  - rewrite includes_cons, orb_true_iff, IH, prefix_spec. split.
    + intros [[r H] | (a & b & H)].
      * now exists ""%string, r.
      * exists (String c a), b. simpl. now rewrite H.
    + intros (a & b & H). destruct a as [|d a]; simpl in H.
      * left. now exists b.
      * right. inversion H. now exists a, b.
Qed.

End StrFacts.

(** ** Thinking configuration of a generated request *)

Module RequestFacts.





End RequestFacts.

(** ** Assistant text and thought signatures *)

Module SignatureFacts.

(** What every entry of the text map satisfies. *)
Definition entries_ok (m : gmap string Signature.payload) : Prop :=
  forall k p, m !! k = Some p -> k <> "" /\ Str.truthy (Signature.signature p) = true.

Lemma truthy_nonempty (s : string) : Str.truthy s = true <-> s <> "".
Proof.
  unfold Str.truthy. rewrite negb_true_iff. split.
  - intros H ->. discriminate.
  - intros H. now apply String.eqb_neq.
Qed.

Lemma set_if_ok (c : bool) (k : string) (p : Signature.payload)
    (m : gmap string Signature.payload) :
  (c = true -> Str.truthy k = true) ->
  Str.truthy (Signature.signature p) = true ->
  entries_ok m -> entries_ok (Signature.set_if c k p m).
Proof.
  intros Hk Hp Hm k' p' Hlook. unfold Signature.set_if in Hlook.
  destruct c; [|now apply Hm].
  destruct (decide (k = k')) as [<-|Hne].
  - rewrite lookup_insert_eq in Hlook. injection Hlook as <-.
    split; [now apply truthy_nonempty, Hk | exact Hp].
  - rewrite lookup_insert_ne in Hlook by exact Hne. now apply Hm.
Qed.

Lemma reachable_ok (st : Signature.store) :
  Signature.reachable st -> entries_ok (Signature.textThoughtSignatureMap st).
Proof.
  induction 1 as [|id sig st _ IH|t sig st _ IH].
  - intros k p H. simpl in H. now rewrite lookup_empty in H.
  - unfold Signature.registerThoughtSignature.
    now destruct (negb (Str.truthy id) || negb (Str.truthy sig)).
  - unfold Signature.registerTextThoughtSignature.
    destruct (Str.truthy t) eqn:Ht; [|exact IH].
    destruct (Str.truthy sig) eqn:Hsig; [|exact IH].
    simpl.
    apply set_if_ok; [intros H; now apply andb_true_iff in H as [H _] | exact Hsig |].
    apply set_if_ok; [tauto | exact Hsig |].
    apply (set_if_ok true); [intros _; exact Ht | exact Hsig | exact IH].
Qed.

(** On a reachable memory and a text that is not blank,
    [getTextThoughtSignature] is the lookup by exact, then trimmed, then
    normalized key. *)
Lemma getTextThoughtSignature_lookup (st : Signature.store) (text : string) :
  Signature.reachable st -> Str.trim text <> "" ->
  Signature.getTextThoughtSignature st text = Spec.signatureLookup st text.
Proof.
  intros Hst Htrim. apply reachable_ok in Hst.
  unfold Signature.getTextThoughtSignature, Spec.signatureLookup.
  apply truthy_nonempty in Htrim. rewrite Htrim. simpl.
  destruct (Signature.textThoughtSignatureMap st !! text); [reflexivity|].
  destruct (Signature.textThoughtSignatureMap st !! Str.trim text); [reflexivity|].
  destruct (Str.truthy (Signature.normalizeTextForSignature (Str.trim text))) eqn:Hn;
    simpl.
  - now destruct (_ !! _).
  - destruct (_ !! _) as [p|] eqn:Hl; [|reflexivity].
    destruct (Hst _ _ Hl) as [Hk _]. apply truthy_nonempty in Hk. congruence.
Qed.

Lemma getTextThoughtSignature_blank (st : Signature.store) (text : string) :
  Str.trim text = "" -> Signature.getTextThoughtSignature st text = None.
Proof. intros H. unfold Signature.getTextThoughtSignature. now rewrite H. Qed.

Lemma lookup_signed (st : Signature.store) (text : string) (p : Signature.payload) :
  Signature.reachable st -> Spec.signatureLookup st text = Some p ->
  Str.truthy (Signature.signature p) = true.
Proof.
  intros Hst H. apply reachable_ok in Hst.
  unfold Spec.signatureLookup, Spec.first_found in H.
  set (m := Signature.textThoughtSignatureMap st) in *.
  destruct (m !! text) as [q|] eqn:H1; [injection H as <-; now apply (Hst _ _ H1)|].
  destruct (m !! Str.trim text) as [q|] eqn:H2;
    [injection H as <-; now apply (Hst _ _ H2)|].
  destruct (m !! Signature.normalizeTextForSignature (Str.trim text)) as [q|] eqn:H3;
    [injection H as <-; now apply (Hst _ _ H3)|].
  discriminate.
Qed.

(** The result of [handleAssistantMessage] on a text that is not blank. *)
Lemma handleAssistantMessage_text (JSON_parse : string -> option json)
    (st : Signature.store) (message : OpenAI.message) (prior : list Upstream.turn)
    (modelName text : string) :
  Adapter.contentText (OpenAI.content message) = Some text ->
  Str.trim text <> "" ->
  Adapter.handleAssistantMessage JSON_parse st message prior modelName
  = Some (prior ++ [Upstream.Turn "model"
                      (Adapter.textParts st (Str.includes modelName "gemini-3") text
                       ++ Adapter.antigravityTools JSON_parse st message)]).
Proof.
  intros Hc Ht. unfold Adapter.handleAssistantMessage. rewrite Hc. simpl.
  apply String.eqb_neq in Ht. rewrite Ht. simpl. now rewrite andb_false_r.
Qed.

(** The result of [handleAssistantMessage] on a blank text. *)
Lemma handleAssistantMessage_blank (JSON_parse : string -> option json)
    (st : Signature.store) (message : OpenAI.message) (prior : list Upstream.turn)
    (modelName text : string) :
  Adapter.contentText (OpenAI.content message) = Some text ->
  Str.trim text = "" ->
  Spec.blankDropped prior (Adapter.antigravityTools JSON_parse st message)
    (Adapter.handleAssistantMessage JSON_parse st message prior modelName).
Proof.
  intros Hc Ht. unfold Adapter.handleAssistantMessage, Spec.blankDropped.
  rewrite Hc. cbn [mbind option_bind]. cbv zeta. rewrite Ht.
  cbn [String.eqb negb]. rewrite andb_true_r. cbn [app].
  assert (Hcalls : Adapter.hasToolCalls message = true
                   <-> Adapter.antigravityTools JSON_parse st message <> []).
  { unfold Adapter.antigravityTools, Adapter.hasToolCalls.
    destruct (OpenAI.tool_calls message) as [[|c calls]|]; cbn; split;
      congruence. }
  destruct (bool_decide (Upstream.role <$> last prior = Some "model")) eqn:El;
    cbn [andb].
  - apply bool_decide_eq_true in El.
    destruct prior as [|l init _] using rev_ind; [discriminate|].
    rewrite last_snoc in El. cbn in El. injection El as El.
    destruct (Adapter.hasToolCalls message) eqn:Eh.
    + left. exists init, l. split; [reflexivity|]. split; [exact El|].
      split; [now apply Hcalls|].
      unfold Adapter.push_to_last. rewrite rev_app_distr. cbn [List.rev app].
      now rewrite rev_involutive, El.
    + right. split; [|reflexivity].
      intros (init' & l' & _ & _ & Hne). apply Hcalls in Hne. congruence.
  - apply bool_decide_eq_false in El. right. split; [|reflexivity].
    intros (init' & l' & -> & Hl & _). apply El. rewrite last_snoc. cbn.
    now rewrite Hl.
Qed.

(** C1, counterexample.  A reply of one blank was registered with a
    signature; when it comes back as assistant text, the lookup by exact key
    finds the signature, yet the [model] turn has no text part. *)
Lemma assistant_text_rule_fails_on_blank :
  ~ Spec.assistantTextRule (fun text => text <> "").
Proof.
  intros H.
  specialize (H Sample.parse_nothing Sample.blank_signed Sample.assistant_blank []
                "gemini-3-pro-preview" " ").
  assert (Hg : Spec.gemini3Model "gemini-3-pro-preview")
    by (now exists ""%string, "-pro-preview"%string).
  specialize (H (Signature.reach_text _ _ _ Signature.reach_empty) Hg eq_refl
                ltac:(discriminate)).
  vm_compute in H. discriminate.
Qed.

(** C1, amended.  For assistant text that is not blank and a model name that
    contains [gemini-3], the signature is looked up by exact, then trimmed,
    then normalized key; without one the new [model] turn holds the call
    parts only, with one its text part carries the signature.  A blank text
    never yields a text part, and what it yields does not depend on the
    texts that were registered. *)
Theorem assistant_text_signature :
  Spec.assistantTextRule (fun text => Str.trim text <> "")
  /\ (forall (JSON_parse : string -> option json) (st : Signature.store)
             (message : OpenAI.message) (prior : list Upstream.turn)
             (modelName text : string),
        Adapter.contentText (OpenAI.content message) = Some text ->
        Str.trim text = "" ->
        Spec.blankDropped prior (Adapter.antigravityTools JSON_parse st message)
          (Adapter.handleAssistantMessage JSON_parse st message prior modelName)
        /\ forall texts : gmap string Signature.payload,
             Adapter.handleAssistantMessage JSON_parse
               (Signature.Store (Signature.thoughtSignatureMap st) texts)
               message prior modelName
             = Adapter.handleAssistantMessage JSON_parse st message prior modelName)
  /\ (forall (st : Signature.store) (text : string),
        Signature.reachable st -> Str.trim text <> "" ->
        Signature.getTextThoughtSignature st text = Spec.signatureLookup st text).
Proof.
  split; [|split].
  - intros JSON_parse st message prior modelName text Hst Hg Hc Ht result calls.
    subst result calls.
    rewrite (handleAssistantMessage_text _ _ _ _ _ _ Hc Ht).
    apply StrFacts.includes_spec in Hg. rewrite Hg.
    unfold Adapter.textParts.
    rewrite (getTextThoughtSignature_lookup _ _ Hst Ht).
    destruct (Spec.signatureLookup st text) as [p|] eqn:Hl.
    + unfold Spec.textSigned. now rewrite (lookup_signed _ _ _ Hst Hl).
    + reflexivity.
  - intros JSON_parse st message prior modelName text Hc Ht.
    split; [now apply handleAssistantMessage_blank with (text := text)|].
    intros texts. unfold Adapter.handleAssistantMessage. rewrite Hc.
    cbn [mbind option_bind]. cbv zeta. rewrite Ht. reflexivity.
  - intros. now apply getTextThoughtSignature_lookup.
Qed.

(** The reply [ hello ] was registered with [sig-2]; the assistant text
    [hello] followed by blanks finds it by its trimmed key. *)
Lemma assistant_text_signature_witness :
  Spec.gemini3Model "gemini-3-pro-preview"
  /\ Str.trim "hello  " <> ""
  /\ Spec.textSigned []
       (Adapter.antigravityTools Sample.parse_nothing Sample.hello_signed
          Sample.assistant_hello)
       (Signature.Payload "sig-2" " hello ")
       (Adapter.handleAssistantMessage Sample.parse_nothing Sample.hello_signed
          Sample.assistant_hello [] "gemini-3-pro-preview").
Proof.
  assert (Hg : Spec.gemini3Model "gemini-3-pro-preview")
    by (now exists ""%string, "-pro-preview"%string).
  assert (Ht : Str.trim "hello  " <> "") by (vm_compute; discriminate).
  split; [exact Hg | split; [exact Ht|]].
  destruct assistant_text_signature as [H _].
  exact (H Sample.parse_nothing Sample.hello_signed Sample.assistant_hello []
           "gemini-3-pro-preview" "hello  "
           (Signature.reach_text _ _ _ Signature.reach_empty) Hg eq_refl Ht).
Defined.

End SignatureFacts.

(** ** Schema cleaner *)

Module SchemaFacts.
Import SchemaCleaner.

(** Induction on JSON values, with the hypothesis on every item and field. *)
Lemma json_ind (P : json -> Prop) :
  P JNull -> (forall b, P (JBool b)) -> (forall n, P (JNum n)) -> (forall s, P (JStr s)) ->
  (forall items, Forall P items -> P (JArr items)) ->
  (forall fields, Forall (fun kv => P (snd kv)) fields -> P (JObj fields)) ->
  forall v, P v.
Proof.
  intros Hnull Hbool Hnum Hstr Harr Hobj.
  fix IH 1. intros [| b | n | s | items | fields].
  - exact Hnull.
  - apply Hbool.
  - apply Hnum.
  - apply Hstr.
  - apply Harr. induction items as [|x r IHr]; constructor; [apply IH | exact IHr].
  - apply Hobj. induction fields as [|[k x] r IHr]; constructor; [apply IH | exact IHr].
Qed.

(** *** Properties of an object as a list of fields *)

Lemma get_remove_eq (k : string) (l : list (string * json)) :
  Json.get k (Json.remove k l) = None.
Proof.
  induction l as [|[k' v] r IH]; simpl; [reflexivity|].
  destruct (String.eqb k k') eqn:E; [exact IH|]. simpl. now rewrite E.
Qed.

Lemma get_remove_ne (k g : string) (l : list (string * json)) :
  k <> g -> Json.get k (Json.remove g l) = Json.get k l.
Proof.
  intros Hne. induction l as [|[k' v] r IH]; simpl; [reflexivity|].
  destruct (String.eqb g k') eqn:E.
  - apply String.eqb_eq in E. subst k'.
    apply String.eqb_neq in Hne. now rewrite Hne.
  - simpl. now rewrite IH.
Qed.

Lemma has_remove_ne (k g : string) (l : list (string * json)) :
  k <> g -> Json.has k (Json.remove g l) = Json.has k l.
Proof. intros H. unfold Json.has. now rewrite get_remove_ne. Qed.

Lemma remove_absent (k : string) (l : list (string * json)) :
  Json.has k l = false -> Json.remove k l = l.
Proof.
  unfold Json.has. induction l as [|[k' v] r IH]; simpl; [reflexivity|].
  destruct (String.eqb k k') eqn:E; [discriminate|]. intros H. now rewrite IH.
Qed.

Lemma in_remove (k : string) (kv : string * json) (l : list (string * json)) :
  In kv (Json.remove k l) -> In kv l.
Proof.
  induction l as [|[k' v] r IH]; simpl; [tauto|].
  destruct (String.eqb k k'); simpl; tauto.
Qed.

Lemma mem_app (k : string) (a b : list string) : mem k (a ++ b) = mem k a || mem k b.
Proof. apply existsb_app. Qed.

Lemma mem_In (k : string) (l : list string) : mem k l = true <-> In k l.
Proof.
  unfold mem. rewrite existsb_exists. split.
  - intros (x & Hin & Heq). apply String.eqb_eq in Heq. now subst.
  - intros H. exists k. split; [exact H | apply String.eqb_refl].
Qed.

(** *** The loop and the deletes *)

Lemma entries_fix (top : bool) (validations : list string) (l : list (string * json)) :
  (fix entries (l : list (string * json)) : list (string * json) :=
     match l with
     | [] => []
     | (key, value) :: r =>
         if fieldsToRemove_has key then entries r
         else if in_validationFields key then entries r
         else if String.eqb key "description" && nonempty validations && top
              then (key, describe value validations) :: entries r
              else (key, if Json.is_object value then cleanObject false value else value)
                   :: entries r
     end) l
  = entries (cleanObject false) top validations l.
Proof.
  induction l as [|[key value] r IH]; [reflexivity|].
  cbn [entries]. rewrite <- IH. reflexivity.
Qed.

Lemma cleanObject_object (top : bool) (fields : list (string * json)) :
  cleanObject top (JObj fields)
  = JObj (drop_empty_required
            (entries (cleanObject false) top (fst (collectValidations fields)) fields)).
Proof. rewrite <- entries_fix. reflexivity. Qed.

Lemma cleanObject_primitive (top : bool) (v : json) :
  Json.is_object v = false -> cleanObject top v = v.
Proof. now destruct v. Qed.

Lemma cleanObject_array (top : bool) (items : list json) :
  cleanObject top (JArr items) = JArr (map (cleanObject top) items).
Proof.
  simpl. f_equal. apply map_ext. intros item.
  destruct (Json.is_object item) eqn:E; [reflexivity|].
  now rewrite cleanObject_primitive.
Qed.

Lemma entries_remove (rec : json -> json) (top : bool) (validations : list string)
    (k : string) (l : list (string * json)) :
  fieldsToRemove_has k || in_validationFields k = true ->
  entries rec top validations (Json.remove k l) = entries rec top validations l.
Proof.
  intros Hk. induction l as [|[key value] r IH]; simpl; [reflexivity|].
  destruct (String.eqb k key) eqn:E.
  - apply String.eqb_eq in E. subst key. rewrite IH.
    apply orb_true_iff in Hk as [-> | Hk]; [reflexivity|].
    rewrite Hk. now destruct (fieldsToRemove_has k).
  - simpl. now rewrite IH.
Qed.

Lemma entries_removes (rec : json -> json) (top : bool) (validations names : list string)
    (l : list (string * json)) :
  (forall k, In k names -> fieldsToRemove_has k || in_validationFields k = true) ->
  entries rec top validations (Spec.removes names l) = entries rec top validations l.
Proof.
  revert l. induction names as [|f names IH]; intros l Hn; simpl; [reflexivity|].
  rewrite IH by (intros k Hk; apply Hn; now right).
  apply entries_remove, Hn. now left.
Qed.

Lemma get_removes (k : string) (names : list string) (o : list (string * json)) :
  ~ In k names -> Json.get k (Spec.removes names o) = Json.get k o.
Proof.
  revert o. induction names as [|f names IH]; intros o Hk; simpl; [reflexivity|].
  rewrite IH by (intros H; apply Hk; now right).
  apply get_remove_ne. intros ->. apply Hk. now left.
Qed.

Lemma removes_cons (f : string) (names : list string) (o : list (string * json)) :
  Spec.removes (f :: names) o = Spec.removes names (Json.remove f o).
Proof. reflexivity. Qed.

Lemma removes_app (a b : list string) (o : list (string * json)) :
  Spec.removes (a ++ b) o = Spec.removes b (Spec.removes a o).
Proof. apply fold_left_app. Qed.

Lemma filter_has_remove (f : string) (names : list string) (o : list (string * json)) :
  ~ In f names ->
  List.filter (fun g => Json.has g (Json.remove f o)) names
  = List.filter (fun g => Json.has g o) names.
Proof.
  intros Hf. induction names as [|g names IH]; simpl; [reflexivity|].
  rewrite has_remove_ne by (intros ->; apply Hf; now left).
  rewrite IH by (intros H; apply Hf; now right). reflexivity.
Qed.

(** The first loop of [collectValidations]. *)
Lemma collect_validation_fields (names acc : list string) (o : list (string * json)) :
  List.NoDup names ->
  fold_left
    (fun (acc : list string * list (string * json)) (fv : string * string) =>
       if Json.has (fst fv) (snd acc)
       then (fst acc ++ [fst fv +:+ ": " +:+ snd fv], Json.remove (fst fv) (snd acc))
       else acc)
    (map (fun f => (f, f)) names) (acc, o)
  = (acc ++ map (fun f => f +:+ ": " +:+ f)
              (List.filter (fun f => Json.has f o) names),
     Spec.removes names o).
Proof.
  revert acc o. induction names as [|f names IH]; intros acc o Hnd.
  - simpl. now rewrite app_nil_r.
  - inversion Hnd as [|? ? Hf Hnd']; subst. simpl.
    destruct (Json.has f o) eqn:E.
    + rewrite IH by exact Hnd'. rewrite filter_has_remove by exact Hf.
      simpl. now rewrite <- app_assoc.
    + rewrite IH by exact Hnd'. now rewrite (remove_absent _ _ E).
Qed.

(** The second loop of [collectValidations]. *)
Lemma collect_fields_to_remove (names acc : list string) (o : list (string * json)) :
  List.NoDup names ->
  fold_left
    (fun (acc : list string * list (string * json)) (field : string) =>
       if Json.has field (snd acc)
       then ((if String.eqb field "additionalProperties"
                 && Json.is_false (Json.get field (snd acc))
              then fst acc ++ ["no additional properties"] else fst acc),
             Json.remove field (snd acc))
       else acc)
    names (acc, o)
  = (acc ++ (if mem "additionalProperties" names
                && Json.is_false (Json.get "additionalProperties" o)
             then ["no additional properties"] else []),
     Spec.removes names o).
Proof.
  revert acc o. induction names as [|f names IH]; intros acc o Hnd.
  - simpl. now rewrite app_nil_r.
  - inversion Hnd as [|? ? Hf Hnd']; subst.
    cbn [fold_left fst snd]. rewrite removes_cons.
    destruct (String.eqb f "additionalProperties") eqn:Ef.
    + apply String.eqb_eq in Ef. subst f.
      assert (Hm : mem "additionalProperties" names = false).
      { apply not_true_is_false. intros H. now apply mem_In in H. }
      assert (Hm' : mem "additionalProperties" ("additionalProperties" :: names) = true)
        by reflexivity.
      rewrite Hm'.
      destruct (Json.has "additionalProperties" o) eqn:E; cbn [andb].
      * rewrite IH by exact Hnd'. rewrite Hm. cbn [andb].
        destruct (Json.is_false _); rewrite ?app_nil_r; reflexivity.
      * rewrite IH by exact Hnd'. rewrite Hm. cbn [andb].
        rewrite (remove_absent _ _ E).
        unfold Json.has in E.
        destruct (Json.get "additionalProperties" o); [discriminate|].
        reflexivity.
    + assert (Hne : "additionalProperties" <> f).
      { intros <-. now rewrite String.eqb_refl in Ef. }
      assert (Hm : mem "additionalProperties" (f :: names)
                   = mem "additionalProperties" names).
      { unfold mem. cbn [existsb]. now rewrite String.eqb_sym, Ef. }
      rewrite Hm.
      destruct (Json.has f o) eqn:E.
      * rewrite IH by exact Hnd'. now rewrite get_remove_ne.
      * rewrite IH by exact Hnd'. now rewrite (remove_absent _ _ E).
Qed.

Lemma NoDup_validationNames : List.NoDup Spec.validationNames.
Proof. repeat constructor; simpl; intuition discriminate. Qed.

Lemma NoDup_fieldsToRemove : List.NoDup fieldsToRemove.
Proof. repeat constructor; simpl; intuition discriminate. Qed.

(** [collectValidations] gathers the notes of the specification and deletes
    the banned fields. *)
Lemma collectValidations_notes (fields : list (string * json)) :
  collectValidations fields
  = (Spec.notes fields, Spec.removes (Spec.validationNames ++ fieldsToRemove) fields).
Proof.
  unfold collectValidations, validationFields.
  change ["minLength"; "maxLength"; "minimum"; "maximum"; "minItems"; "maxItems";
          "minProperties"; "maxProperties"; "pattern"; "format"; "multipleOf"]
    with Spec.validationNames.
  rewrite collect_validation_fields by apply NoDup_validationNames.
  rewrite collect_fields_to_remove by apply NoDup_fieldsToRemove.
  rewrite get_removes by (simpl; intuition discriminate).
  rewrite removes_app. reflexivity.
Qed.

(** The loop sees the object after the deletes; they change nothing for it. *)
Lemma loop_after_deletes (rec : json -> json) (top : bool) (validations : list string)
    (fields : list (string * json)) :
  entries rec top validations (snd (collectValidations fields))
  = entries rec top validations fields.
Proof.
  rewrite collectValidations_notes. cbn [snd].
  apply entries_removes. intros k Hk.
  apply in_app_or in Hk as [Hk | Hk].
  - apply orb_true_iff. right. unfold in_validationFields.
    apply orb_true_iff. left. now apply mem_In.
  - apply orb_true_iff. left. now apply mem_In.
Qed.

(** *** The cleaned schema *)

Lemma keep_fix (suffix top : bool) (vs : list string) (l : list (string * json)) :
  (fix keep (l : list (string * json)) : list (string * json) :=
     match l with
     | [] => []
     | (k, x) :: r =>
         if mem k Spec.banned then keep r
         else if suffix && top && String.eqb k "description" && nonempty vs
              then (k, describe x vs) :: keep r
              else (k, Spec.retained suffix false x) :: keep r
     end) l
  = Spec.keep (Spec.retained suffix false) suffix top vs l.
Proof.
  induction l as [|[k x] r IH]; [reflexivity|].
  cbn [Spec.keep]. rewrite <- IH. reflexivity.
Qed.

Lemma retained_object (suffix top : bool) (fields : list (string * json)) :
  Spec.retained suffix top (JObj fields)
  = JObj (drop_empty_required
            (Spec.keep (Spec.retained suffix false) suffix top (Spec.notes fields) fields)).
Proof. rewrite <- keep_fix. reflexivity. Qed.

Lemma banned_split (k : string) :
  mem k Spec.banned = fieldsToRemove_has k || mem k (map fst validationFields).
Proof.
  unfold fieldsToRemove_has. rewrite <- mem_app. reflexivity.
Qed.

Lemma kept_not_banned (k : string) :
  fieldsToRemove_has k = false -> in_validationFields k = false ->
  mem k Spec.banned = false.
Proof.
  intros H1 H2. rewrite banned_split, H1. simpl.
  unfold in_validationFields in H2. now apply orb_false_iff in H2 as [H2 _].
Qed.

(** Every entry the loop writes has a name that is not banned, and a value
    that is a note or the cleaned value of a field. *)
Lemma entries_In (rec : json -> json) (top : bool) (validations : list string)
    (l : list (string * json)) (k : string) (x : json) :
  In (k, x) (entries rec top validations l) ->
  mem k Spec.banned = false
  /\ ((exists v, x = describe v validations)
      \/ (exists v, In (k, v) l /\ x = if Json.is_object v then rec v else v)).
Proof.
  induction l as [|[key value] r IH]; simpl; [tauto|].
  destruct (fieldsToRemove_has key) eqn:E1;
    [intros H; destruct (IH H) as (? & [?|(v & ? & ?)]); eauto 6|].
  destruct (in_validationFields key) eqn:E2;
    [intros H; destruct (IH H) as (? & [?|(v & ? & ?)]); eauto 6|].
  destruct (String.eqb key "description" && nonempty validations && top);
    (intros [H|H];
     [injection H as <- <-; split; [now apply kept_not_banned | eauto 6]
     | destruct (IH H) as (? & [?|(v & ? & ?)]); eauto 6]).
Qed.

Lemma in_drop_empty_required (kv : string * json) (cleaned : list (string * json)) :
  In kv (drop_empty_required cleaned) -> In kv cleaned.
Proof.
  unfold drop_empty_required.
  destruct (Json.get "required" cleaned) as [[| | | |[|]|]|];
    solve [tauto | apply in_remove].
Qed.

Lemma required_after_drop (cleaned : list (string * json)) :
  match Json.get "required" (drop_empty_required cleaned) with
  | Some (JArr []) => true
  | _ => false
  end = false.
Proof.
  unfold drop_empty_required.
  destruct (Json.get "required" cleaned) as [[| | | |[|]|]|] eqn:E;
    rewrite ?E, ?get_remove_eq; reflexivity.
Qed.

Lemma existsb_false {A : Type} (f : A -> bool) (l : list A) :
  (forall x, In x l -> f x = false) -> existsb f l = false.
Proof.
  intros H. apply not_true_is_false. intros E.
  apply existsb_exists in E as (x & Hin & Hx). rewrite (H x Hin) in Hx. discriminate.
Qed.

Lemma primitive_mentions (names : list string) (v : json) :
  Json.is_object v = false -> Spec.mentions names v = false.
Proof. now destruct v. Qed.

Lemma primitive_emptyRequired (v : json) :
  Json.is_object v = false -> Spec.emptyRequired v = false.
Proof. now destruct v. Qed.

Lemma mentions_array (names : list string) (items : list json) :
  Spec.mentions names (JArr items) = existsb (Spec.mentions names) items.
Proof. reflexivity. Qed.

Lemma mentions_object (names : list string) (fields : list (string * json)) :
  Spec.mentions names (JObj fields)
  = existsb (fun kv => mem (fst kv) names || Spec.mentions names (snd kv)) fields.
Proof. reflexivity. Qed.

Lemma emptyRequired_array (items : list json) :
  Spec.emptyRequired (JArr items) = existsb Spec.emptyRequired items.
Proof. reflexivity. Qed.

Lemma emptyRequired_object (fields : list (string * json)) :
  Spec.emptyRequired (JObj fields)
  = match Json.get "required" fields with Some (JArr []) => true | _ => false end
    || existsb (fun kv => Spec.emptyRequired (snd kv)) fields.
Proof. reflexivity. Qed.

Lemma cleanObject_no_banned (v : json) :
  forall top, Spec.mentions Spec.banned (cleanObject top v) = false.
Proof.
  induction v as [| | | |items IH|fields IH] using json_ind; intros top;
    try reflexivity.
  - rewrite cleanObject_array, mentions_array. apply existsb_false. intros x Hx.
    apply in_map_iff in Hx as (item & <- & Hin).
    rewrite List.Forall_forall in IH. now apply IH.
  - rewrite cleanObject_object, mentions_object. apply existsb_false. intros [k x] Hx.
    apply in_drop_empty_required, entries_In in Hx as (Hk & Hx).
    cbn [fst snd]. rewrite Hk. cbn [orb].
    destruct Hx as [(v & ->) | (v & Hin & ->)]; [reflexivity|].
    destruct (Json.is_object v) eqn:E; [|now apply primitive_mentions].
    rewrite List.Forall_forall in IH. apply (IH (k, v) Hin).
Qed.

Lemma cleanObject_no_empty_required (v : json) :
  forall top, Spec.emptyRequired (cleanObject top v) = false.
Proof.
  induction v as [| | | |items IH|fields IH] using json_ind; intros top;
    try reflexivity.
  - rewrite cleanObject_array, emptyRequired_array. apply existsb_false. intros x Hx.
    apply in_map_iff in Hx as (item & <- & Hin).
    rewrite List.Forall_forall in IH. now apply IH.
  - rewrite cleanObject_object, emptyRequired_object, required_after_drop. cbn [orb].
    apply existsb_false. intros [k x] Hx.
    apply in_drop_empty_required, entries_In in Hx as (Hk & Hx). cbn [fst snd].
    destruct Hx as [(v & ->) | (v & Hin & ->)]; [reflexivity|].
    destruct (Json.is_object v) eqn:E; [|now apply primitive_emptyRequired].
    rewrite List.Forall_forall in IH. apply (IH (k, v) Hin).
Qed.

(** On fields that are not named like members of [Object.prototype], the
    loop keeps what the specification keeps. *)
Lemma entries_keep (top : bool) (vs : list string) (l : list (string * json)) :
  Forall (fun kv => mem (fst kv) objectPrototype = false
                    /\ cleanObject false (snd kv) = Spec.retained true false (snd kv)) l ->
  entries (cleanObject false) top vs l = Spec.keep (Spec.retained true false) true top vs l.
Proof.
  induction 1 as [|[k x] r [Hk Hx] _ IH]; cbn [entries Spec.keep]; [reflexivity|].
  cbn [fst snd] in Hk, Hx.
  rewrite banned_split. unfold in_validationFields. rewrite Hk, orb_false_r.
  destruct (fieldsToRemove_has k); cbn [orb]; [exact IH|].
  destruct (mem k (map fst validationFields)); [exact IH|].
  rewrite IH.
  replace (true && top && String.eqb k "description" && nonempty vs)
    with (String.eqb k "description" && nonempty vs && top)
    by (destruct top, (String.eqb k "description"), (nonempty vs); reflexivity).
  destruct (String.eqb k "description" && nonempty vs && top); [reflexivity|].
  destruct (Json.is_object x) eqn:E; [now rewrite Hx|].
  rewrite <- Hx. now rewrite cleanObject_primitive.
Qed.

Lemma existsb_false_In {A : Type} (f : A -> bool) (l : list A) (x : A) :
  existsb f l = false -> In x l -> f x = false.
Proof.
  intros H Hin. apply not_true_is_false. intros E.
  assert (existsb f l = true) by (apply existsb_exists; eauto). congruence.
Qed.

Lemma cleanObject_retained (v : json) :
  forall top, Spec.prototypeNamed v = false ->
              cleanObject top v = Spec.retained true top v.
Proof.
  unfold Spec.prototypeNamed.
  induction v as [| | | |items IH|fields IH] using json_ind; intros top Hp;
    try reflexivity.
  - rewrite cleanObject_array. cbn [Spec.retained]. f_equal.
    apply map_ext_in. intros item Hin.
    rewrite List.Forall_forall in IH. apply IH; [exact Hin|].
    rewrite mentions_array in Hp. exact (existsb_false_In _ _ _ Hp Hin).
  - rewrite cleanObject_object, retained_object, collectValidations_notes. cbn [fst].
    f_equal. f_equal. apply entries_keep.
    rewrite List.Forall_forall in IH |- *. intros [k x] Hin. cbn [fst snd].
    rewrite mentions_object in Hp.
    pose proof (existsb_false_In _ _ _ Hp Hin) as E. cbn [fst snd] in E.
    apply orb_false_iff in E as [Ek Ex]. split; [exact Ek|].
    apply (IH (k, x) Hin false Ex).
Qed.

(** C2, counterexample.  A top-level [description] is a field outside the
    banned ones, and the cleaner rewrites it when the top level has a
    constraint. *)
Lemma cleaner_rewrites_description :
  ~ Spec.cleanerRule false (fun _ => True).
Proof.
  intros H. destruct (H Sample.described) as (_ & _ & E).
  specialize (E I). vm_compute in E. discriminate.
Qed.

(** C2, amended.  The cleaned schema has none of the banned fields at any
    nesting level and no empty [required] array; every other field stays,
    its value cleaned in the same way, except that the [description] of the
    top-level object takes the notes of that object.  Fields named like a
    member of [Object.prototype] are left out of the statement. *)
Theorem cleaned_schema :
  Spec.cleanerRule true (fun schema => Spec.prototypeNamed schema = false).
Proof.
  intros schema. unfold cleanJsonSchema.
  destruct schema as [| b | n | s | items | fields];
    cbn [Json.truthy Json.is_object negb orb];
    rewrite ?orb_true_r; try (now repeat split).
  - split; [apply cleanObject_no_banned|].
    split; [apply cleanObject_no_empty_required | apply cleanObject_retained].
  - split; [apply cleanObject_no_banned|].
    split; [apply cleanObject_no_empty_required | apply cleanObject_retained].
Qed.

Lemma cleaned_schema_witness :
  Spec.prototypeNamed Sample.scenario_described = false
  /\ cleanJsonSchema Sample.scenario_described
     = Spec.retained true true Sample.scenario_described.
Proof.
  split; [reflexivity|].
  apply (proj2 (proj2 (cleaned_schema Sample.scenario_described))). reflexivity.
Defined.

End SchemaFacts.

(** ** The notes on the top-level description *)

Module SuffixFacts.
Import SchemaCleaner.

(** What the loop writes under a name it does not skip. *)
Lemma get_entries (rec : json -> json) (top : bool) (validations : list string)
    (k : string) (l : list (string * json)) :
  fieldsToRemove_has k = false -> in_validationFields k = false ->
  Json.get k (entries rec top validations l)
  = option_map
      (fun v => if String.eqb k "description" && nonempty validations && top
                then describe v validations
                else if Json.is_object v then rec v else v)
      (Json.get k l).
Proof.
  intros H1 H2. induction l as [|[key value] r IH]; [reflexivity|].
  cbn [entries Json.get]. destruct (String.eqb k key) eqn:E.
  - apply String.eqb_eq in E. subst key. rewrite H1, H2.
    destruct (String.eqb k "description" && nonempty validations && top);
      cbn [Json.get]; rewrite String.eqb_refl; reflexivity.
  - destruct (fieldsToRemove_has key); [exact IH|].
    destruct (in_validationFields key); [exact IH|].
    destruct (String.eqb key "description" && nonempty validations && top);
      cbn [Json.get]; rewrite E; exact IH.
Qed.

Lemma get_drop_empty_required (k : string) (cleaned : list (string * json)) :
  k <> "required" ->
  Json.get k (drop_empty_required cleaned) = Json.get k cleaned.
Proof.
  intros Hk. unfold drop_empty_required.
  destruct (Json.get "required" cleaned) as [[| | | |[|]|]|]; try reflexivity.
  now apply SchemaFacts.get_remove_ne.
Qed.

(** C3, counterexample.  For the tool of the third scenario the upstream
    receives parameters without a [description]: the schema has none to
    append to, and the constraints of [x] are not at the top level. *)
Lemma scenario_parameters_differ :
  map (fun e => map parameters (functionDeclarations e))
      (convertOpenAIToolsToAntigravity (Some [Sample.scenario_tool]))
  <> [[Sample.scenario_claimed]].
Proof. intros H. vm_compute in H. discriminate. Qed.

(** C3, amended.  The cleaner never adds a [description].  When the
    top-level object has one and has notes of its own (a validation field,
    or [additionalProperties: false]), its [description] becomes the old
    text followed by the comma-joined notes in brackets; constraints of
    nested objects are removed without a note.  For the scenario's schema
    the parameters are the schema without the banned fields. *)
Theorem description_suffix :
  (forall fields : list (string * json),
     exists cleaned,
       cleanJsonSchema (JObj fields) = JObj cleaned
       /\ Json.get "description" cleaned
          = match Json.get "description" fields with
            | None => None
            | Some d =>
                Some (if nonempty (Spec.notes fields)
                      then JStr (Str.trim
                                   ((if Json.truthy d then Json.to_string d else "")
                                    +:+ " (" +:+ Json.join ", " (Spec.notes fields)
                                    +:+ ")"))
                      else if Json.is_object d then cleanObject false d else d)
            end)
  /\ map (fun e => map parameters (functionDeclarations e))
         (convertOpenAIToolsToAntigravity (Some [Sample.scenario_tool]))
     = [[Sample.scenario_cleaned]]
  /\ Json.get "description"
       (match cleanJsonSchema Sample.scenario_described with
        | JObj cleaned => cleaned
        | _ => []
        end)
     = Some (JStr "point (no additional properties)").
Proof.
  split; [|split; reflexivity].
  intros fields. eexists. split.
  - unfold cleanJsonSchema. cbn [Json.truthy Json.is_object negb orb].
    apply SchemaFacts.cleanObject_object.
  - rewrite get_drop_empty_required by discriminate.
    rewrite get_entries by reflexivity.
    rewrite SchemaFacts.collectValidations_notes. cbn [fst].
    destruct (Json.get "description" fields) as [d|]; [|reflexivity].
    cbn [option_map]. rewrite String.eqb_refl. cbn [andb]. rewrite andb_true_r.
    reflexivity.
Qed.

End SuffixFacts.

(** ** API-key gate *)

Module ApiKeyFacts.
Import ApiKey.

Lemma run_len_split (p : ascii -> bool) (s : string) :
  exists seg, s = seg +:+ Str.slice (Str.run_len p s) s
              /\ Spec.all_chars p seg = true
              /\ String.length seg = Str.run_len p s.
Proof.
  induction s as [|c s (seg & Hs & Hall & Hlen)]; cbn [Str.run_len].
  - now exists ""%string.
  - destruct (p c) eqn:E.
    + exists (String c seg). cbn [Str.slice Spec.all_chars String.length append].
      rewrite E, Hall, Hlen. now rewrite <- Hs.
    + now exists ""%string.
Qed.

Lemma run_len_stop (p : ascii -> bool) (seg : string) (c : ascii) (rest : string) :
  Spec.all_chars p seg = true -> p c = false ->
  Str.run_len p (seg +:+ String c rest) = String.length seg.
Proof.
  intros Hall Hc. induction seg as [|d seg IH]; cbn [append Str.run_len String.length].
  - now rewrite Hc.
  - cbn [Spec.all_chars] in Hall. apply andb_true_iff in Hall as [Hd Hall].
    now rewrite Hd, IH.
Qed.

(** [isProtectedApiPath] decides the pattern of the specification. *)
Lemma isProtectedApiPath_spec (path : string) :
  isProtectedApiPath path = true <-> Spec.protectedPath path.
Proof.
  unfold isProtectedApiPath, Spec.protectedPath. split.
  - intros H. apply andb_true_iff in H as [Hslash H].
    apply StrFacts.prefix_spec in Hslash as [a ->].
    change (Str.slice 1 ("/" +:+ a)) with a in H.
    apply orb_true_iff in H as [H | H].
    + apply andb_true_iff in H as [Hn Hv]. right.
      destruct (run_len_split is_word_or_dash a) as (seg & Ha & Hall & Hlen).
      apply StrFacts.prefix_spec in Hv as [rest Hrest].
      exists seg, rest. split; [|split; [exact Hall|]].
      * intros ->. cbn in Hlen. rewrite <- Hlen in Hn. discriminate.
      * rewrite Hrest in Ha. now rewrite Ha at 1.
    + left. apply StrFacts.prefix_spec in H as [rest ->]. now exists rest.
  - intros [[rest ->] | (seg & rest & Hne & Hall & ->)].
    + change (Str.slice 1 ("/v1/" +:+ rest)) with ("v1/" +:+ rest).
      change (String.prefix "/" ("/v1/" +:+ rest)) with true.
      rewrite (StrFacts.prefix_append "v1/" rest). now rewrite orb_true_r.
    + rewrite (StrFacts.prefix_append "/" (seg +:+ "/v1/" +:+ rest)).
      change (Str.slice 1 ("/" +:+ seg +:+ "/v1/" +:+ rest))
        with (seg +:+ String "/" ("v1/" +:+ rest)).
      rewrite run_len_stop by (exact Hall || reflexivity).
      rewrite StrFacts.slice_append.
      change (String "/" ("v1/" +:+ rest)) with ("/v1/" +:+ rest).
      rewrite (StrFacts.prefix_append "/v1/" rest).
      destruct seg; [contradiction|reflexivity].
Qed.

Lemma validate_unconfigured (apiKey : option string) (hs : headers) :
  Spec.unconfigured apiKey -> validateApiKey apiKey hs = Refused 503 "API Key 未配置".
Proof. intros [-> | ->]; reflexivity. Qed.

Lemma validate_configured (k : string) (hs : headers) :
  k <> "" ->
  validateApiKey (Some k) hs
  = if bool_decide (extractApiKeyFromHeaders hs = Some k)
    then Accepted else Refused 401 "Invalid API Key".
Proof.
  intros Hk. apply SignatureFacts.truthy_nonempty in Hk.
  unfold validateApiKey. cbn [truthy_header]. rewrite Hk. cbn [negb].
  destruct (extractApiKeyFromHeaders hs) as [provided|] eqn:E.
  - cbn [truthy_header]. case_bool_decide as Heq.
    + injection Heq as ->. now rewrite Hk.
    + now rewrite orb_true_r.
  - cbn [truthy_header negb orb]. now case_bool_decide.
Qed.

Lemma gate_protected (apiKey : option string) (path : string) (hs : headers) :
  Spec.protectedPath path ->
  gate apiKey path hs
  = match validateApiKey apiKey hs with
    | Refused status message => Reply status message
    | Accepted => Next
    end.
Proof.
  intros Hp. apply isProtectedApiPath_spec in Hp. unfold gate. now rewrite Hp.
Qed.

Lemma extract_authorization (hs : headers) (authorization : string) :
  hs !! "authorization" = Some authorization -> authorization <> "" ->
  extractApiKeyFromHeaders hs = Some (Spec.presented authorization).
Proof.
  intros H Hne. unfold extractApiKeyFromHeaders, Spec.presented. rewrite H.
  destruct (Str.startsWith authorization "Bearer "); [reflexivity|].
  apply SignatureFacts.truthy_nonempty in Hne. now rewrite Hne.
Qed.

Lemma candidates_only (hs : headers) (h k : string) :
  In h Spec.alternatives -> k <> "" -> hs !! h = Some k ->
  (forall h', In h' Spec.alternatives -> h' <> h -> hs !! h' = None) ->
  candidates hs = Some k.
Proof.
  intros Hin Hk Hh Hothers. apply SignatureFacts.truthy_nonempty in Hk.
  unfold candidates.
  assert (Hcase : forall h', In h' Spec.alternatives ->
                             hs !! h' = (if String.eqb h' h then Some k else None)).
  { intros h' Hin'. destruct (String.eqb h' h) eqn:E.
    - apply String.eqb_eq in E. now subst.
    - apply String.eqb_neq in E. now apply Hothers. }
  rewrite !Hcase by (cbn; tauto).
  cbn in Hin. destruct Hin as [<- | [<- | [<- | [<- | []]]]];
    cbn [String.eqb Ascii.eqb Bool.eqb andb List.find truthy_header default];
    cbn; now rewrite Hk.
Qed.

(** C5.  On a path that matches the pattern the key is checked: without a
    configured key the answer is 503; with one, a provided key that differs
    from it (or none) gives 401, and the key is accepted from
    [Authorization: Bearer], from a bare [Authorization], and from each of
    [x-api-key], [api-key], [x-api_key], [api_key]. *)
Theorem api_key_gate (apiKey : option string) (path : string) (hs : headers) :
  Spec.protectedPath path ->
  (Spec.unconfigured apiKey -> gate apiKey path hs = Reply 503 "API Key 未配置")
  /\ (forall k, apiKey = Some k -> k <> "" ->
        (extractApiKeyFromHeaders hs <> Some k ->
         gate apiKey path hs = Reply 401 "Invalid API Key")
        /\ (hs !! "authorization" = Some ("Bearer " +:+ k) -> gate apiKey path hs = Next)
        /\ (hs !! "authorization" = Some k -> Str.startsWith k "Bearer " = false ->
            gate apiKey path hs = Next)
        /\ (forall h, In h Spec.alternatives ->
              hs !! "authorization" = None -> hs !! h = Some k ->
              (forall h', In h' Spec.alternatives -> h' <> h -> hs !! h' = None) ->
              gate apiKey path hs = Next)).
Proof.
  intros Hp. rewrite (gate_protected _ _ _ Hp). split.
  - intros Hu. now rewrite validate_unconfigured.
  - intros k -> Hk. rewrite (validate_configured _ _ Hk).
    split; [|split; [|split]].
    + intros Hne. now case_bool_decide.
    + intros Ha. unfold extractApiKeyFromHeaders. rewrite Ha.
      unfold Str.startsWith. rewrite (StrFacts.prefix_append "Bearer " k).
      change (Str.slice 7 ("Bearer " +:+ k)) with k. now case_bool_decide.
    + intros Ha Hb. unfold extractApiKeyFromHeaders. rewrite Ha, Hb.
      apply SignatureFacts.truthy_nonempty in Hk. rewrite Hk. now case_bool_decide.
    + intros h Hin Ha Hh Hothers. unfold extractApiKeyFromHeaders. rewrite Ha.
      rewrite (candidates_only _ _ _ Hin Hk Hh Hothers). now case_bool_decide.
Qed.

(** The key in [api-key] alone opens [/pool-1/v1/models]. *)
Lemma api_key_gate_witness :
  Spec.protectedPath "/pool-1/v1/models"
  /\ gate (Some "secret") "/pool-1/v1/models" Sample.key_in_api_key = Next.
Proof.
  assert (Hp : Spec.protectedPath "/pool-1/v1/models")
    by (now apply isProtectedApiPath_spec).
  split; [exact Hp|].
  destruct (api_key_gate (Some "secret") "/pool-1/v1/models" Sample.key_in_api_key Hp)
    as [_ H].
  destruct (H "secret" eq_refl ltac:(discriminate)) as (_ & _ & _ & Halt).
  apply (Halt "api-key"); [cbn; tauto | reflexivity | reflexivity |].
  intros h' Hin Hne. cbn in Hin.
  destruct Hin as [<- | [<- | [<- | [<- | []]]]]; try reflexivity. contradiction.
Defined.

(** C10, counterexample.  A request whose [Authorization] header is empty
    and whose [x-api-key] holds the key: the alternative header is consulted
    and the request passes. *)
Lemma empty_authorization_falls_through :
  ~ Spec.authorizationRule (fun _ => True).
Proof.
  intros H.
  assert (Hp : Spec.protectedPath "/v1/models") by (now apply isProtectedApiPath_spec).
  destruct (H (Some "secret") "/v1/models" Sample.empty_authorization "" Hp eq_refl I)
    as [E _].
  vm_compute in E. discriminate.
Qed.

(** C10, amended.  When a request to a protected path carries a non-empty
    [Authorization] header, the key it presents (the rest after [Bearer ],
    or the whole value) is the only one compared: the alternative headers
    are not consulted, and a wrong value is answered with 401 whatever they
    hold. *)
Theorem authorization_only :
  Spec.authorizationRule (fun authorization => authorization <> "").
Proof.
  intros apiKey path hs authorization Hp Ha Hne.
  pose proof (extract_authorization _ _ Ha Hne) as E. split; [exact E|].
  intros k -> Hk Hwrong.
  rewrite (gate_protected _ _ _ Hp), (validate_configured _ _ Hk), E.
  case_bool_decide as Heq; [|reflexivity]. injection Heq as Heq. contradiction.
Qed.

(** A wrong bearer token beside the right key in [x-api-key] is refused. *)
Lemma authorization_only_witness :
  Spec.protectedPath "/v1/models"
  /\ gate (Some "secret") "/v1/models" Sample.wrong_authorization
     = Reply 401 "Invalid API Key".
Proof.
  assert (Hp : Spec.protectedPath "/v1/models") by (now apply isProtectedApiPath_spec).
  split; [exact Hp|].
  destruct (authorization_only (Some "secret") "/v1/models" Sample.wrong_authorization
              "Bearer guess" Hp eq_refl ltac:(discriminate)) as [_ H].
  apply (H "secret" eq_refl); discriminate.
Defined.

End ApiKeyFacts.

(** ** The chat handler on [res] *)

Module ChatFacts.
Import Http Chat.

Lemma bind_run {A B : Type} (m : M A) (f : A -> M B) (r : response) :
  (m ≫= f) r
  = match m r with
    | (Ok a, r') => f a r'
    | (Thrown e, r') => (Thrown e, r')
    end.
Proof. reflexivity. Qed.

Lemma write_run (data : string) (r : response) :
  finished r = false ->
  write data r
  = (Ok tt, Response (status r) (headers r) true (written r ++ [data]) false).
Proof. intros H. unfold write. now rewrite H. Qed.

Lemma wrote_nil (r : response) : Spec.wrote r [] = r.
Proof.
  destruct r. unfold Spec.wrote. cbn. now rewrite orb_false_r, app_nil_r.
Qed.

Lemma wrote_cons (r : response) (frame : string) (frames : list string) :
  Spec.wrote (Response (status r) (headers r) true (written r ++ [frame]) (finished r))
    frames
  = Spec.wrote r (frame :: frames).
Proof.
  unfold Spec.wrote. cbn. now rewrite orb_true_r, <- app_assoc.
Qed.

Lemma wrote_cons_open (r : response) (frame : string) (frames : list string) :
  finished r = false ->
  Spec.wrote (Response (status r) (headers r) true (written r ++ [frame]) false) frames
  = Spec.wrote r (frame :: frames).
Proof. intros H. rewrite <- H. apply wrote_cons. Qed.

Section Stream.

Variable JSON_stringify : json -> string.
Variables (id : string) (created : Z) (model : string).

Lemma tool_calls_has_keys (data : event) :
  is_tool_calls data = true -> hasKeys (deltaOf data) = true.
Proof. now destruct data. Qed.

(** One event of a text stream: the chunk of its delta, if it has one. *)
Lemma onEvent_run (hasToolCall : bool) (data : event) (r : response) :
  finished r = false ->
  onEvent JSON_stringify id created model hasToolCall data r
  = (Ok (hasToolCall || is_tool_calls data),
     Spec.wrote r (Spec.frames_of JSON_stringify id created model [data])).
Proof.
  intros Hr. unfold onEvent, Spec.frames_of. cbn [flat_map].
  destruct (hasKeys (deltaOf data)) eqn:E.
  - unfold writeStreamData. rewrite bind_run, (write_run _ _ Hr).
    cbn [app]. now rewrite <- (wrote_cons_open _ _ _ Hr), wrote_nil.
  - cbn [app]. rewrite wrote_nil.
    destruct (is_tool_calls data) eqn:T.
    + apply tool_calls_has_keys in T. congruence.
    + now rewrite orb_false_r.
Qed.

Lemma frames_of_cons (data : event) (events : list event) :
  Spec.frames_of JSON_stringify id created model (data :: events)
  = Spec.frames_of JSON_stringify id created model [data]
    ++ Spec.frames_of JSON_stringify id created model events.
Proof. unfold Spec.frames_of. cbn [flat_map]. now rewrite app_nil_r. Qed.

Lemma wrote_wrote (r : response) (a b : list string) :
  Spec.wrote (Spec.wrote r a) b = Spec.wrote r (a ++ b).
Proof.
  unfold Spec.wrote. cbn. rewrite <- app_assoc, <- orb_assoc.
  now destruct a, b.
Qed.

(** The events of a text stream, one after the other. *)
Lemma deliver_onEvent (events : list event) :
  forall (hasToolCall : bool) (r : response),
    finished r = false ->
    deliver (onEvent JSON_stringify id created model) hasToolCall events r
    = (Ok (hasToolCall || existsb is_tool_calls events),
       Spec.wrote r (Spec.frames_of JSON_stringify id created model events)).
Proof.
  induction events as [|data events IH]; intros hasToolCall r Hr.
  - cbn [deliver existsb]. rewrite orb_false_r.
    change (Spec.frames_of JSON_stringify id created model []) with (@nil string).
    now rewrite wrote_nil.
  - cbn [deliver existsb]. rewrite bind_run, (onEvent_run _ _ _ Hr).
    rewrite IH by exact Hr.
    rewrite wrote_wrote, <- frames_of_cons, orb_assoc. reflexivity.
Qed.

Lemma endStream_run (finish_reason : string) (usage : option json) (r : response) :
  finished r = false ->
  endStream JSON_stringify id created model finish_reason usage r
  = (Ok tt,
     Response (status r) (headers r) true
       (written r ++ Spec.termination JSON_stringify id created model finish_reason usage)
       true).
Proof.
  intros Hr. unfold endStream, writeStreamData, Spec.termination, DONE.
  rewrite bind_run, (write_run _ _ Hr), bind_run, write_run by reflexivity.
  unfold end_. cbn. now rewrite <- app_assoc.
Qed.

(** The events of an image stream, one after the other. *)
Lemma deliver_onImageEvent (events : list event) :
  forall (imageUrls : list string) (r : response),
    finished r = false ->
    deliver (onImageEvent JSON_stringify id created model) imageUrls events r
    = (Ok (imageUrls ++ Spec.image_urls events),
       Spec.wrote r
         (flat_map
            (fun data =>
               match data with
               | Thinking content =>
                   [sse JSON_stringify
                      (createStreamChunk id created model
                         (JObj [("reasoning_content", JStr content)]) JNull None)]
               | Text content =>
                   [sse JSON_stringify
                      (createStreamChunk id created model
                         (JObj [("content", JStr content)]) JNull None)]
               | _ => []
               end)
            events)).
Proof.
  induction events as [|data events IH]; intros imageUrls r Hr.
  - cbn [deliver flat_map Spec.image_urls]. now rewrite wrote_nil, app_nil_r.
  - cbn [deliver]. rewrite bind_run.
    destruct data as [tool_calls|content|content|url|type];
      cbn [onImageEvent flat_map Spec.image_urls];
      unfold writeStreamData;
      rewrite ?bind_run, ?(write_run _ _ Hr); cbn [mret M_ret];
      rewrite IH by (exact Hr || reflexivity);
      rewrite ?app_nil_l, <- ?app_assoc; try reflexivity.
    + now rewrite (wrote_cons_open _ _ _ Hr).
    + now rewrite (wrote_cons_open _ _ _ Hr).
Qed.

End Stream.

(** The [catch] block on a response whose headers went out: nothing more
    is written and the response is not ended. *)
Theorem catch_after_headers (JSON_stringify : json -> string) (now : Z)
    (req : chatRequest) (e : error) (r : response) :
  headersSent r = true -> catchBlock JSON_stringify now req e r = (Ok tt, r).
Proof.
  intros H. unfold catchBlock. rewrite bind_run. unfold get_headersSent. now rewrite H.
Qed.

Lemma setStreamHeaders_run (r : response) :
  headersSent r = false ->
  setStreamHeaders r
  = (Ok tt,
     Response (status r)
       (set_assoc "Connection" "keep-alive"
          (set_assoc "Cache-Control" "no-cache"
             (set_assoc "Content-Type" "text/event-stream" (headers r))))
       false (written r) (finished r)).
Proof.
  intros H. unfold setStreamHeaders. rewrite !bind_run. unfold setHeader.
  rewrite H. cbn [headersSent status headers written finished]. reflexivity.
Qed.

(** The [catch] block of a streaming request before anything was written:
    the error goes out as a content chunk that starts with [错误: ], then
    the stream ends with finish reason [stop]; the status stays. *)
Theorem catch_before_headers_stream (JSON_stringify : json -> string) (now : Z)
    (req : chatRequest) (e : error) (r : response) :
  headersSent r = false -> finished r = false ->
  default true (stream req) = true ->
  let id := fst (createResponseMeta now) in
  let created := snd (createResponseMeta now) in
  let m := model_or_unknown (model req) in
  catchBlock JSON_stringify now req e r
  = (Ok tt,
     Response (status r)
       (set_assoc "Connection" "keep-alive"
          (set_assoc "Cache-Control" "no-cache"
             (set_assoc "Content-Type" "text/event-stream" (headers r))))
       true
       (written r
        ++ Spec.errorFrame JSON_stringify id created m (message e)
           :: Spec.termination JSON_stringify id created m "stop" None)
       true).
Proof.
  intros Hsent Hfin Hstream id created m.
  unfold catchBlock. rewrite bind_run. unfold get_headersSent. rewrite Hsent.
  cbn [negb].
  change (createResponseMeta now) with (id, created). cbv beta iota.
  rewrite Hstream, bind_run, (setStreamHeaders_run _ Hsent), bind_run.
  unfold writeStreamData. rewrite write_run by exact Hfin.
  rewrite endStream_run by reflexivity.
  cbn [status headers written finished]. now rewrite <- app_assoc.
Qed.

(** The [catch] block of a buffered request before anything was written: a
    completion whose assistant text is the error, at the status the error
    carries or 500. *)
Theorem catch_before_headers_buffered (JSON_stringify : json -> string) (now : Z)
    (req : chatRequest) (e : error) (r : response) :
  headersSent r = false -> finished r = false ->
  stream req = Some false ->
  let id := fst (createResponseMeta now) in
  let created := snd (createResponseMeta now) in
  catchBlock JSON_stringify now req e r
  = (Ok tt,
     Response (Spec.errorStatus e)
       (set_assoc "Content-Type" "application/json; charset=utf-8" (headers r))
       true
       (written r
        ++ [JSON_stringify
              (completion id created (model_or_unknown (model req))
                 (JObj [("role", JStr "assistant");
                        ("content", JStr ("错误: " +:+ message e))])
                 "stop" [])])
       true).
Proof.
  intros Hsent Hfin Hstream id created.
  unfold catchBlock. rewrite bind_run. unfold get_headersSent. rewrite Hsent.
  cbn [negb].
  change (createResponseMeta now) with (id, created). cbv beta iota.
  rewrite Hstream. change (default true (Some false)) with false. cbv iota.
  rewrite bind_run. unfold set_status.
  unfold json_. rewrite !bind_run. unfold setHeader.
  cbn [headersSent status headers written finished]. rewrite Hsent.
  rewrite bind_run, write_run by exact Hfin. unfold end_. reflexivity.
Qed.

Section Handler.

Variable JSON_stringify : json -> string.
Variable JSON_parse : string -> option json.
Variable config_defaults : Request.defaults.
Variable config_systemInstruction : string.
Variable generatedRequestId : string.
Variable signatures : Signature.store.
Variable resolveToken : result (option Request.token).
Variable tokenMissingError : option string.
Variable tokenMissingStatus : option Z.
Variable generateAssistantResponse :
  Request.requestBody -> Request.token -> list event * (error + option json).
Variable generateAssistantResponseNoStream :
  Request.requestBody -> Request.token -> error + (json * list json * option json).
Variable typeError : error.
Variable now_try now_catch : Z.

Lemma setStreamHeaders_fresh :
  setStreamHeaders fresh = (Ok tt, Response 200 Spec.streamHeaders false [] false).
Proof. reflexivity. Qed.

(** C9.  A chat stream that the upstream completes ends with an empty-delta
    chunk and the line [data: [DONE]]; the finish reason of the chunk is
    [tool_calls] when a tool-call event was sent to the client during the
    stream and [stop] otherwise. *)
Theorem stream_termination (req : chatRequest) (msgs : list OpenAI.message)
    (tok : Request.token) (m : string) (generated : Request.requestBody)
    (events : list event) (usage : option json) :
  messages req = Some msgs ->
  resolveToken = Ok (Some tok) ->
  model req = Some m ->
  Request.generateRequestBody config_defaults config_systemInstruction JSON_parse
    JSON_stringify generatedRequestId signatures msgs m (params req) (tools req) tok
  = Some generated ->
  default true (stream req) = true ->
  generateAssistantResponse
    (if Str.includes m "-image" then imageRequest generated else generated) tok
  = (events, inr usage) ->
  let id := fst (createResponseMeta now_try) in
  let created := snd (createResponseMeta now_try) in
  let image := Str.includes m "-image" in
  createChatCompletionHandler JSON_stringify JSON_parse config_defaults
    config_systemInstruction generatedRequestId signatures resolveToken
    tokenMissingError tokenMissingStatus generateAssistantResponse
    generateAssistantResponseNoStream typeError now_try now_catch req fresh
  = (Ok tt,
     Response 200 Spec.streamHeaders true
       ((if image
         then Spec.image_frames JSON_stringify id created m events
         else Spec.frames_of JSON_stringify id created m events)
        ++ Spec.termination JSON_stringify id created m
             (if Spec.toolCallEmitted image events then "tool_calls" else "stop")
             usage)
       true).
Proof.
  intros Hmsgs Htok Hmodel Hgen Hstream Hup id created image.
  unfold createChatCompletionHandler, try_catch, tryBlock.
  rewrite Hmsgs, bind_run, Htok, Hmodel, Hgen.
  change (createResponseMeta now_try) with (id, created).
  cbv beta iota. rewrite Hstream, bind_run, setStreamHeaders_fresh.
  unfold Spec.toolCallEmitted. subst image. revert Hup.
  destruct (Str.includes m "-image") eqn:Himage; intros Hup.
  - rewrite bind_run. unfold callUpstream. rewrite Hup. cbn [fst snd].
    rewrite bind_run, deliver_onImageEvent by reflexivity.
    cbn [mret M_ret app fst snd]. rewrite bind_run.
    unfold Spec.image_frames.
    destruct (SchemaCleaner.nonempty (Spec.image_urls events)) eqn:Hurls.
    + unfold writeStreamData. rewrite write_run by reflexivity.
      rewrite endStream_run by reflexivity.
      cbn [status headers written finished app negb andb].
      now rewrite <- !app_assoc.
    + cbn [mret M_ret]. rewrite endStream_run by reflexivity.
      cbn [status headers written finished app negb andb].
      now rewrite app_nil_r.
  - rewrite bind_run. unfold callUpstream. rewrite Hup. cbn [fst snd].
    rewrite bind_run, deliver_onEvent by reflexivity.
    cbn [mret M_ret orb]. rewrite endStream_run by reflexivity.
    cbn [status headers written finished app negb andb fst snd]. reflexivity.
Qed.

(** An upstream that fails after its events: the frames already sent stay,
    and the [catch] block adds the error chunk and a normal stop only when
    nothing had been sent. *)
Theorem stream_failure (req : chatRequest) (msgs : list OpenAI.message)
    (tok : Request.token) (m : string) (generated : Request.requestBody)
    (events : list event) (e : error) :
  messages req = Some msgs ->
  resolveToken = Ok (Some tok) ->
  model req = Some m ->
  Str.truthy m = true ->
  Str.includes m "-image" = false ->
  Request.generateRequestBody config_defaults config_systemInstruction JSON_parse
    JSON_stringify generatedRequestId signatures msgs m (params req) (tools req) tok
  = Some generated ->
  default true (stream req) = true ->
  generateAssistantResponse generated tok = (events, inl e) ->
  let sent :=
    Spec.frames_of JSON_stringify (fst (createResponseMeta now_try))
      (snd (createResponseMeta now_try)) m events in
  createChatCompletionHandler JSON_stringify JSON_parse config_defaults
    config_systemInstruction generatedRequestId signatures resolveToken
    tokenMissingError tokenMissingStatus generateAssistantResponse
    generateAssistantResponseNoStream typeError now_try now_catch req fresh
  = (Ok tt,
     match sent with
     | [] =>
         Response 200 Spec.streamHeaders true
           (Spec.errorFrame JSON_stringify (fst (createResponseMeta now_catch))
              (snd (createResponseMeta now_catch)) m (message e)
            :: Spec.termination JSON_stringify (fst (createResponseMeta now_catch))
                 (snd (createResponseMeta now_catch)) m "stop" None)
           true
     | _ :: _ => Response 200 Spec.streamHeaders true sent false
     end).
Proof.
  intros Hmsgs Htok Hmodel Hm Himage Hgen Hstream Hup.
  set (id := fst (createResponseMeta now_try)).
  set (created := snd (createResponseMeta now_try)).
  set (id' := fst (createResponseMeta now_catch)).
  set (created' := snd (createResponseMeta now_catch)).
  intros sent.
  unfold createChatCompletionHandler, try_catch, tryBlock.
  rewrite Hmsgs, bind_run, Htok, Hmodel, Hgen, Himage.
  change (createResponseMeta now_try) with (id, created).
  cbv beta iota. rewrite Hstream, bind_run, setStreamHeaders_fresh.
  rewrite bind_run. unfold callUpstream. rewrite Hup. cbn [fst snd].
  rewrite bind_run, deliver_onEvent by reflexivity.
  fold sent. unfold throw, catchBlock, Spec.wrote.
  cbn [status headers headersSent written finished app orb].
  rewrite bind_run. unfold get_headersSent. cbn [headersSent].
  destruct sent as [|frame sent']; cbn [SchemaCleaner.nonempty negb].
  - change (createResponseMeta now_catch) with (id', created').
    cbv beta iota. rewrite Hstream, Hmodel. unfold model_or_unknown. rewrite Hm.
    rewrite bind_run.
    change (setStreamHeaders (Response 200 Spec.streamHeaders false [] false))
      with (@Ok unit tt, Response 200 Spec.streamHeaders false [] false).
    cbv beta iota.
    rewrite bind_run. unfold writeStreamData. rewrite write_run by reflexivity.
    rewrite endStream_run by reflexivity. reflexivity.
  - reflexivity.
Qed.

End Handler.

(** The sample upstream reports thinking, text and a tool call: the stream
    ends with finish reason [tool_calls]. *)
Lemma stream_termination_witness :
  createChatCompletionHandler Sample.stringify_nothing Sample.parse_nothing
    Sample.defaults "system" "req-1" Signature.empty (Ok (Some Sample.token))
    None None Sample.upstream Sample.upstream_buffered Sample.type_error
    5000 6000 Sample.chat_request fresh
  = (Ok tt,
     Response 200 Spec.streamHeaders true
       (Spec.frames_of Sample.stringify_nothing "chatcmpl-5000" 5
          "gemini-2.5-flash" Sample.upstream_events
        ++ Spec.termination Sample.stringify_nothing "chatcmpl-5000"
             5 "gemini-2.5-flash" "tool_calls" None)
       true).
Proof.
  refine (stream_termination Sample.stringify_nothing Sample.parse_nothing
            Sample.defaults "system" "req-1" Signature.empty (Ok (Some Sample.token))
            None None Sample.upstream Sample.upstream_buffered Sample.type_error
            5000 6000 Sample.chat_request
            [Sample.user_hi] Sample.token "gemini-2.5-flash" _ Sample.upstream_events
            None eq_refl eq_refl eq_refl _ eq_refl eq_refl).
  reflexivity.
Defined.

(** A response with one chunk on the wire is left as it is. *)
Lemma catch_after_headers_witness :
  catchBlock Sample.stringify_nothing 6000 Sample.chat_request Sample.quota_error
    Sample.streaming_response
  = (Ok tt, Sample.streaming_response).
Proof. apply catch_after_headers. reflexivity. Defined.

Lemma catch_before_headers_stream_witness :
  catchBlock Sample.stringify_nothing 6000 Sample.chat_request Sample.quota_error fresh
  = (Ok tt,
     Response 200 Spec.streamHeaders true
       (Spec.errorFrame Sample.stringify_nothing "chatcmpl-6000" 6 "gemini-2.5-flash"
          "quota exhausted"
        :: Spec.termination Sample.stringify_nothing "chatcmpl-6000" 6
             "gemini-2.5-flash" "stop" None)
       true).
Proof.
  apply (catch_before_headers_stream Sample.stringify_nothing 6000 Sample.chat_request
           Sample.quota_error fresh); reflexivity.
Defined.

Lemma catch_before_headers_buffered_witness :
  catchBlock Sample.stringify_nothing 6000 Sample.chat_request_buffered
    Sample.quota_error fresh
  = (Ok tt,
     Response 429 [("Content-Type", "application/json; charset=utf-8")] true
       [Sample.stringify_nothing
          (completion "chatcmpl-6000" 6 "gemini-2.5-flash"
             (JObj [("role", JStr "assistant");
                    ("content", JStr "错误: quota exhausted")])
             "stop" [])]
       true).
Proof.
  apply (catch_before_headers_buffered Sample.stringify_nothing 6000
           Sample.chat_request_buffered Sample.quota_error fresh); reflexivity.
Defined.

(** The sample upstream fails after its three events: the three chunks
    stay and the stream is left open. *)
Lemma stream_failure_witness :
  createChatCompletionHandler Sample.stringify_nothing Sample.parse_nothing
    Sample.defaults "system" "req-1" Signature.empty (Ok (Some Sample.token))
    None None Sample.upstream_failing Sample.upstream_buffered Sample.type_error
    5000 6000 Sample.chat_request fresh
  = (Ok tt,
     Response 200 Spec.streamHeaders true
       (Spec.frames_of Sample.stringify_nothing "chatcmpl-5000" 5 "gemini-2.5-flash"
          Sample.upstream_events)
       false).
Proof.
  refine (stream_failure Sample.stringify_nothing Sample.parse_nothing
            Sample.defaults "system" "req-1" Signature.empty (Ok (Some Sample.token))
            None None Sample.upstream_failing Sample.upstream_buffered
            Sample.type_error 5000 6000 Sample.chat_request
            [Sample.user_hi] Sample.token "gemini-2.5-flash" _ Sample.upstream_events
            Sample.quota_error eq_refl eq_refl eq_refl eq_refl eq_refl _ eq_refl eq_refl).
  reflexivity.
Defined.

End ChatFacts.
(** ** Thinking configuration of the requests sent upstream *)

Module ThinkingFacts.
Import Http Chat.






End ThinkingFacts.

(** ** Thinking markers in text events *)

Module MarkerFacts.
Import Chat.

Lemma prefix_long (p s t : string) :
  (String.length p <= String.length s)%nat ->
  String.prefix p (s +:+ t) = String.prefix p s.
Proof.
  revert s. induction p as [|c p IH]; intros s Hlen.
  - now rewrite !StrFacts.prefix_nil.
  - destruct s as [|d s]; cbn [String.length] in Hlen; [lia|].
    cbn [append]. rewrite !StrFacts.prefix_cons, IH by lia. reflexivity.
Qed.

Lemma find_cons (pat : string) (c : ascii) (s : string) :
  Str.find pat (String c s)
  = if String.prefix pat (String c s) then Some O
    else option_map S (Str.find pat s).
Proof. reflexivity. Qed.

Lemma find_here (pat s : string) :
  String.prefix pat s = true -> Str.find pat s = Some O.
Proof. intros H. destruct s; cbn [Str.find]; now rewrite H. Qed.

(** The first occurrence stays the first when text follows. *)
Lemma find_first_extend (pat a t : string) :
  Str.find pat (a +:+ pat) = Some (String.length a) ->
  Str.find pat (a +:+ pat +:+ t) = Some (String.length a).
Proof.
  induction a as [|c a IH]; cbn [append String.length]; intros H.
  - apply find_here, StrFacts.prefix_append.
  - rewrite find_cons in H |- *.
    replace (String.prefix pat (String c (a +:+ pat +:+ t)))
      with (String.prefix pat (String c (a +:+ pat) +:+ t))
      by (cbn [append]; now rewrite StrFacts.append_assoc).
    rewrite prefix_long
      by (cbn [String.length]; rewrite StrFacts.length_append; lia).
    destruct (String.prefix pat (String c (a +:+ pat))); [discriminate|].
    destruct (Str.find pat (a +:+ pat)) as [n|] eqn:E; [|discriminate].
    cbn [option_map] in H. injection H as ->.
    rewrite IH by reflexivity. reflexivity.
Qed.

Lemma delete_matches_skip (m : string -> option nat) (a b : string) :
  Str.delete_matches m (String.length a) (a +:+ b) = Str.delete_matches m 0 b.
Proof.
  induction a as [|c a IH]; cbn [append String.length]; [reflexivity|].
  cbn [Str.delete_matches]. exact IH.
Qed.

(** A match at the head is cut out, and the scan goes on behind it. *)
Lemma delete_match_here (m : string -> option nat) (a b : string) :
  a <> "" -> m (a +:+ b) = Some (String.length a) ->
  Str.delete_matches m 0 (a +:+ b) = Str.delete_matches m 0 b.
Proof.
  intros Ha Hm. destruct a as [|c a]; [contradiction|].
  cbn [append String.length] in *. cbn [Str.delete_matches]. rewrite Hm.
  apply delete_matches_skip.
Qed.

Section Span.

Variables open close : string.
Hypothesis open_nonempty : open <> "".

(** The span from the first [open] to the first [close] after it goes, and
    what stands before it stays. *)
Lemma delete_first_span (pre inner post : string) :
  Str.find open (pre +:+ open) = Some (String.length pre) ->
  Str.find close (inner +:+ close) = Some (String.length inner) ->
  Str.delete_matches (Str.span_len open close) 0
    (pre +:+ open +:+ inner +:+ close +:+ post)
  = pre +:+ Str.delete_matches (Str.span_len open close) 0 post.
Proof.
  intros Hopen Hclose. induction pre as [|c pre IH].
  - cbn [append].
    replace (open +:+ inner +:+ close +:+ post)
      with ((open +:+ inner +:+ close) +:+ post)
      by (now rewrite !StrFacts.append_assoc).
    apply delete_match_here.
    + destruct open; [contradiction | discriminate].
    + rewrite !StrFacts.append_assoc. unfold Str.span_len.
      rewrite StrFacts.prefix_append, StrFacts.slice_append.
      rewrite (find_first_extend close inner post Hclose). cbn [option_map].
      rewrite !StrFacts.length_append. f_equal. lia.
  - cbn [append String.length] in Hopen. rewrite find_cons in Hopen.
    destruct (String.prefix open (String c (pre +:+ open))) eqn:Hp; [discriminate|].
    destruct (Str.find open (pre +:+ open)) as [n|] eqn:E; [|discriminate].
    cbn [option_map] in Hopen. injection Hopen as ->.
    cbn [append Str.delete_matches].
    assert (Hnone : Str.span_len open close
                      (String c (pre +:+ open +:+ inner +:+ close +:+ post)) = None).
    { unfold Str.span_len.
      replace (String.prefix open
                 (String c (pre +:+ open +:+ inner +:+ close +:+ post)))
        with (String.prefix open
                (String c (pre +:+ open) +:+ inner +:+ close +:+ post))
        by (cbn [append]; now rewrite StrFacts.append_assoc).
      rewrite prefix_long
        by (cbn [String.length]; rewrite StrFacts.length_append; lia).
      now rewrite Hp. }
    rewrite Hnone, IH by reflexivity. reflexivity.
Qed.

(** Without an [open] nothing is removed. *)
Lemma delete_no_open (s : string) :
  Str.find open s = None ->
  Str.delete_matches (Str.span_len open close) 0 s = s.
Proof.
  induction s as [|c s IH]; [reflexivity|].
  rewrite find_cons. destruct (String.prefix open (String c s)) eqn:Hp; [discriminate|].
  destruct (Str.find open s); [discriminate|]. intros _.
  cbn [Str.delete_matches]. unfold Str.span_len at 1. rewrite Hp.
  now rewrite IH.
Qed.

End Span.

(** A text event with a marker: the first marker and its inner text go from
    the content, and the delta has no other field (in particular no
    [reasoning_content]); when nothing is left no delta is built. *)
Theorem text_marker_removed (pre inner post : string) :
  Str.find OPEN (pre +:+ OPEN) = Some (String.length pre) ->
  Str.find CLOSE (inner +:+ CLOSE) = Some (String.length inner) ->
  deltaOf (Text (pre +:+ OPEN +:+ inner +:+ CLOSE +:+ post))
  = if Str.truthy (pre +:+ cleanText post)
    then JObj [("content", JStr (pre +:+ cleanText post))]
    else JObj [].
Proof.
  intros Ho Hc. unfold deltaOf, cleanText.
  rewrite (delete_first_span OPEN CLOSE ltac:(discriminate) pre inner post Ho Hc).
  reflexivity.
Qed.

Lemma text_marker_removed_witness :
  deltaOf (Text ("a" +:+ OPEN +:+ "b" +:+ CLOSE +:+ "c"))
  = JObj [("content", JStr "ac")].
Proof.
  apply (text_marker_removed "a" "b" "c"); reflexivity.
Defined.

(** A text event without an opening marker goes out as it is. *)
Theorem text_without_marker (content : string) :
  Str.find OPEN content = None -> content <> "" ->
  deltaOf (Text content) = JObj [("content", JStr content)].
Proof.
  intros Ho Hne. unfold deltaOf, cleanText.
  rewrite (delete_no_open OPEN CLOSE content Ho).
  apply SignatureFacts.truthy_nonempty in Hne. now rewrite Hne.
Qed.

Lemma text_without_marker_witness :
  deltaOf (Text "pong") = JObj [("content", JStr "pong")].
Proof. apply text_without_marker; [reflexivity | discriminate]. Defined.

End MarkerFacts.

(** ** Credential merge and import *)

Module AccountsFacts.
Import Accounts.

Lemma merge_key_keyed (label : string) (idx : nat) (acc : record) (k : string) :
  Spec.keyed acc k -> merge_key label idx acc = JStr k.
Proof.
  intros [Hget Hk]. apply SignatureFacts.truthy_nonempty in Hk.
  unfold merge_key, or_else. rewrite Hget. cbn [Json.truthy_opt Json.truthy].
  rewrite Hk. cbn [Json.truthy_opt Json.truthy]. now rewrite Hk.
Qed.

Lemma strict_eq_str (a b : string) :
  Json.strict_eq (JStr a) (JStr b) = String.eqb a b.
Proof. reflexivity. Qed.

Lemma map_get_fresh (k : string) (seen : list string) (m : list (json * record)) :
  map fst m = map JStr seen -> ~ In k seen -> map_get (JStr k) m = None.
Proof.
  revert seen. induction m as [|[key v] m IH]; intros seen Hm Hk; [reflexivity|].
  destruct seen as [|s seen]; [discriminate|].
  cbn [map fst] in Hm. injection Hm as -> Hm. cbn [map_get].
  rewrite strict_eq_str.
  destruct (String.eqb k s) eqn:E.
  - apply String.eqb_eq in E. subst. exfalso. apply Hk. now left.
  - apply (IH seen Hm). intros H. apply Hk. now right.
Qed.

Lemma map_set_fresh (k : string) (v : record) (seen : list string)
    (m : list (json * record)) :
  map fst m = map JStr seen -> ~ In k seen -> map_set (JStr k) v m = m ++ [(JStr k, v)].
Proof.
  revert seen. induction m as [|[key v'] m IH]; intros seen Hm Hk; [reflexivity|].
  destruct seen as [|s seen]; [discriminate|].
  cbn [map fst] in Hm. injection Hm as -> Hm. cbn [map_set app].
  rewrite strict_eq_str.
  destruct (String.eqb k s) eqn:E.
  - apply String.eqb_eq in E. subst. exfalso. apply Hk. now left.
  - rewrite (IH seen Hm); [reflexivity|]. intros H. apply Hk. now right.
Qed.

(** *** Object spread *)

Lemma get_set_eq (k : string) (v : json) (l : list (string * json)) :
  Json.get k (Json.set k v l) = Some v.
Proof.
  induction l as [|[k' v'] l IH]; cbn [Json.set Json.get].
  - now rewrite String.eqb_refl.
  - destruct (String.eqb k k') eqn:E; cbn [Json.get]; rewrite ?String.eqb_refl, ?E;
      [reflexivity | exact IH].
Qed.

Lemma get_set_ne (k g : string) (v : json) (l : list (string * json)) :
  k <> g -> Json.get k (Json.set g v l) = Json.get k l.
Proof.
  intros Hne. apply String.eqb_neq in Hne.
  induction l as [|[k' v'] l IH]; cbn [Json.set Json.get].
  - now rewrite Hne.
  - destruct (String.eqb g k') eqn:E; cbn [Json.get].
    + apply String.eqb_eq in E. subst k'. now rewrite Hne.
    + now rewrite IH.
Qed.

Lemma set_fresh (k : string) (v : json) (l : list (string * json)) :
  ~ In k (map fst l) -> Json.set k v l = l ++ [(k, v)].
Proof.
  induction l as [|[k' v'] l IH]; intros Hk; [reflexivity|].
  cbn [Json.set app]. destruct (String.eqb k k') eqn:E.
  - apply String.eqb_eq in E. subst. exfalso. apply Hk. now left.
  - rewrite IH; [reflexivity|]. intros H. apply Hk. now right.
Qed.

(** Spreading a well-formed object over the empty one copies it. *)
Lemma spread_onto (a b : list (string * json)) :
  List.NoDup (map fst (a ++ b)) -> Json.spread a b = a ++ b.
Proof.
  unfold Json.spread. revert a. induction b as [|[k v] b IH]; intros a Hnd.
  - cbn [fold_left]. now rewrite app_nil_r.
  - cbn [fold_left fst snd].
    assert (Hk : ~ In k (map fst a)).
    { rewrite map_app in Hnd. cbn [map fst] in Hnd.
      apply NoDup_remove_2 in Hnd. intros H. apply Hnd, in_or_app. now left. }
    rewrite (set_fresh _ _ _ Hk), IH.
    + now rewrite <- app_assoc.
    + now rewrite <- app_assoc.
Qed.

Lemma spread_empty (b : list (string * json)) :
  Spec.wellFormed b -> Json.spread [] b = b.
Proof. intros H. now rewrite spread_onto. Qed.

(** In [{...a, ...b}] a field of [b] wins and any other field of [a] stays. *)
Theorem spread_get (a b : list (string * json)) (k : string) :
  Spec.wellFormed b ->
  Json.get k (Json.spread a b)
  = match Json.get k b with
    | Some v => Some v
    | None => Json.get k a
    end.
Proof.
  unfold Json.spread, Spec.wellFormed.
  revert a. induction b as [|[g v] b IH]; intros a Hnd; [reflexivity|].
  cbn [map fst] in Hnd. inversion Hnd as [|? ? Hg Hnd']; subst.
  cbn [fold_left fst snd Json.get]. rewrite IH by exact Hnd'.
  destruct (String.eqb k g) eqn:E.
  - apply String.eqb_eq in E. subst g.
    assert (Hnone : Json.get k b = None).
    { clear -Hg. induction b as [|[k' v'] b IH]; [reflexivity|].
      cbn [Json.get]. destruct (String.eqb k k') eqn:E.
      - apply String.eqb_eq in E. subst. exfalso. apply Hg. now left.
      - apply IH. intros H. apply Hg. now right. }
    rewrite Hnone. apply get_set_eq.
  - apply String.eqb_neq in E. now rewrite get_set_ne.
Qed.

Lemma spread_get_witness :
  Json.get "access_token"
    (Json.spread [("refresh_token", JStr "r"); ("access_token", JStr "old")]
                 [("access_token", JStr "new")])
  = Some (JStr "new").
Proof.
  apply (spread_get [("refresh_token", JStr "r"); ("access_token", JStr "old")]
           [("access_token", JStr "new")] "access_token").
  repeat constructor. cbn. tauto.
Defined.

(** *** The merge *)

Lemma fold_keyed_existing (existing : list record) (ks : list string) :
  Forall2 Spec.keyed existing ks ->
  forall (f : nat -> record -> nat * record) (m : list (json * record))
         (seen : list string),
    (forall i acc, snd (f i acc) = acc) ->
    map fst m = map JStr seen ->
    List.NoDup (seen ++ ks) ->
    fold_left
      (fun m ia => map_set (merge_key "existing" (fst ia) (snd ia)) (snd ia) m)
      (imap f existing) m
    = m ++ combine (map JStr ks) existing.
Proof.
  induction 1 as [|acc k existing ks Hk _ IH]; intros f m seen Hf Hm Hnd.
  - cbn. now rewrite app_nil_r.
  - cbn [imap fold_left map combine]. rewrite Hf, (merge_key_keyed _ _ _ _ Hk).
    assert (Hfresh : ~ In k seen).
    { apply NoDup_remove_2 in Hnd. intros H. apply Hnd, in_or_app. now left. }
    rewrite (map_set_fresh _ _ _ _ Hm Hfresh).
    rewrite (IH (f ∘ S) _ (seen ++ [k])).
    + now rewrite <- app_assoc.
    + intros i a. apply Hf.
    + rewrite !map_app, Hm. reflexivity.
    + now rewrite <- app_assoc.
Qed.

Lemma fold_keyed_incoming (incoming : list record) (ki : list string) :
  Forall2 Spec.keyed incoming ki ->
  forall (f : nat -> record -> nat * record) (m : list (json * record))
         (seen : list string),
    (forall i acc, snd (f i acc) = acc) ->
    Forall Spec.wellFormed incoming ->
    map fst m = map JStr seen ->
    List.NoDup (seen ++ ki) ->
    fold_left
      (fun m ia =>
         let key := merge_key "incoming" (fst ia) (snd ia) in
         let current := default [] (map_get key m) in
         map_set key (Json.spread current (snd ia)) m)
      (imap f incoming) m
    = m ++ combine (map JStr ki) incoming.
Proof.
  induction 1 as [|acc k incoming ki Hk _ IH]; intros f m seen Hf Hwf Hm Hnd.
  - cbn. now rewrite app_nil_r.
  - cbn [imap fold_left map combine]. cbv zeta.
    rewrite Hf, (merge_key_keyed _ _ _ _ Hk).
    assert (Hfresh : ~ In k seen).
    { apply NoDup_remove_2 in Hnd. intros H. apply Hnd, in_or_app. now left. }
    inversion Hwf as [|? ? Hacc Hwf']; subst.
    rewrite (map_get_fresh _ _ _ Hm Hfresh). cbn [default].
    change (default [] None) with (@nil (string * json)).
    rewrite (spread_empty _ Hacc), (map_set_fresh _ _ _ _ Hm Hfresh).
    rewrite (IH (f ∘ S) _ (seen ++ [k])).
    + now rewrite <- app_assoc.
    + intros i a. apply Hf.
    + exact Hwf'.
    + rewrite !map_app, Hm. reflexivity.
    + now rewrite <- app_assoc.
Qed.

Lemma snd_combine_keyed (l : list record) (ks : list string) :
  Forall2 Spec.keyed l ks -> map snd (combine (map JStr ks) l) = l.
Proof. induction 1; cbn; [reflexivity | now f_equal]. Qed.

Lemma fst_combine_keyed (l : list record) (ks : list string) :
  Forall2 Spec.keyed l ks -> map fst (combine (map JStr ks) l) = map JStr ks.
Proof. induction 1; cbn; [reflexivity | now f_equal]. Qed.

(** With [replaceExisting] the incoming list is the result. *)
Lemma merge_replace (existing incoming : list record) :
  mergeAccounts existing incoming true = incoming.
Proof. reflexivity. Qed.

(** Records filed under refresh tokens that are all different: the merge
    is the existing list followed by the incoming one. *)
Theorem merge_disjoint (existing incoming : list record) (ks ki : list string) :
  Forall2 Spec.keyed existing ks ->
  Forall2 Spec.keyed incoming ki ->
  Forall Spec.wellFormed incoming ->
  List.NoDup (ks ++ ki) ->
  mergeAccounts existing incoming false = existing ++ incoming.
Proof.
  intros He Hi Hwf Hnd. unfold mergeAccounts.
  rewrite (fold_keyed_existing _ _ He _ [] [])
    by (reflexivity || (cbn [app]; now apply NoDup_app_remove_r in Hnd)).
  cbn [app].
  rewrite (fold_keyed_incoming _ _ Hi _ _ ks)
    by (reflexivity || exact Hwf || exact Hnd || now apply fst_combine_keyed).
  rewrite map_app, (snd_combine_keyed _ _ He), (snd_combine_keyed _ _ Hi).
  reflexivity.
Qed.

Lemma merge_disjoint_witness :
  mergeAccounts [[("refresh_token", JStr "r0"); ("enable", JBool true)]]
    [[("access_token", JStr "a1"); ("refresh_token", JStr "r1")];
     [("access_token", JStr "a2"); ("refresh_token", JStr "r2")]] false
  = [[("refresh_token", JStr "r0"); ("enable", JBool true)]]
    ++ [[("access_token", JStr "a1"); ("refresh_token", JStr "r1")];
        [("access_token", JStr "a2"); ("refresh_token", JStr "r2")]].
Proof.
  apply (merge_disjoint _ _ ["r0"] ["r1"; "r2"]).
  - repeat constructor; discriminate.
  - repeat constructor; discriminate.
  - repeat constructor; cbn; intuition discriminate.
  - repeat constructor; cbn; intuition discriminate.
Defined.

Lemma map_set_at (existing : list record) (ks : list string) :
  Forall2 Spec.keyed existing ks -> List.NoDup ks ->
  forall (n : nat) (e : record) (k : string) (v : record),
    ks !! n = Some k -> existing !! n = Some e ->
    map_get (JStr k) (combine (map JStr ks) existing) = Some e
    /\ map snd (map_set (JStr k) v (combine (map JStr ks) existing))
       = <[n := v]> existing.
Proof.
  induction 1 as [|acc k0 existing ks Hk H2 IH]; intros Hnd n e k v Hn He;
    [destruct n; discriminate|].
  inversion Hnd as [|? ? Hk0 Hnd']; subst.
  cbn [map combine map_get map_set]. rewrite !strict_eq_str.
  destruct n as [|n].
  - cbn in Hn, He. injection Hn as ->. injection He as ->.
    rewrite String.eqb_refl. cbn [map snd].
    rewrite (snd_combine_keyed _ _ H2). now split.
  - cbn in Hn, He.
    assert (Hne : String.eqb k k0 = false).
    { apply String.eqb_neq. intros ->. apply Hk0.
      apply list_elem_of_In. apply list_elem_of_lookup. eauto. }
    rewrite Hne. cbn [map snd].
    destruct (IH Hnd' n e k v Hn He) as [Hg Hs]. now rewrite Hs.
Qed.

(** An incoming record filed under the refresh token of an existing one is
    laid over it in place: the list keeps its length and order. *)
Theorem merge_overlay (existing : list record) (ks : list string) (n : nat)
    (e incoming : record) (k : string) :
  Forall2 Spec.keyed existing ks -> List.NoDup ks ->
  ks !! n = Some k -> existing !! n = Some e ->
  Spec.keyed incoming k ->
  mergeAccounts existing [incoming] false = <[n := Json.spread e incoming]> existing.
Proof.
  intros He Hnd Hn Hen Hi. unfold mergeAccounts.
  rewrite (fold_keyed_existing _ _ He _ [] [])
    by (reflexivity || (cbn [app]; exact Hnd)).
  cbn [app imap fold_left fst snd]. cbv zeta.
  rewrite (merge_key_keyed _ _ _ _ Hi).
  destruct (map_set_at _ _ He Hnd n e k (Json.spread e incoming) Hn Hen) as [Hg Hs].
  rewrite Hg. exact Hs.
Qed.

Lemma merge_overlay_witness :
  mergeAccounts
    [[("refresh_token", JStr "r0"); ("email", JStr "a@x")];
     [("refresh_token", JStr "r1"); ("access_token", JStr "old")]]
    [[("access_token", JStr "new"); ("refresh_token", JStr "r1")]] false
  = [[("refresh_token", JStr "r0"); ("email", JStr "a@x")];
     [("refresh_token", JStr "r1"); ("access_token", JStr "new")]].
Proof.
  refine (merge_overlay
            [[("refresh_token", JStr "r0"); ("email", JStr "a@x")];
             [("refresh_token", JStr "r1"); ("access_token", JStr "old")]]
            ["r0"; "r1"] 1
            [("refresh_token", JStr "r1"); ("access_token", JStr "old")]
            [("access_token", JStr "new"); ("refresh_token", JStr "r1")] "r1"
            _ _ _ _ _).
  - repeat constructor; discriminate.
  - repeat constructor; cbn; intuition discriminate.
  - reflexivity.
  - reflexivity.
  - split; [reflexivity | discriminate].
Defined.

(** *** Normalizing an account of a TOML document *)

Lemma set_keys (k : string) (v : json) (l : list (string * json)) :
  map fst (Json.set k v l)
  = if Json.has k l then map fst l else map fst l ++ [k].
Proof.
  unfold Json.has. induction l as [|[k' v'] l IH]; [reflexivity|].
  cbn [Json.set Json.get]. destruct (String.eqb k k') eqn:E.
  - apply String.eqb_eq in E. now subst.
  - cbn [map fst]. rewrite IH. now destruct (Json.get k l).
Qed.

Lemma has_In (k : string) (l : list (string * json)) :
  Json.has k l = false -> ~ In k (map fst l).
Proof.
  unfold Json.has. induction l as [|[k' v'] l IH]; cbn [Json.get map fst]; [tauto|].
  destruct (String.eqb k k') eqn:E; [discriminate|].
  intros H [Hk | Hk]; [|now apply IH].
  subst. now rewrite String.eqb_refl in E.
Qed.

Lemma NoDup_snoc (k : string) (l : list string) :
  List.NoDup l -> ~ In k l -> List.NoDup (l ++ [k]).
Proof.
  induction 1 as [|x l Hx Hl IH]; intros Hk; cbn [app].
  - repeat constructor. tauto.
  - constructor.
    + intros H. apply in_app_or in H as [H | [<- | []]]; [now apply Hx|].
      apply Hk. now left.
    + apply IH. intros H. apply Hk. now right.
Qed.

Lemma set_wellFormed (k : string) (v : json) (l : list (string * json)) :
  Spec.wellFormed l -> Spec.wellFormed (Json.set k v l).
Proof.
  unfold Spec.wellFormed. intros H. rewrite set_keys.
  destruct (Json.has k l) eqn:E; [exact H|].
  apply NoDup_snoc; [exact H | now apply has_In].
Qed.

Lemma not_in_mem (k : string) (l : list string) :
  SchemaCleaner.mem k l = false -> ~ In k l.
Proof.
  intros H Hin. apply SchemaFacts.mem_In in Hin. congruence.
Qed.

Section TomlImport.

Variable String_units : string -> list string.
Variable string_to_number : string -> option Z.
Variable Date_parse : json -> option Z.
Variable Date_now : Z.
Variable parseToml : string -> string + json.

Abbreviation normalize :=
  (normalizeTomlAccount string_to_number Date_parse Date_now).

Lemma copy_wellFormed (raw : record) (pairs : list (string * string)) (n : record) :
  Spec.wellFormed n ->
  Spec.wellFormed
    (fold_left
       (fun n st =>
          match Json.get (fst st) raw with
          | Some v => Json.set (snd st) v n
          | None => n
          end)
       pairs n).
Proof.
  revert n. induction pairs as [|st pairs IH]; intros n Hn; [exact Hn|].
  cbn [fold_left]. apply IH. destruct (Json.get (fst st) raw); [|exact Hn].
  now apply set_wellFormed.
Qed.

Lemma copy_get (raw : record) (pairs : list (string * string)) (n : record)
    (k : string) :
  ~ In k (map snd pairs) ->
  Json.get k
    (fold_left
       (fun n st =>
          match Json.get (fst st) raw with
          | Some v => Json.set (snd st) v n
          | None => n
          end)
       pairs n)
  = Json.get k n.
Proof.
  revert n. induction pairs as [|st pairs IH]; intros n Hk; [reflexivity|].
  cbn [fold_left]. rewrite IH by (intros H; apply Hk; now right).
  destruct (Json.get (fst st) raw); [|reflexivity].
  apply get_set_ne. intros ->. apply Hk. now left.
Qed.

Lemma normalized_record (raw : json) (filter : bool) (n : record) :
  normalize raw filter = Some n ->
  exists fields,
    raw = JObj fields
    /\ (filter = true -> isDisabled fields = false)
    /\ Json.get "access_token" n
       = Json.nullish_or (Json.get "access_token" fields) (Json.get "accessToken" fields)
    /\ Json.get "refresh_token" n
       = Json.nullish_or (Json.get "refresh_token" fields)
           (Json.get "refreshToken" fields)
    /\ Json.truthy_opt (Json.get "access_token" n) = true
    /\ Json.truthy_opt (Json.get "refresh_token" n) = true
    /\ Json.get "enable" n = Some (JBool (negb (isDisabled fields)))
    /\ Spec.wellFormed n.
Proof.
  destruct raw as [| | | | |fields]; try discriminate.
  unfold normalizeTomlAccount. intros H. exists fields. split; [reflexivity|].
  destruct (filter && isDisabled fields) eqn:Ef; [discriminate|].
  remember (Json.nullish_or (Json.get "access_token" fields)
              (Json.get "accessToken" fields)) as accessToken eqn:Hacc.
  remember (Json.nullish_or (Json.get "refresh_token" fields)
              (Json.get "refreshToken" fields)) as refreshToken eqn:Href.
  remember (Json.nullish_or (Json.get "projectId" fields)
              (Json.get "project_id" fields)) as projectId eqn:Hpid.
  destruct (Json.truthy_opt accessToken) eqn:Ea; [|discriminate].
  destruct (Json.truthy_opt refreshToken) eqn:Er; [|discriminate].
  cbn [negb orb] in H. apply (inj Some) in H. subst n.
  destruct accessToken as [a|]; [|discriminate].
  destruct refreshToken as [t|]; [|discriminate].
  cbn [default].
  assert (Hbase : forall k base,
             ~ In k ("projectId" :: map snd copyPairs) ->
             Json.get k
               (fold_left
                  (fun n st =>
                     match Json.get (fst st) fields with
                     | Some v => Json.set (snd st) v n
                     | None => n
                     end)
                  copyPairs
                  (if Json.truthy_opt projectId
                   then Json.set "projectId" (default JNull projectId) base
                   else base))
             = Json.get k base).
  { intros k base Hk. rewrite copy_get by (intros H; apply Hk; now right).
    destruct (Json.truthy_opt projectId); [|reflexivity].
    apply get_set_ne. intros ->. apply Hk. now left. }
  split; [intros ->; exact Ef|].
  rewrite !Hbase by (apply not_in_mem; reflexivity).
  split; [reflexivity|]. split; [reflexivity|].
  split; [exact Ea|]. split; [exact Er|]. split; [reflexivity|].
  apply copy_wellFormed.
  assert (Hwf : Spec.wellFormed
                  [("access_token", a); ("refresh_token", t);
                   ("expires_in",
                    JNum (default 3600
                            (JS_Number string_to_number
                               (Json.nullish_or (Json.get "expires_in" fields)
                                  (Json.get "expiresIn" fields)))));
                   ("timestamp",
                    JNum (parseTimestamp string_to_number Date_parse Date_now fields));
                   ("enable", JBool (negb (isDisabled fields)))]).
  { unfold Spec.wellFormed. cbn [map fst].
    repeat constructor; apply not_in_mem; reflexivity. }
  destruct (Json.truthy_opt projectId); [now apply set_wellFormed | exact Hwf].
Qed.

(** What [normalizeTomlAccount] lets through: never a disabled account
    under [filterDisabled], always both tokens, with [enable] saying
    whether the source had it disabled, in a well-formed record. *)
Theorem normalize_sound (raw : json) (filter : bool) (n : record) :
  normalize raw filter = Some n ->
  exists fields,
    raw = JObj fields
    /\ (filter = true -> isDisabled fields = false)
    /\ Json.get "access_token" n
       = Json.nullish_or (Json.get "access_token" fields) (Json.get "accessToken" fields)
    /\ Json.get "refresh_token" n
       = Json.nullish_or (Json.get "refresh_token" fields)
           (Json.get "refreshToken" fields)
    /\ Json.truthy_opt (Json.get "access_token" n) = true
    /\ Json.truthy_opt (Json.get "refresh_token" n) = true
    /\ Json.get "enable" n = Some (JBool (negb (isDisabled fields)))
    /\ Spec.wellFormed n.
Proof. exact (normalized_record raw filter n). Qed.

(** *** The import *)

Lemma normalize_all_fold (l : list json) (filter : bool) (acc : list record) (s : Z) :
  fold_left
    (fun acc raw =>
       match normalize raw filter with
       | Some a => (fst acc ++ [a], snd acc)
       | None => (fst acc, snd acc + 1)
       end)
    l (acc, s)
  = (acc ++ omap (fun raw => normalize raw filter) l,
     s + Z.of_nat (length l)
     - Z.of_nat (length (omap (fun raw => normalize raw filter) l))).
Proof.
  revert acc s. induction l as [|raw l IH]; intros acc s.
  - cbn. rewrite app_nil_r. f_equal. lia.
  - cbn [fold_left omap list_omap]. fold (omap (fun raw => normalize raw filter) l).
    destruct (normalize raw filter) as [a|]; cbn [fst snd]; rewrite IH.
    + rewrite <- app_assoc. cbn [app length]. f_equal. lia.
    + f_equal. cbn [length]. lia.
Qed.

Lemma normalize_all_spec (l : list json) (filter : bool) :
  normalize_all string_to_number Date_parse Date_now l filter
  = (omap (fun raw => normalize raw filter) l,
     Z.of_nat (length l)
     - Z.of_nat (length (omap (fun raw => normalize raw filter) l))).
Proof.
  unfold normalize_all. rewrite normalize_all_fold. reflexivity.
Qed.

Lemma nonempty_false {A} (l : list A) : SchemaCleaner.nonempty l = false -> l = [].
Proof. destruct l; [reflexivity | discriminate]. Qed.

(** *** The merge with what the file holds *)



(** The map of records, seen as a map of values. *)
Abbreviation lift :=
  (map (fun kv : json * record => (fst kv, JObj (snd kv)))).









(** *** The import *)

Lemma import_cases (req : importRequest) (disk : file) :
  (exists message,
      importToml String_units string_to_number Date_parse Date_now parseToml req disk
      = (bad_request message, disk))
  \/ (exists (tomlContent : string) (fields : list (string * json))
             (accounts : list json),
         toml req = Some (JStr tomlContent)
         /\ parseToml tomlContent = inr (JObj fields)
         /\ Json.get "accounts" fields = Some (JArr accounts)
         /\ let normalized :=
              omap (fun raw => normalize raw (default true (filterDisabled req)))
                   accounts in
            let replace := default false (replaceExisting req) in
            let existing :=
              if replace then [] else match disk with Entries l => l | _ => [] end in
            normalized <> []
            /\ importToml String_units string_to_number Date_parse Date_now parseToml
                 req disk
               = match mergeStored String_units existing normalized replace with
                 | None => (Uncaught, disk)
                 | Some merged =>
                     (Replied
                        (Reply 200
                           (JObj [("success", JBool true);
                                  ("imported", JNum (Z.of_nat (length normalized)));
                                  ("skipped",
                                   JNum (Z.of_nat (length accounts)
                                         - Z.of_nat (length normalized)));
                                  ("total", JNum (Z.of_nat (length merged)))])),
                      Entries merged)
                 end).
Proof.
  unfold importToml.
  destruct (toml req) as [[| | | tomlContent | |]|]; try (left; eexists; reflexivity).
  destruct (negb (Str.truthy tomlContent)); [left; eexists; reflexivity|].
  destruct (parseToml tomlContent) as [message|parsed] eqn:Ep;
    [left; eexists; reflexivity|].
  destruct parsed as [| | | | |fields]; try (left; eexists; reflexivity).
  destruct (Json.get "accounts" fields) as [[| | | |accounts|]|] eqn:Eg;
    try (left; eexists; reflexivity).
  destruct (negb (SchemaCleaner.nonempty accounts)); [left; eexists; reflexivity|].
  rewrite normalize_all_spec.
  set (normalized := omap _ accounts).
  destruct (SchemaCleaner.nonempty normalized) eqn:En; cbn [negb];
    [|left; eexists; reflexivity].
  right. exists tomlContent, fields, accounts.
  split; [reflexivity|]. split; [exact Ep|]. split; [exact Eg|].
  cbv zeta. fold normalized. split; [|reflexivity].
  intros E. rewrite E in En. discriminate.
Qed.


(** With [replaceExisting], every entry of the file an accepted import
    writes is a record with both tokens and an [enable] flag, whatever the
    file held before. *)
Theorem import_replace_tokens (req : importRequest) (disk : file) (r : reply)
    (written : list json) :
  replaceExisting req = Some true ->
  importToml String_units string_to_number Date_parse Date_now parseToml req disk
  = (Replied r, Entries written) ->
  status r = 200 ->
  Forall
    (fun entry =>
       exists n,
         entry = JObj n
         /\ Json.truthy_opt (Json.get "access_token" n) = true
         /\ Json.truthy_opt (Json.get "refresh_token" n) = true
         /\ (exists b, Json.get "enable" n = Some (JBool b))
         /\ Spec.wellFormed n)
    written.
Proof.
  intros Hr H Hs.
  destruct (import_cases req disk) as [[message E]|(t & fields & accounts & _ & _ & _ & E)].
  - rewrite E in H. apply (f_equal fst) in H. cbn [fst] in H. unfold bad_request in H.
    injection H as <-. discriminate.
  - cbv zeta in E. destruct E as [_ E]. rewrite E in H. rewrite Hr in H.
    cbn [default] in H. unfold mergeStored in H.
    apply (f_equal snd) in H. cbn [snd] in H. injection H as <-.
    apply List.Forall_forall. intros entry Hn.
    apply in_map_iff in Hn as (n & <- & Hn).
    apply list_elem_of_In, list_elem_of_omap in Hn. destruct Hn as (raw & _ & Hn).
    destruct (normalized_record _ _ _ Hn) as (f & _ & _ & _ & _ & Ha & Ht & He & Hw).
    exists n. split; [reflexivity|].
    split; [exact Ha|]. split; [exact Ht|]. split; [eexists; exact He | exact Hw].
Qed.

End TomlImport.

Lemma normalize_sound_witness :
  exists fields,
    JObj [("accessToken", JStr "a1"); ("refresh_token", JStr "r1");
          ("project_id", JStr "p1"); ("userEmail", JStr "one@example.com")]
    = JObj fields
    /\ (true = true -> isDisabled fields = false)
    /\ Json.get "access_token"
         [("access_token", JStr "a1"); ("refresh_token", JStr "r1");
          ("expires_in", JNum 3600); ("timestamp", JNum 5000);
          ("enable", JBool true); ("projectId", JStr "p1");
          ("user_email", JStr "one@example.com")]
       = Json.nullish_or (Json.get "access_token" fields) (Json.get "accessToken" fields)
    /\ Json.get "refresh_token"
         [("access_token", JStr "a1"); ("refresh_token", JStr "r1");
          ("expires_in", JNum 3600); ("timestamp", JNum 5000);
          ("enable", JBool true); ("projectId", JStr "p1");
          ("user_email", JStr "one@example.com")]
       = Json.nullish_or (Json.get "refresh_token" fields)
           (Json.get "refreshToken" fields)
    /\ Json.truthy_opt
         (Json.get "access_token"
            [("access_token", JStr "a1"); ("refresh_token", JStr "r1");
             ("expires_in", JNum 3600); ("timestamp", JNum 5000);
             ("enable", JBool true); ("projectId", JStr "p1");
             ("user_email", JStr "one@example.com")]) = true
    /\ Json.truthy_opt
         (Json.get "refresh_token"
            [("access_token", JStr "a1"); ("refresh_token", JStr "r1");
             ("expires_in", JNum 3600); ("timestamp", JNum 5000);
             ("enable", JBool true); ("projectId", JStr "p1");
             ("user_email", JStr "one@example.com")]) = true
    /\ Json.get "enable"
         [("access_token", JStr "a1"); ("refresh_token", JStr "r1");
          ("expires_in", JNum 3600); ("timestamp", JNum 5000);
          ("enable", JBool true); ("projectId", JStr "p1");
          ("user_email", JStr "one@example.com")]
       = Some (JBool (negb (isDisabled fields)))
    /\ Spec.wellFormed
         [("access_token", JStr "a1"); ("refresh_token", JStr "r1");
          ("expires_in", JNum 3600); ("timestamp", JNum 5000);
          ("enable", JBool true); ("projectId", JStr "p1");
          ("user_email", JStr "one@example.com")].
Proof.
  exact (normalize_sound Sample.no_number Sample.no_date 5000
           (JObj [("accessToken", JStr "a1"); ("refresh_token", JStr "r1");
                  ("project_id", JStr "p1"); ("userEmail", JStr "one@example.com")])
           true
           [("access_token", JStr "a1"); ("refresh_token", JStr "r1");
            ("expires_in", JNum 3600); ("timestamp", JNum 5000);
            ("enable", JBool true); ("projectId", JStr "p1");
            ("user_email", JStr "one@example.com")]
           eq_refl).
Defined.

Lemma import_replace_tokens_witness :
  Forall
    (fun entry =>
       exists n,
         entry = JObj n
         /\ Json.truthy_opt (Json.get "access_token" n) = true
         /\ Json.truthy_opt (Json.get "refresh_token" n) = true
         /\ (exists b, Json.get "enable" n = Some (JBool b))
         /\ Spec.wellFormed n)
    [JObj [("access_token", JStr "a1"); ("refresh_token", JStr "r1");
           ("expires_in", JNum 3600); ("timestamp", JNum 100);
           ("enable", JBool true)];
     JObj [("access_token", JStr "a2"); ("refresh_token", JStr "r2");
           ("expires_in", JNum 3600); ("timestamp", JNum 200);
           ("enable", JBool true); ("email", JStr "two@example.com")]].
Proof.
  exact (import_replace_tokens Sample.ascii_units Sample.no_number Sample.no_date 5000
           Sample.parse_toml
           (ImportRequest (Some (JStr "[[accounts]]")) (Some true) (Some true))
           (Entries [JNull; JNum 1])
           (Reply 200
              (JObj [("success", JBool true); ("imported", JNum 2);
                     ("skipped", JNum 1); ("total", JNum 2)]))
           [JObj [("access_token", JStr "a1"); ("refresh_token", JStr "r1");
                  ("expires_in", JNum 3600); ("timestamp", JNum 100);
                  ("enable", JBool true)];
            JObj [("access_token", JStr "a2"); ("refresh_token", JStr "r2");
                  ("expires_in", JNum 3600); ("timestamp", JNum 200);
                  ("enable", JBool true); ("email", JStr "two@example.com")]]
           eq_refl eq_refl eq_refl).
Defined.


End AccountsFacts.
(** ** The thought-signature memory *)

Module MemoryFacts.
Import Signature.

Lemma set_if_keeps (c : bool) (k t : string) (p : payload) (m : gmap string payload) :
  m !! t = Some p -> set_if c k p m !! t = Some p.
Proof.
  intros H. unfold set_if. destruct c; [|exact H].
  destruct (decide (k = t)) as [->|Hne].
  - apply lookup_insert_eq.
  - rewrite lookup_insert_ne by exact Hne. exact H.
Qed.

Lemma set_if_other (c : bool) (k t : string) (p : payload) (m : gmap string payload) :
  m !! t = None -> k <> t -> set_if c k p m !! t = None.
Proof.
  intros H Hne. unfold set_if. destruct c; [|exact H].
  rewrite lookup_insert_ne by exact Hne. exact H.
Qed.

Lemma trim_empty : Str.trim "" = "".
Proof. reflexivity. Qed.

Lemma registered_text (st : store) (t sig : string) :
  Str.trim t <> "" -> sig <> "" ->
  let m := textThoughtSignatureMap (registerTextThoughtSignature t sig st) in
  m !! t = Some (Payload sig t)
  /\ m !! Str.trim t = Some (Payload sig t)
  /\ forall u, textThoughtSignatureMap st !! u = None ->
       m !! u = None \/ m !! u = Some (Payload sig t).
Proof.
  intros Ht Hsig.
  assert (Et : Str.truthy t = true).
  { apply SignatureFacts.truthy_nonempty. intros ->. now apply Ht. }
  assert (Ett : Str.truthy (Str.trim t) = true)
    by now apply SignatureFacts.truthy_nonempty.
  apply SignatureFacts.truthy_nonempty in Hsig.
  unfold registerTextThoughtSignature. rewrite Et, Hsig.
  cbn [negb orb textThoughtSignatureMap]. cbv zeta.
  set (p := Payload sig t).
  set (k2 := normalizeTextForSignature (Str.trim t)).
  set (m1 := set_if true t p (textThoughtSignatureMap st)).
  set (m2 := set_if (Str.truthy k2) k2 p m1).
  rewrite Ett. cbn [andb].
  set (m3 := set_if (negb (String.eqb (Str.trim t) k2)) (Str.trim t) p m2).
  assert (H1 : m1 !! t = Some p) by apply lookup_insert_eq.
  assert (H3 : m3 !! Str.trim t = Some p).
  { subst m3 m2. destruct (String.eqb (Str.trim t) k2) eqn:E.
    - apply String.eqb_eq in E. cbn [negb set_if]. rewrite <- E, Ett.
      apply lookup_insert_eq.
    - cbn [negb]. apply lookup_insert_eq. }
  split; [now apply set_if_keeps, set_if_keeps|].
  split; [exact H3|].
  intros u Hu.
  destruct (decide (Str.trim t = u)) as [<-|N3]; [now right|].
  destruct (decide (t = u)) as [<-|N1].
  { right. now apply set_if_keeps, set_if_keeps. }
  assert (Hm1 : m1 !! u = None).
  { subst m1. cbn [set_if]. now rewrite lookup_insert_ne. }
  destruct (decide (k2 = u)) as [<-|N2].
  - subst m3 m2. destruct (Str.truthy k2) eqn:E2.
    + right. apply set_if_keeps. apply lookup_insert_eq.
    + left. apply set_if_other; [exact Hm1 | exact N3].
  - left. apply set_if_other; [|exact N3]. apply set_if_other; [exact Hm1 | exact N2].
Qed.

(** A text registered with a signature is found again with that signature:
    under the text itself, and under any text that trims to the same
    characters and was not registered before. *)
Theorem text_signature_round_trip (st : store) (t sig u : string) :
  Str.trim t <> "" -> sig <> "" ->
  Str.trim u = Str.trim t ->
  u = t \/ textThoughtSignatureMap st !! u = None ->
  getTextThoughtSignature (registerTextThoughtSignature t sig st) u
  = Some (Payload sig t).
Proof.
  intros Ht Hsig Hu Hfresh.
  destruct (registered_text st t sig Ht Hsig) as (Hexact & Htrim & Hother).
  cbv zeta in *. unfold getTextThoughtSignature. rewrite Hu.
  apply SignatureFacts.truthy_nonempty in Ht. rewrite Ht. cbn [negb].
  destruct Hfresh as [->|Hfresh].
  - now rewrite Hexact.
  - destruct (Hother u Hfresh) as [E|E]; rewrite E; [|reflexivity].
    now rewrite Htrim.
Qed.

Lemma text_signature_round_trip_witness :
  getTextThoughtSignature
    (registerTextThoughtSignature " The answer is 4. " "sig-1" empty)
    "The answer is 4."
  = Some (Payload "sig-1" " The answer is 4. ").
Proof.
  apply (text_signature_round_trip empty " The answer is 4. " "sig-1"
           "The answer is 4.").
  - discriminate.
  - discriminate.
  - reflexivity.
  - right. apply lookup_empty.
Defined.

(** The two memories are independent, and a registered call signature is
    read back under its id: a registration with an empty id or an empty
    signature changes nothing, and no other id is affected. *)
Theorem call_signature_round_trip (st : store) (id sig i t : string) :
  getThoughtSignature (registerThoughtSignature id sig st) (Some i)
  = (if Str.truthy id && Str.truthy sig && String.eqb i id then Some sig
     else getThoughtSignature st (Some i))
  /\ getTextThoughtSignature (registerThoughtSignature id sig st) t
     = getTextThoughtSignature st t
  /\ getThoughtSignature (registerTextThoughtSignature t sig st) (Some i)
     = getThoughtSignature st (Some i).
Proof.
  split; [|split].
  - unfold registerThoughtSignature, getThoughtSignature.
    destruct (Str.truthy id) eqn:Eid; cbn [negb orb andb];
      [|reflexivity].
    destruct (Str.truthy sig) eqn:Esig; cbn [negb orb andb]; [|reflexivity].
    cbn [thoughtSignatureMap].
    destruct (String.eqb i id) eqn:E.
    + apply String.eqb_eq in E. subst i. rewrite Eid. apply lookup_insert_eq.
    + apply String.eqb_neq in E. destruct (Str.truthy i); [|reflexivity].
      rewrite lookup_insert_ne by congruence. reflexivity.
  - unfold registerThoughtSignature.
    now destruct (negb (Str.truthy id) || negb (Str.truthy sig)).
  - unfold registerTextThoughtSignature.
    now destruct (negb (Str.truthy t) || negb (Str.truthy sig)).
Qed.

Lemma reachable_calls (st : store) :
  reachable st -> forall i s, thoughtSignatureMap st !! i = Some s -> s <> "".
Proof.
  induction 1 as [|id sig st _ IH|t sig st _ IH]; intros i s H.
  - cbn in H. now rewrite lookup_empty in H.
  - unfold registerThoughtSignature in H.
    destruct (Str.truthy id) eqn:Eid; cbn [negb orb] in H; [|now apply (IH i)].
    destruct (Str.truthy sig) eqn:Esig; cbn [negb orb] in H; [|now apply (IH i)].
    cbn [thoughtSignatureMap] in H.
    destruct (decide (id = i)) as [->|Hne].
    + rewrite lookup_insert_eq in H. injection H as <-.
      now apply SignatureFacts.truthy_nonempty.
    + rewrite lookup_insert_ne in H by exact Hne. now apply (IH i).
  - unfold registerTextThoughtSignature in H.
    destruct (negb (Str.truthy t) || negb (Str.truthy sig)); now apply (IH i).
Qed.

(** Whatever the registrations were, the memory never hands out an empty
    signature, for a text or for a call. *)
Theorem signatures_never_empty (st : store) :
  reachable st ->
  (forall t p, getTextThoughtSignature st t = Some p -> signature p <> "")
  /\ (forall i s, getThoughtSignature st i = Some s -> s <> "").
Proof.
  intros Hst. split.
  - intros t p H. apply SignatureFacts.truthy_nonempty.
    pose proof (SignatureFacts.reachable_ok st Hst) as Hok.
    unfold getTextThoughtSignature in H.
    destruct (negb (Str.truthy (Str.trim t))); [discriminate|].
    destruct (textThoughtSignatureMap st !! t) as [q|] eqn:E1.
    { injection H as <-. exact (proj2 (Hok _ _ E1)). }
    destruct (textThoughtSignatureMap st !! Str.trim t) as [q|] eqn:E2.
    { injection H as <-. exact (proj2 (Hok _ _ E2)). }
    destruct (negb (Str.truthy (normalizeTextForSignature (Str.trim t))));
      [discriminate|].
    exact (proj2 (Hok _ _ H)).
  - intros [i|] s H; [|discriminate]. unfold getThoughtSignature in H.
    destruct (Str.truthy i); [|discriminate].
    exact (reachable_calls st Hst i s H).
Qed.

Lemma signatures_never_empty_witness :
  (forall t p,
      getTextThoughtSignature
        (registerTextThoughtSignature "hello" "sig-1"
           (registerThoughtSignature "call-1" "sig-0" empty)) t = Some p ->
      signature p <> "")
  /\ (forall i s,
        getThoughtSignature
          (registerTextThoughtSignature "hello" "sig-1"
             (registerThoughtSignature "call-1" "sig-0" empty)) i = Some s ->
        s <> "").
Proof.
  apply (signatures_never_empty
           (registerTextThoughtSignature "hello" "sig-1"
              (registerThoughtSignature "call-1" "sig-0" empty))).
  apply reach_text, reach_call, reach_empty.
Defined.

End MemoryFacts.
(** ** The conversion of a conversation *)

Module AdapterFacts.
Import Upstream Adapter.

Lemma push_to_last_snoc (more : list part) (init : list turn) (l : turn) :
  push_to_last more (init ++ [l]) = init ++ [Turn (role l) (parts l ++ more)].
Proof.
  unfold push_to_last. rewrite rev_app_distr. cbn [List.rev app].
  now rewrite rev_involutive.
Qed.

Lemma last_model (msgs : list turn) (r : string) :
  role <$> last msgs = Some r ->
  exists init l, msgs = init ++ [l] /\ role l = r.
Proof.
  destruct msgs as [|x msgs] using rev_ind; [discriminate|].
  rewrite last_snoc. cbn. intros [= <-]. now exists msgs, x.
Qed.

#[local] Ltac roles :=
  apply Forall_app; split;
  [assumption | constructor; [(now left) || (now right) | constructor]].

Lemma assistant_turns (JSON_parse : string -> option json) (st : Signature.store)
    (message : OpenAI.message) (prior : list turn) (modelName : string)
    (turns : list turn) :
  handleAssistantMessage JSON_parse st message prior modelName = Some turns ->
  (exists init l more,
      prior = init ++ [l] /\ role l = "model"
      /\ turns = init ++ [Turn "model" (parts l ++ more)])
  \/ (exists ps, turns = prior ++ [Turn "model" ps]).
Proof.
  unfold handleAssistantMessage.
  destruct (contentText (OpenAI.content message)) as [text|]; [|discriminate].
  cbn [mbind option_bind]. cbv zeta.
  destruct (bool_decide (role <$> last prior = Some "model")) eqn:E;
    cbn [andb].
  - apply bool_decide_eq_true in E. destruct (last_model _ _ E) as (init & l & -> & Hl).
    destruct (hasToolCalls message && negb (negb (String.eqb (Str.trim text) "")));
      intros [= <-].
    + left. exists init, l, (antigravityTools JSON_parse st message).
      rewrite push_to_last_snoc, Hl. now repeat split.
    + right. now eexists.
  - intros [= <-]. right. now eexists.
Qed.

Lemma tool_turns (JSON_stringify : json -> string) (message : OpenAI.message)
    (prior : list turn) :
  let response :=
    FunctionResponse (OpenAI.tool_call_id message)
      (name_in_turns (OpenAI.tool_call_id message) (List.rev prior))
      (toolOutput JSON_stringify (OpenAI.content message)) in
  (exists init l,
      prior = init ++ [l] /\ role l = "user"
      /\ handleToolCall JSON_stringify message prior
         = init ++ [Turn "user" (parts l ++ [response])])
  \/ handleToolCall JSON_stringify message prior = prior ++ [Turn "user" [response]].
Proof.
  cbv zeta. unfold handleToolCall.
  destruct prior as [|l init _] using rev_ind; [now right|].
  rewrite last_snoc.
  destruct (String.eqb (role l) "user" && existsb is_functionResponse (parts l)) eqn:E;
    [|now right].
  apply andb_true_iff in E as [E _]. apply String.eqb_eq in E.
  left. exists init, l. rewrite push_to_last_snoc, E. now repeat split.
Qed.

Lemma foldl_none {A B} (f : option A -> B -> option A) (l : list B) :
  (forall b, f None b = None) -> foldl f None l = None.
Proof. intros H. induction l as [|b l IH]; [reflexivity|]. cbn. now rewrite H. Qed.

Lemma convert_message_turns (JSON_parse : string -> option json)
    (JSON_stringify : json -> string) (st : Signature.store) (modelName : string)
    (acc : list turn) (message : OpenAI.message) (turns : list turn) :
  convert_message JSON_parse JSON_stringify st modelName (Some acc) message = Some turns ->
  Forall Props.role_ok acc ->
  Forall Props.role_ok turns /\ (length turns <= S (length acc))%nat.
Proof.
  unfold convert_message. cbn [mbind option_bind]. intros H Hacc.
  destruct (String.eqb (OpenAI.role message) "user"
            || String.eqb (OpenAI.role message) "system").
  { destruct (extractImagesFromContent (OpenAI.content message)) as [e|];
      [|discriminate].
    cbn [mbind option_bind] in H. injection H as <-. unfold handleUserMessage.
    split; [roles|]. rewrite length_app. cbn. lia. }
  destruct (String.eqb (OpenAI.role message) "assistant").
  { destruct (assistant_turns _ _ _ _ _ _ H)
      as [(init & l & more & -> & Hl & ->)|(ps & ->)].
    - apply Forall_app in Hacc as [Hinit _]. split; [roles|].
      rewrite !length_app. cbn. lia.
    - split; [roles|]. rewrite length_app. cbn. lia. }
  destruct (String.eqb (OpenAI.role message) "tool").
  { injection H as <-.
    destruct (tool_turns JSON_stringify message acc) as [(init & l & -> & Hl & ->)| ->].
    - apply Forall_app in Hacc as [Hinit _]. split; [roles|].
      rewrite !length_app. cbn. lia.
    - split; [roles|]. rewrite length_app. cbn. lia. }
  injection H as <-. split; [exact Hacc | lia].
Qed.

Lemma converted_from (JSON_parse : string -> option json)
    (JSON_stringify : json -> string) (st : Signature.store) (modelName : string)
    (openaiMessages : list OpenAI.message) (acc turns : list turn) :
  foldl (convert_message JSON_parse JSON_stringify st modelName) (Some acc)
    openaiMessages = Some turns ->
  Forall Props.role_ok acc ->
  Forall Props.role_ok turns
  /\ (length turns <= length acc + length openaiMessages)%nat.
Proof.
  revert acc. induction openaiMessages as [|message rest IH]; intros acc H Hacc.
  - cbn in H. injection H as <-. split; [exact Hacc | lia].
  - cbn [foldl] in H.
    destruct (convert_message JSON_parse JSON_stringify st modelName (Some acc) message)
      as [next|] eqn:E.
    + destruct (convert_message_turns _ _ _ _ _ _ _ E Hacc) as [Hn Hl].
      destruct (IH next H Hn) as [Ht Hlen]. split; [exact Ht|]. cbn [length]. lia.
    + rewrite foldl_none in H by reflexivity. discriminate.
Qed.

(** Every turn of a converted conversation has the role [user] or [model],
    and there are at most as many turns as messages. *)
Theorem converted_turns (JSON_parse : string -> option json)
    (JSON_stringify : json -> string) (st : Signature.store)
    (openaiMessages : list OpenAI.message) (modelName : string)
    (turns : list turn) :
  openaiMessageToAntigravity JSON_parse JSON_stringify st openaiMessages modelName
  = Some turns ->
  Forall Props.role_ok turns /\ (length turns <= length openaiMessages)%nat.
Proof.
  intros H. exact (converted_from _ _ _ _ _ [] _ H (List.Forall_nil _)).
Qed.

Lemma converted_turns_witness :
  Forall Props.role_ok
    [Turn "user" [TextPart "hi" None];
     Turn "model" [FunctionCall (Some "call-1") "lookup" (JObj []) None]]
  /\ (length
        [Turn "user" [TextPart "hi" None];
         Turn "model" [FunctionCall (Some "call-1") "lookup" (JObj []) None]]
      <= length [Sample.user_hi; Sample.assistant_call])%nat.
Proof.
  exact (converted_turns Sample.parse_nothing Sample.stringify_nothing Signature.empty
           [Sample.user_hi; Sample.assistant_call] "gemini-2.5-pro"
           [Turn "user" [TextPart "hi" None];
            Turn "model" [FunctionCall (Some "call-1") "lookup" (JObj []) None]]
           eq_refl).
Defined.

(** *** Tool results *)

Lemma name_in_turns_skip (id : option string) (t : turn) (r : list turn) :
  role t = "user" -> name_in_turns id (t :: r) = name_in_turns id r.
Proof. intros H. cbn [name_in_turns]. now rewrite H. Qed.

Lemma name_after_tool (JSON_stringify : json -> string) (message : OpenAI.message)
    (prior : list turn) (id : option string) :
  name_in_turns id (List.rev (handleToolCall JSON_stringify message prior))
  = name_in_turns id (List.rev prior).
Proof.
  destruct (tool_turns JSON_stringify message prior) as [(init & l & -> & Hl & ->)| ->];
    rewrite !rev_app_distr; cbn [List.rev app].
  - now rewrite !name_in_turns_skip.
  - now rewrite name_in_turns_skip.
Qed.

(** Two tool results in a row go into one [user] turn: the second is
    appended to the parts of the turn the first is in, and it is named by
    the same search through the [model] turns before them. *)
Theorem tool_results_share_a_turn (JSON_stringify : json -> string)
    (first second : OpenAI.message) (prior : list turn) :
  exists before ps,
    handleToolCall JSON_stringify first prior = before ++ [Turn "user" ps]
    /\ handleToolCall JSON_stringify second
         (handleToolCall JSON_stringify first prior)
       = before
         ++ [Turn "user"
               (ps ++ [FunctionResponse (OpenAI.tool_call_id second)
                         (name_in_turns (OpenAI.tool_call_id second) (List.rev prior))
                         (toolOutput JSON_stringify (OpenAI.content second))])].
Proof.
  pose proof (name_after_tool JSON_stringify first prior (OpenAI.tool_call_id second))
    as Hname.
  destruct (tool_turns JSON_stringify first prior) as [(init & l & E & Hl & H1)|H1].
  - exists init. eexists. split; [exact H1|].
    rewrite H1 in Hname |- *. unfold handleToolCall at 1.
    rewrite last_snoc. cbn [role parts]. rewrite existsb_app. cbn [existsb is_functionResponse].
    rewrite orb_true_r. cbn [String.eqb Ascii.eqb Bool.eqb andb].
    rewrite push_to_last_snoc. cbn [role parts]. now rewrite Hname.
  - exists prior. eexists. split; [exact H1|].
    rewrite H1 in Hname |- *. unfold handleToolCall at 1.
    rewrite last_snoc. cbn [role parts existsb is_functionResponse orb].
    cbn [String.eqb Ascii.eqb Bool.eqb andb].
    rewrite push_to_last_snoc. cbn [role parts]. now rewrite Hname.
Qed.

Lemma name_in_text_parts (id : option string) (st : Signature.store) (allow : bool)
    (text : string) (ps : list part) :
  name_in_parts id (textParts st allow text ++ ps) = name_in_parts id ps.
Proof.
  unfold textParts.
  destruct allow; [destruct (Signature.getTextThoughtSignature st text)|];
    reflexivity.
Qed.

Lemma name_in_calls (JSON_parse : string -> option json) (st : Signature.store)
    (id : option string) (calls : list OpenAI.tool_call) :
  name_in_parts id (map (toolCallPart JSON_parse st) calls)
  = match Props.answered id calls with
    | Some c => OpenAI.function_name c
    | None => ""
    end.
Proof.
  induction calls as [|c calls IH]; [reflexivity|].
  cbn [map name_in_parts toolCallPart Props.answered List.find].
  destruct (bool_decide (OpenAI.call_id c = id)); [reflexivity | exact IH].
Qed.

(** A tool result that follows the assistant message with the call it
    answers is named after the function of that call (the first call of the
    message with its id), in a [user] turn of its own. *)
Theorem tool_result_named (JSON_parse : string -> option json)
    (JSON_stringify : json -> string) (st : Signature.store)
    (message result : OpenAI.message) (calls : list OpenAI.tool_call)
    (c : OpenAI.tool_call) (prior : list turn) (modelName : string)
    (turns : list turn) :
  OpenAI.tool_calls message = Some calls ->
  Props.answered (OpenAI.tool_call_id result) calls = Some c ->
  OpenAI.function_name c <> "" ->
  role <$> last prior <> Some "model" ->
  handleAssistantMessage JSON_parse st message prior modelName = Some turns ->
  handleToolCall JSON_stringify result turns
  = turns
    ++ [Turn "user"
          [FunctionResponse (OpenAI.tool_call_id result) (OpenAI.function_name c)
             (toolOutput JSON_stringify (OpenAI.content result))]].
Proof.
  intros Hcalls Hc Hname Hlast. unfold handleAssistantMessage.
  destruct (contentText (OpenAI.content message)) as [text|]; [|discriminate].
  cbn [mbind option_bind]. cbv zeta.
  rewrite bool_decide_eq_false_2 by exact Hlast. cbn [andb]. intros [= <-].
  assert (Htools : antigravityTools JSON_parse st message
                   = map (toolCallPart JSON_parse st) calls).
  { unfold antigravityTools, hasToolCalls. rewrite Hcalls.
    destruct calls; [discriminate | reflexivity]. }
  rewrite Htools. unfold handleToolCall.
  rewrite last_snoc, rev_app_distr. cbn [List.rev app role parts name_in_turns].
  cbn [String.eqb Ascii.eqb Bool.eqb andb].
  assert (Hn : name_in_parts (OpenAI.tool_call_id result)
                 ((if negb (String.eqb (Str.trim text) "")
                   then textParts st (Str.includes modelName "gemini-3") text
                   else [])
                  ++ map (toolCallPart JSON_parse st) calls)
               = OpenAI.function_name c).
  { destruct (negb (String.eqb (Str.trim text) ""));
      [rewrite name_in_text_parts|cbn [app]]; now rewrite name_in_calls, Hc. }
  rewrite Hn. apply SignatureFacts.truthy_nonempty in Hname. now rewrite Hname.
Qed.

Lemma tool_result_named_witness :
  handleToolCall Sample.stringify_nothing
    (OpenAI.Message "tool" (Some (JStr "42")) None (Some "call-1"))
    [Turn "user" [TextPart "hi" None];
     Turn "model" [FunctionCall (Some "call-1") "lookup" (JObj []) None]]
  = [Turn "user" [TextPart "hi" None];
     Turn "model" [FunctionCall (Some "call-1") "lookup" (JObj []) None]]
    ++ [Turn "user" [FunctionResponse (Some "call-1") "lookup" (Some (JStr "42"))]].
Proof.
  refine (tool_result_named Sample.parse_nothing Sample.stringify_nothing
            Signature.empty Sample.assistant_call
            (OpenAI.Message "tool" (Some (JStr "42")) None (Some "call-1"))
            [Sample.call_1] Sample.call_1 [Turn "user" [TextPart "hi" None]]
            "gemini-2.5-pro"
            [Turn "user" [TextPart "hi" None];
             Turn "model" [FunctionCall (Some "call-1") "lookup" (JObj []) None]]
            eq_refl eq_refl _ _ eq_refl).
  - discriminate.
  - discriminate.
Defined.

(** *** Images of a user message *)

Lemma all_chars_no_byte (p : ascii -> bool) (s a b : string) (c : ascii) :
  Spec.all_chars p s = true -> p c = false -> s <> a +:+ String c b.
Proof.
  revert a. induction s as [|d s IH]; intros a Hall Hc E.
  - destruct a; discriminate.
  - cbn [Spec.all_chars] in Hall. apply andb_true_iff in Hall as [Hd Hall].
    destruct a as [|e a]; cbn [append] in E; injection E as -> E.
    + congruence.
    + exact (IH a Hall Hc E).
Qed.

Lemma base64_excludes (data : string) (c : ascii) (r : string) :
  Spec.all_chars Props.is_base64 data = true -> Props.is_base64 c = false ->
  Str.includes data (String c r) = false.
Proof.
  intros Hall Hc. apply not_true_is_false. intros H.
  apply StrFacts.includes_spec in H as (a & b & E).
  cbn [append] in E. exact (all_chars_no_byte _ _ _ _ _ Hall Hc E).
Qed.

Lemma parse_data_uri_ok (format data : string) :
  format <> "" -> Spec.all_chars is_word format = true ->
  data <> "" -> Spec.all_chars Props.is_base64 data = true ->
  parse_data_uri ("data:image/" +:+ format +:+ ";base64," +:+ data)
  = Some (format, data).
Proof.
  intros Hf Hw Hd Hb. unfold parse_data_uri.
  rewrite StrFacts.prefix_append.
  change 11%nat with (String.length "data:image/"). rewrite StrFacts.slice_append.
  assert (Hrun : Str.run_len is_word (format +:+ ";base64," +:+ data)
                 = String.length format).
  { change (";base64," +:+ data) with (String ";" ("base64," +:+ data)).
    now apply ApiKeyFacts.run_len_stop. }
  rewrite Hrun, StrFacts.slice_append, StrFacts.prefix_append.
  destruct format as [|f0 format]; [congruence|]. cbn [String.length Nat.eqb].
  change 8%nat with (String.length ";base64,"). rewrite StrFacts.slice_append.
  apply String.eqb_neq in Hd. rewrite Hd.
  unfold Str.LF, Str.CR, Str.bytes. cbn [map string_of_list_ascii].
  rewrite !base64_excludes by (exact Hb || reflexivity). cbn [orb].
  f_equal. f_equal.
  change (S (String.length format)) with (String.length (String f0 format)).
  generalize (";base64," +:+ data) as tail. generalize (String f0 format) as s.
  clear. intros s tail. induction s as [|c s IH]; [now destruct tail|].
  cbn [append String.length String.substring]. now rewrite IH.
Qed.

(** A user message of a text item and an image item whose URL is a
    [data:image/<format>;base64,<data>] URI becomes one [user] turn: the
    text, then the image as inline data of type [image/<format>] with the
    payload unchanged. *)
Theorem data_uri_image (JSON_parse : string -> option json)
    (JSON_stringify : json -> string) (st : Signature.store) (modelName : string)
    (prior : list turn) (t format data : string) :
  format <> "" -> Spec.all_chars is_word format = true ->
  data <> "" -> Spec.all_chars Props.is_base64 data = true ->
  convert_message JSON_parse JSON_stringify st modelName (Some prior)
    (OpenAI.Message "user"
       (Some (JArr [JObj [("type", JStr "text"); ("text", JStr t)];
                    JObj [("type", JStr "image_url");
                          ("image_url",
                           JObj [("url",
                                  JStr ("data:image/" +:+ format +:+ ";base64,"
                                        +:+ data))])]]))
       None None)
  = Some (prior ++ [Turn "user" [TextPart t None; InlineData ("image/" +:+ format) data]]).
Proof.
  intros Hf Hw Hd Hb.
  pose proof (parse_data_uri_ok format data Hf Hw Hd Hb) as Hp.
  assert (Ht : Str.truthy ("data:image/" +:+ format +:+ ";base64," +:+ data) = true)
    by reflexivity.
  set (uri := "data:image/" +:+ format +:+ ";base64," +:+ data) in *.
  unfold convert_message. cbn [mbind option_bind OpenAI.role OpenAI.content].
  cbn [String.eqb Ascii.eqb Bool.eqb orb].
  unfold extractImagesFromContent. cbn [foldl mbind option_bind].
  unfold extract_item at 2. cbn [Json.prop Json.get String.eqb Ascii.eqb Bool.eqb
    mbind option_bind Json.is_str fst snd Json.to_string_opt Json.to_string append].
  unfold extract_item. cbn [Json.prop Json.get String.eqb Ascii.eqb Bool.eqb
    mbind option_bind Json.is_str fst snd default Json.truthy_opt Json.truthy id].
  rewrite Ht, Hp. reflexivity.
Qed.

Lemma data_uri_image_witness :
  convert_message Sample.parse_nothing Sample.stringify_nothing Signature.empty
    "gemini-2.5-pro" (Some [])
    (OpenAI.Message "user"
       (Some (JArr [JObj [("type", JStr "text"); ("text", JStr "what is this?")];
                    JObj [("type", JStr "image_url");
                          ("image_url",
                           JObj [("url",
                                  JStr ("data:image/" +:+ "png" +:+ ";base64,"
                                        +:+ "iVBORw0KGgo="))])]]))
       None None)
  = Some ([] ++ [Turn "user" [TextPart "what is this?" None;
                              InlineData ("image/" +:+ "png") "iVBORw0KGgo="]]).
Proof.
  apply (data_uri_image Sample.parse_nothing Sample.stringify_nothing Signature.empty
           "gemini-2.5-pro" [] "what is this?" "png" "iVBORw0KGgo=").
  - discriminate.
  - reflexivity.
  - discriminate.
  - reflexivity.
Defined.

End AdapterFacts.
(** ** What else a generated request holds *)

Module BodyFacts.
Import Upstream.

Lemma strip_signature_unsigned (p : part) :
  Props.signature_of (Request.strip_signature p) = None.
Proof. now destruct p. Qed.

(** A request for a model whose name contains [claude] carries no thought
    signature in any part of its contents. *)
Theorem claude_contents_unsigned
    (d : Request.defaults) (systemInstruction : string)
    (JSON_parse : string -> option json) (JSON_stringify : json -> string)
    (requestId : string) (st : Signature.store)
    (openaiMessages : list OpenAI.message) (modelName : string)
    (parameters : list (string * json)) (openaiTools : option (list OpenAI.tool))
    (tok : Request.token) (generated : Request.requestBody) :
  Str.includes modelName "claude" = true ->
  Request.generateRequestBody d systemInstruction JSON_parse JSON_stringify requestId
    st openaiMessages modelName parameters openaiTools tok = Some generated ->
  Forall (fun t => Forall (fun p => Props.signature_of p = None) (parts t))
    (Request.contents (Request.body generated))
  /\ Some (map role (Request.contents (Request.body generated)))
     = map role
         <$> Adapter.openaiMessageToAntigravity JSON_parse JSON_stringify st
               openaiMessages modelName.
Proof.
  intros Hc. unfold Request.generateRequestBody. rewrite Hc.
  destruct (Adapter.openaiMessageToAntigravity _ _ _ _ _) as [converted|];
    [|discriminate].
  cbn [mbind option_bind]. intros [= <-]. cbn [Request.body Request.contents].
  split.
  - apply List.Forall_forall. intros t Ht. apply in_map_iff in Ht as (t0 & <- & _).
    cbn [parts]. apply List.Forall_forall. intros p Hp.
    apply in_map_iff in Hp as (p0 & <- & _). apply strip_signature_unsigned.
  - cbn [fmap option_fmap option_map]. f_equal. rewrite map_map. reflexivity.
Qed.

Lemma claude_contents_unsigned_witness :
  exists generated,
    Request.generateRequestBody Sample.defaults "system" Sample.parse_nothing
      Sample.stringify_nothing "req-1"
      (Signature.registerThoughtSignature "call-1" "sig-0" Signature.empty)
      [Sample.user_hi; Sample.assistant_call] "claude-sonnet-4-5" [] None Sample.token
    = Some generated
    /\ Forall (fun t => Forall (fun p => Props.signature_of p = None) (parts t))
         (Request.contents (Request.body generated))
    /\ Some (map role (Request.contents (Request.body generated)))
       = map role
           <$> Adapter.openaiMessageToAntigravity Sample.parse_nothing
                 Sample.stringify_nothing
                 (Signature.registerThoughtSignature "call-1" "sig-0" Signature.empty)
                 [Sample.user_hi; Sample.assistant_call] "claude-sonnet-4-5".
Proof.
  eexists. split; [reflexivity|].
  apply (claude_contents_unsigned Sample.defaults "system" Sample.parse_nothing
           Sample.stringify_nothing "req-1"
           (Signature.registerThoughtSignature "call-1" "sig-0" Signature.empty)
           [Sample.user_hi; Sample.assistant_call] "claude-sonnet-4-5" [] None
           Sample.token);
    reflexivity.
Defined.

(** The sampling settings of a generated request: [topK], [temperature] and
    [maxOutputTokens] are the client's value, or the configured default
    when the client gave none or [null]; so is [topP], except that a
    request with thinking enabled for a model whose name contains [claude]
    has no [topP] at all. *)
Theorem generated_request_sampling
    (d : Request.defaults) (systemInstruction : string)
    (JSON_parse : string -> option json) (JSON_stringify : json -> string)
    (requestId : string) (st : Signature.store)
    (openaiMessages : list OpenAI.message) (modelName : string)
    (parameters : list (string * json)) (openaiTools : option (list OpenAI.tool))
    (tok : Request.token) (generated : Request.requestBody) :
  Request.generateRequestBody d systemInstruction JSON_parse JSON_stringify requestId
    st openaiMessages modelName parameters openaiTools tok = Some generated ->
  let c := Request.generation (Request.body generated) in
  Request.topK c
  = Json.nullish_or (Json.get "top_k" parameters) (Request.top_k d)
  /\ Request.temperature_ c
     = Json.nullish_or (Json.get "temperature" parameters) (Request.temperature d)
  /\ Request.maxOutputTokens c
     = Json.nullish_or (Json.get "max_tokens" parameters) (Request.max_tokens d)
  /\ Request.topP c
     = (if Request.includeThoughts (Request.thinking c)
           && Str.includes modelName "claude"
        then None
        else Json.nullish_or (Json.get "top_p" parameters) (Request.top_p d)).
Proof.
  unfold Request.generateRequestBody.
  destruct (Adapter.openaiMessageToAntigravity _ _ _ _ _) as [converted|];
    [|discriminate].
  cbn [mbind option_bind]. intros [= <-]. cbv zeta.
  cbn [Request.body Request.generation]. unfold Request.generateGenerationConfig.
  destruct (Request.enableThinking openaiMessages modelName);
    destruct (Str.includes modelName "claude"); now repeat split.
Qed.

Lemma generated_request_sampling_witness :
  exists generated,
    Request.generateRequestBody Sample.defaults "system" Sample.parse_nothing
      Sample.stringify_nothing "req-1" Signature.empty [Sample.user_hi]
      "claude-sonnet-4-5-thinking" [("top_p", JNum 1); ("temperature", JNull)] None
      Sample.token
    = Some generated
    /\ let c := Request.generation (Request.body generated) in
       Request.topK c
       = Json.nullish_or (Json.get "top_k" [("top_p", JNum 1); ("temperature", JNull)])
           (Request.top_k Sample.defaults)
       /\ Request.temperature_ c
          = Json.nullish_or
              (Json.get "temperature" [("top_p", JNum 1); ("temperature", JNull)])
              (Request.temperature Sample.defaults)
       /\ Request.maxOutputTokens c
          = Json.nullish_or
              (Json.get "max_tokens" [("top_p", JNum 1); ("temperature", JNull)])
              (Request.max_tokens Sample.defaults)
       /\ Request.topP c
          = (if Request.includeThoughts (Request.thinking c)
                && Str.includes "claude-sonnet-4-5-thinking" "claude"
             then None
             else Json.nullish_or
                    (Json.get "top_p" [("top_p", JNum 1); ("temperature", JNull)])
                    (Request.top_p Sample.defaults)).
Proof.
  eexists. split; [reflexivity|].
  apply (generated_request_sampling Sample.defaults "system" Sample.parse_nothing
           Sample.stringify_nothing "req-1" Signature.empty [Sample.user_hi]
           "claude-sonnet-4-5-thinking" [("top_p", JNum 1); ("temperature", JNull)]
           None Sample.token).
  reflexivity.
Defined.

End BodyFacts.
(** ** Buffered replies and refused requests *)

Module HandlerFacts.
Import Http Chat.

Lemma json_fresh (JSON_stringify : json -> string) (code : Z) (body : json) :
  json_ JSON_stringify body (Response code [] false [] false)
  = (Ok tt,
     Response code [("Content-Type", "application/json; charset=utf-8")] true
       [JSON_stringify body] true).
Proof. reflexivity. Qed.

Section Handler.

Variable JSON_stringify : json -> string.
Variable JSON_parse : string -> option json.
Variable config_defaults : Request.defaults.
Variable config_systemInstruction : string.
Variable generatedRequestId : string.
Variable signatures : Signature.store.
Variable resolveToken : result (option Request.token).
Variable tokenMissingError : option string.
Variable tokenMissingStatus : option Z.
Variable generateAssistantResponse :
  Request.requestBody -> Request.token -> list event * (error + option json).
Variable generateAssistantResponseNoStream :
  Request.requestBody -> Request.token -> error + (json * list json * option json).
Variable typeError : error.
Variable now_try now_catch : Z.

(** A request with [stream: false] gets one JSON body.  When the upstream
    answers, it is a completion at status 200 whose message carries
    [tool_calls], and whose finish reason is [tool_calls], exactly when the
    upstream returned calls.  When the upstream fails, it is a completion
    whose assistant text is the error, at the status of the error or 500. *)
Theorem buffered_reply (req : chatRequest) (msgs : list OpenAI.message)
    (tok : Request.token) (m : string) (generated : Request.requestBody) :
  messages req = Some msgs ->
  resolveToken = Ok (Some tok) ->
  model req = Some m ->
  Str.truthy m = true ->
  Request.generateRequestBody config_defaults config_systemInstruction JSON_parse
    JSON_stringify generatedRequestId signatures msgs m (params req) (tools req) tok
  = Some generated ->
  stream req = Some false ->
  createChatCompletionHandler JSON_stringify JSON_parse config_defaults
    config_systemInstruction generatedRequestId signatures resolveToken
    tokenMissingError tokenMissingStatus generateAssistantResponse
    generateAssistantResponseNoStream typeError now_try now_catch req fresh
  = (Ok tt,
     match
       generateAssistantResponseNoStream
         (if Str.includes m "-image" then imageRequest generated else generated) tok
     with
     | inr (content, toolCalls, usage) =>
         Response 200 [("Content-Type", "application/json; charset=utf-8")] true
           [JSON_stringify
              (completion (fst (createResponseMeta now_try))
                 (snd (createResponseMeta now_try)) m
                 (JObj ([("role", JStr "assistant"); ("content", content)]
                        ++ match toolCalls with
                           | [] => []
                           | _ :: _ => [("tool_calls", JArr toolCalls)]
                           end))
                 (match toolCalls with [] => "stop" | _ :: _ => "tool_calls" end)
                 [("usage",
                   match usage with
                   | Some u => if Json.truthy u then u else JNull
                   | None => JNull
                   end)])]
           true
     | inl e =>
         Response (Spec.errorStatus e)
           [("Content-Type", "application/json; charset=utf-8")] true
           [JSON_stringify
              (completion (fst (createResponseMeta now_catch))
                 (snd (createResponseMeta now_catch)) m
                 (JObj [("role", JStr "assistant");
                        ("content", JStr ("错误: " +:+ message e))])
                 "stop" [])]
           true
     end).
Proof.
  intros Hmsgs Htok Hmodel Hm Hgen Hstream.
  set (id := fst (createResponseMeta now_try)).
  set (created := snd (createResponseMeta now_try)).
  set (id' := fst (createResponseMeta now_catch)).
  set (created' := snd (createResponseMeta now_catch)).
  unfold createChatCompletionHandler, try_catch, tryBlock.
  rewrite Hmsgs, ChatFacts.bind_run, Htok, Hmodel, Hgen.
  change (createResponseMeta now_try) with (id, created).
  cbv beta iota. rewrite Hstream.
  change (default true (Some false)) with false. cbv iota.
  destruct (generateAssistantResponseNoStream _ tok) as [e|[[content toolCalls] usage]].
  - unfold throw, catchBlock. rewrite ChatFacts.bind_run.
    unfold get_headersSent, fresh. cbn [headersSent negb].
    change (createResponseMeta now_catch) with (id', created').
    cbv beta iota. rewrite Hstream, Hmodel.
    change (default true (Some false)) with false. cbv iota.
    unfold model_or_unknown. rewrite Hm.
    rewrite ChatFacts.bind_run. unfold set_status.
    cbn [status headers headersSent written finished].
    rewrite json_fresh. reflexivity.
  - unfold fresh. rewrite json_fresh.
    destruct toolCalls; destruct usage as [u|]; reflexivity.
Qed.

(** A request without [messages] is answered 400, and a request for which
    no token can be had is answered with the configured status and message
    (503 and the built-in hint when none is configured); either way with a
    JSON body [{error}] and nothing else. *)
Theorem request_refused (req : chatRequest) :
  (messages req = None ->
   createChatCompletionHandler JSON_stringify JSON_parse config_defaults
     config_systemInstruction generatedRequestId signatures resolveToken
     tokenMissingError tokenMissingStatus generateAssistantResponse
     generateAssistantResponseNoStream typeError now_try now_catch req fresh
   = (Ok tt,
      Response 400 [("Content-Type", "application/json; charset=utf-8")] true
        [JSON_stringify (JObj [("error", JStr "messages is required")])] true))
  /\ (messages req <> None -> resolveToken = Ok None ->
      createChatCompletionHandler JSON_stringify JSON_parse config_defaults
        config_systemInstruction generatedRequestId signatures resolveToken
        tokenMissingError tokenMissingStatus generateAssistantResponse
        generateAssistantResponseNoStream typeError now_try now_catch req fresh
      = (Ok tt,
         Response
           (match tokenMissingStatus with
            | Some s => if s =? 0 then 503 else s
            | None => 503
            end)
           [("Content-Type", "application/json; charset=utf-8")] true
           [JSON_stringify
              (JObj [("error",
                      JStr (match tokenMissingError with
                            | Some text =>
                                if Str.truthy text then text
                                else "没有可用的 token，请先通过 OAuth 面板或 npm run login 获取。"
                            | None =>
                                "没有可用的 token，请先通过 OAuth 面板或 npm run login 获取。"
                            end))])]
           true)).
Proof.
  split.
  - intros Hmsgs. unfold createChatCompletionHandler, try_catch, tryBlock.
    rewrite Hmsgs, ChatFacts.bind_run. unfold set_status, fresh.
    cbn [status headers headersSent written finished].
    rewrite json_fresh. reflexivity.
  - intros Hmsgs Htok. unfold createChatCompletionHandler, try_catch, tryBlock.
    destruct (messages req) as [msgs|]; [|congruence].
    rewrite ChatFacts.bind_run, Htok, ChatFacts.bind_run. unfold set_status, fresh.
    cbn [status headers headersSent written finished].
    rewrite json_fresh. reflexivity.
Qed.

End Handler.

Lemma buffered_reply_witness :
  createChatCompletionHandler Sample.stringify_nothing Sample.parse_nothing
    Sample.defaults "system" "req-1" Signature.empty (Ok (Some Sample.token))
    None None Sample.upstream Sample.upstream_buffered Sample.type_error
    5000 6000 Sample.chat_request_buffered fresh
  = (Ok tt,
     Response 200 [("Content-Type", "application/json; charset=utf-8")] true
       [Sample.stringify_nothing
          (completion "chatcmpl-5000" 5 "gemini-2.5-flash"
             (JObj [("role", JStr "assistant"); ("content", JStr "pong")])
             "stop" [("usage", JNull)])]
       true).
Proof.
  refine (buffered_reply Sample.stringify_nothing Sample.parse_nothing
            Sample.defaults "system" "req-1" Signature.empty (Ok (Some Sample.token))
            None None Sample.upstream Sample.upstream_buffered Sample.type_error
            5000 6000 Sample.chat_request_buffered
            [Sample.user_hi] Sample.token "gemini-2.5-flash" _
            eq_refl eq_refl eq_refl eq_refl eq_refl eq_refl).
Defined.

Lemma request_refused_witness :
  createChatCompletionHandler Sample.stringify_nothing Sample.parse_nothing
    Sample.defaults "system" "req-1" Signature.empty (Ok None)
    (Some "no credential in this pool") (Some 404) Sample.upstream
    Sample.upstream_buffered Sample.type_error 5000 6000 Sample.chat_request fresh
  = (Ok tt,
     Response 404 [("Content-Type", "application/json; charset=utf-8")] true
       [Sample.stringify_nothing
          (JObj [("error", JStr "no credential in this pool")])]
       true).
Proof.
  refine (proj2 (request_refused Sample.stringify_nothing Sample.parse_nothing
                   Sample.defaults "system" "req-1" Signature.empty (Ok None)
                   (Some "no credential in this pool") (Some 404) Sample.upstream
                   Sample.upstream_buffered Sample.type_error 5000 6000
                   Sample.chat_request) _ eq_refl).
  discriminate.
Defined.

End HandlerFacts.
(** ** Panel sessions *)

Module PanelFacts.
Import Panel.

Section Guard.

Variable PANEL_AUTH_ENABLED : bool.
Variable panelUser panelPassword : option string.
Variable decodeURIComponent : string -> option string.
Variable encodeURIComponent : string -> string.

Abbreviation token_of := (getSessionTokenFromReq decodeURIComponent).
Abbreviation authed := (isPanelAuthed PANEL_AUTH_ENABLED decodeURIComponent).

Lemma token_throws (headers : gmap string string) :
  token_of headers = None <-> Props.undecodable decodeURIComponent headers.
Proof.
  unfold getSessionTokenFromReq, Props.undecodable. split.
  - destruct (headers !! "cookie") as [cookie|]; [|discriminate].
    destruct (Str.truthy cookie) eqn:Ec; cbn [negb]; [|discriminate].
    destruct (List.find _ _) as [item|] eqn:Ef; [|discriminate].
    destruct (decodeURIComponent _) eqn:Ed; [discriminate|]. intros _.
    exists cookie, item. apply SignatureFacts.truthy_nonempty in Ec. now repeat split.
  - intros (cookie & item & -> & Hc & -> & ->).
    apply SignatureFacts.truthy_nonempty in Hc. now rewrite Hc.
Qed.

(** With a panel password configured since the start, the API guard lets a
    request through exactly when its cookie names a session that is on
    record and has not expired.  It throws exactly when the cookie has a
    [panel_session] value that [decodeURIComponent] rejects, and it answers
    401 in every other case; whatever it answers, it adds no session. *)
Theorem panel_guard_sound (headers : gmap string string) (now : Z) (s : sessions) :
  PANEL_AUTH_ENABLED = true ->
  isPanelPasswordConfigured panelPassword = true ->
  let answer :=
    requirePanelAuthApi PANEL_AUTH_ENABLED panelPassword decodeURIComponent headers
      now s in
  (answer = Some (Next, s) <-> Props.liveSession decodeURIComponent headers now s)
  /\ (answer = None <-> Props.undecodable decodeURIComponent headers)
  /\ (~ Props.liveSession decodeURIComponent headers now s ->
      ~ Props.undecodable decodeURIComponent headers ->
      exists s', answer = Some (Unauthorized, s') /\ s' ⊆ s)
  /\ (forall o s', answer = Some (o, s') -> s' ⊆ s).
Proof.
  intros He Hp answer.
  assert (Hcases :
            (Props.liveSession decodeURIComponent headers now s
             /\ answer = Some (Next, s))
            \/ (Props.undecodable decodeURIComponent headers /\ answer = None)
            \/ (~ Props.liveSession decodeURIComponent headers now s
                /\ ~ Props.undecodable decodeURIComponent headers
                /\ exists s', answer = Some (Unauthorized, s') /\ s' ⊆ s)).
  { subst answer. unfold requirePanelAuthApi, isPanelAuthed. rewrite Hp, He.
    cbn [negb]. pose proof (token_throws headers) as Hthrows.
    destruct (token_of headers) as [[token|]|] eqn:Et; cbn [mbind option_bind].
    - assert (Hno : ~ Props.undecodable decodeURIComponent headers)
        by (intros H; apply Hthrows in H; discriminate).
      assert (Hdead : Props.liveSession decodeURIComponent headers now s ->
                      exists expiresAt,
                        token <> "" /\ s !! token = Some expiresAt
                        /\ expiresAt <> 0 /\ now <= expiresAt).
      { intros (t & e & Ht & Hne & Hs & H0 & Hn).
        rewrite Et in Ht. injection Ht as <-. now exists e. }
      destruct (Str.truthy token) eqn:Ett; cbn [negb].
      + apply SignatureFacts.truthy_nonempty in Ett.
        destruct (s !! token) as [expiresAt|] eqn:Es.
        * destruct (expiresAt =? 0) eqn:E0.
          -- right. right. split; [|split; [exact Hno|now exists s]].
             intros Hl. destruct (Hdead Hl) as (e & _ & [= <-] & H0 & _). lia.
          -- destruct (now >? expiresAt) eqn:En.
             ++ right. right. split; [|split; [exact Hno|]].
                ** intros Hl. destruct (Hdead Hl) as (e & _ & [= <-] & _ & Hn). lia.
                ** exists (delete token s). split; [reflexivity|].
                   apply delete_subseteq.
             ++ left. split; [|reflexivity]. exists token, expiresAt.
                repeat split; try assumption; lia.
        * right. right. split; [|split; [exact Hno|now exists s]].
          intros Hl. destruct (Hdead Hl) as (e & _ & [=] & _).
      + right. right. split; [|split; [exact Hno|now exists s]].
        intros Hl. destruct (Hdead Hl) as (e & Hne & _).
        apply SignatureFacts.truthy_nonempty in Hne. congruence.
    - right. right.
      split; [|split; [intros H; apply Hthrows in H; discriminate | now exists s]].
      intros (t & e & Ht & _). congruence.
    - right. left. split; [now apply Hthrows | reflexivity]. }
  assert (Hexcl : Props.liveSession decodeURIComponent headers now s ->
                  Props.undecodable decodeURIComponent headers -> False).
  { intros (t & e & Ht & _) Hu. apply token_throws in Hu. congruence. }
  destruct Hcases as [[Hl Ha]|[[Hu Ha]|(Hnl & Hnu & s' & Ha & Hs)]];
    rewrite Ha; (split; [|split; [|split]]).
  - tauto.
  - split; [discriminate | intros Hu; destruct (Hexcl Hl Hu)].
  - tauto.
  - intros o s'' [= <- <-]. reflexivity.
  - split; [discriminate | intros Hl; destruct (Hexcl Hl Hu)].
  - tauto.
  - tauto.
  - discriminate.
  - split; [discriminate | tauto].
  - split; [discriminate | tauto].
  - intros _ _. now exists s'.
  - intros o s'' [= <- <-]. exact Hs.
Qed.

(** A login with the configured name and password opens a session that
    lasts two hours: the request that brings the token back is let in until
    then; the first one after that is refused and takes the session off the
    record, so that it is refused ever after; and so does a logout. *)
Theorem panel_session_lifetime (headers : gmap string string) (token : string)
    (username password : option json) (now0 now later : Z) (s : sessions) :
  PANEL_AUTH_ENABLED = true ->
  same username (Some (getPanelUser panelUser)) = true ->
  same password panelPassword = true ->
  token_of headers = Some (Some token) -> token <> "" ->
  now0 + PANEL_SESSION_TTL_MS <> 0 ->
  let s1 :=
    snd (login PANEL_AUTH_ENABLED panelUser panelPassword encodeURIComponent
           username password token now0 s) in
  authed headers now s1
  = Some (if now <=? now0 + PANEL_SESSION_TTL_MS then (true, s1)
          else (false, delete token s1))
  /\ authed headers later (delete token s1) = Some (false, delete token s1)
  /\ logout decodeURIComponent headers s1 = Some (delete token s1).
Proof.
  intros He Hu Hp Ht Hne H0. unfold login. rewrite He, Hu, Hp.
  cbn [negb andb snd]. cbv zeta.
  apply SignatureFacts.truthy_nonempty in Hne.
  unfold isPanelAuthed, logout. rewrite ?He, Ht. cbn [negb mbind option_bind].
  rewrite Hne. cbn [negb]. rewrite lookup_insert_eq, lookup_delete_eq.
  apply Z.eqb_neq in H0. rewrite H0.
  split; [|split; reflexivity].
  destruct (now <=? now0 + PANEL_SESSION_TTL_MS) eqn:E.
  - apply Z.leb_le in E. destruct (now >? _) eqn:E'; [lia | reflexivity].
  - apply Z.leb_gt in E. destruct (now >? _) eqn:E'; [reflexivity | lia].
Qed.

End Guard.

(** A cookie that brings a recorded session back is let through; a cookie
    whose session value cannot be decoded makes the guard throw. *)
Lemma panel_guard_sound_witness :
  requirePanelAuthApi true (Some "secret")
    (fun v => if String.eqb v "%" then None else Some v)
    {[ "cookie" := "theme=dark; panel_session=panel-1" ]} 5000
    {[ "panel-1" := 9000 ]}
  = Some (Next, {[ "panel-1" := 9000 ]})
  /\ requirePanelAuthApi true (Some "secret")
       (fun v => if String.eqb v "%" then None else Some v)
       {[ "cookie" := "panel_session=%" ]} 5000 {[ "panel-1" := 9000 ]}
     = None.
Proof.
  split.
  - apply (proj1 (panel_guard_sound true (Some "secret")
                    (fun v => if String.eqb v "%" then None else Some v)
                    {[ "cookie" := "theme=dark; panel_session=panel-1" ]} 5000
                    {[ "panel-1" := 9000 ]} eq_refl eq_refl)).
    exists "panel-1"%string, 9000. repeat split; try reflexivity; try discriminate.
  - apply (proj1 (proj2 (panel_guard_sound true (Some "secret")
                           (fun v => if String.eqb v "%" then None else Some v)
                           {[ "cookie" := "panel_session=%" ]} 5000
                           {[ "panel-1" := 9000 ]} eq_refl eq_refl))).
    exists "panel_session=%"%string, "panel_session=%"%string.
    repeat split; try reflexivity. discriminate.
Defined.

Lemma panel_session_lifetime_witness :
  let s1 :=
    snd (login true None (Some "secret") (fun t => t)
           (Some (JStr "admin")) (Some (JStr "secret")) "panel-1" 1000 ∅) in
  isPanelAuthed true Some {[ "cookie" := "theme=dark; panel_session=panel-1" ]}
    5000 s1
  = Some (if 5000 <=? 1000 + PANEL_SESSION_TTL_MS then (true, s1)
          else (false, delete "panel-1" s1))
  /\ isPanelAuthed true Some {[ "cookie" := "theme=dark; panel_session=panel-1" ]}
       9000 (delete "panel-1" s1)
     = Some (false, delete "panel-1" s1)
  /\ logout Some {[ "cookie" := "theme=dark; panel_session=panel-1" ]} s1
     = Some (delete "panel-1" s1).
Proof.
  apply (panel_session_lifetime true None (Some "secret") Some (fun t => t)
           {[ "cookie" := "theme=dark; panel_session=panel-1" ]} "panel-1"
           (Some (JStr "admin")) (Some (JStr "secret")) 1000 5000 9000 ∅);
    try reflexivity; discriminate.
Defined.

End PanelFacts.
(** ** Credential indexes of a quota query *)

Module QuotaFacts.
Import Quota.

Lemma existsb_eqb_false (i : Z) (l : list Z) :
  existsb (Z.eqb i) l = false <-> ~ In i l.
Proof.
  split.
  - intros H Hin. apply not_true_iff_false in H. apply H.
    apply existsb_exists. exists i. split; [exact Hin | apply Z.eqb_refl].
  - intros H. apply not_true_iff_false. intros E.
    apply existsb_exists in E as (j & Hj & E). apply Z.eqb_eq in E. now subst j.
Qed.

Lemma NoDup_push (i : Z) (l : list Z) :
  List.NoDup l -> ~ In i l -> List.NoDup (l ++ [i]).
Proof.
  induction 1 as [|x l Hx Hl IH]; intros Hi; cbn [app].
  - constructor; [intros [] | constructor].
  - constructor.
    + rewrite in_app_iff. cbn [In]. intros [H|[H|[]]]; [now apply Hx|].
      apply Hi. now left.
    + apply IH. intros H. apply Hi. now right.
Qed.

Lemma unique_fold (total : Z) (nums : list Z) (unique : list Z) :
  List.NoDup unique ->
  let result :=
    fold_left
      (fun unique num =>
         if (zeroBased num >=? 0) && (zeroBased num <? total)
            && negb (existsb (Z.eqb (zeroBased num)) unique)
         then unique ++ [zeroBased num]
         else unique)
      nums unique in
  List.NoDup result
  /\ forall i, In i result
       <-> In i unique
           \/ (0 <= i < total /\ exists num, In num nums /\ i = zeroBased num).
Proof.
  revert unique. induction nums as [|num nums IH]; intros unique Hnd; cbv zeta.
  - cbn [fold_left]. split; [exact Hnd|]. intros i. split; [now left|].
    intros [H|(_ & num & [] & _)]. exact H.
  - cbn [fold_left].
    destruct ((zeroBased num >=? 0) && (zeroBased num <? total)
              && negb (existsb (Z.eqb (zeroBased num)) unique)) eqn:E.
    + apply andb_true_iff in E as [E Hnew]. apply andb_true_iff in E as [Hlo Hhi].
      apply negb_true_iff, existsb_eqb_false in Hnew.
      assert (Hnd' : List.NoDup (unique ++ [zeroBased num]))
        by now apply NoDup_push.
      destruct (IH _ Hnd') as [Hr Hin]. split; [exact Hr|].
      intros i. rewrite Hin, in_app_iff. cbn [In]. split.
      * intros [[H|[<-|[]]]|(Hi & n & Hn & ->)].
        -- now left.
        -- right. split; [lia|]. exists num. split; [now left | reflexivity].
        -- right. split; [exact Hi|]. exists n. split; [now right | reflexivity].
      * intros [H|(Hi & n & [<-|Hn] & ->)].
        -- left. now left.
        -- left. right. now left.
        -- right. split; [exact Hi|]. now exists n.
    + destruct (IH _ Hnd) as [Hr Hin]. split; [exact Hr|].
      intros i. rewrite Hin. split.
      * intros [H|(Hi & n & Hn & ->)]; [now left|].
        right. split; [exact Hi|]. exists n. split; [now right | reflexivity].
      * intros [H|(Hi & n & [<-|Hn] & ->)].
        -- now left.
        -- left. apply andb_false_iff in E as [E|E].
           ++ apply andb_false_iff in E as [E|E]; lia.
           ++ apply negb_false_iff in E. apply existsb_exists in E as (j & Hj & E).
              apply Z.eqb_eq in E. now rewrite E.
        -- right. split; [exact Hi|]. now exists n.
Qed.

(** The indexes read from a query are positions of the credential list,
    each of them once: a position is selected exactly when the query names
    it, counting from one, or names it as a number that is not positive. *)
Theorem quota_indexes (rawIndexes : json) (total : Z) :
  rawIndexes <> JNull ->
  exists selected,
    parseQuotaIndexes (Some rawIndexes) total = Some selected
    /\ List.NoDup selected
    /\ forall i, In i selected
         <-> 0 <= i < total
             /\ exists num, In num (candidates rawIndexes) /\ i = zeroBased num.
Proof.
  intros Hraw. eexists. split.
  - unfold parseQuotaIndexes. destruct rawIndexes; try reflexivity. congruence.
  - destruct (unique_fold total (candidates rawIndexes) [] (List.NoDup_nil _))
      as [Hnd Hin].
    split; [exact Hnd|]. intros i. rewrite Hin. cbn [In]. tauto.
Qed.

Lemma quota_indexes_witness :
  exists selected,
    parseQuotaIndexes (Some (JStr "2, 1 2,x,9,0")) 3 = Some selected
    /\ List.NoDup selected
    /\ forall i, In i selected
         <-> 0 <= i < 3
             /\ exists num, In num (candidates (JStr "2, 1 2,x,9,0"))
                            /\ i = zeroBased num.
Proof. apply (quota_indexes (JStr "2, 1 2,x,9,0") 3). discriminate. Defined.

End QuotaFacts.
(** ** Removing and switching a credential *)

Module AdminFacts.
Import AccountAdmin.

Section Handlers.

Variable Number_toString : Z -> string.
Variable readError : string.
Variable typeError : json -> Z -> string.
Variable initialize : option string.

Abbreviation remove := (deleteAccount Number_toString readError typeError initialize).
Abbreviation switch := (enableAccount Number_toString readError typeError initialize).

Lemma failure_status (message fallback : string) :
  status (failure message fallback) = 500.
Proof. reflexivity. Qed.

Lemma finish_status (fallback : string) :
  (initialize = None /\ finish initialize fallback = Reply 200 (JObj [("success", JBool true)]))
  \/ (initialize <> None /\ status (finish initialize fallback) = 500).
Proof.
  unfold finish. destruct initialize; [right | left]; now split.
Qed.

Lemma read_array (items : list json) (i : Z) (v : json) :
  0 <= i -> items !! Z.to_nat i = Some v ->
  read Number_toString (JArr items) i = Some (Value v).
Proof.
  intros Hi Hv. unfold read. destruct (i <? 0) eqn:E; [lia|]. now rewrite Hv.
Qed.

(** Removing a credential.  When the index names a record of the list on
    file, the list is written back without that record, the others in
    their order, and the answer is a success unless the reload fails.  In
    every other case the file stays as it was and the answer is 400 (no
    number), 404 (nothing at the index) or 500. *)
Theorem delete_account (index : string) (disk : stored) :
  (forall i items acc,
      Quota.parseInt index = Some i -> 0 <= i ->
      disk = Text (inr (JArr items)) ->
      items !! Z.to_nat i = Some acc -> Json.truthy acc = true ->
      remove index disk
      = (match initialize with
         | Some message => failure message "删除失败"
         | None => Reply 200 (JObj [("success", JBool true)])
         end,
         Text (inr (JArr (take (Z.to_nat i) items ++ drop (S (Z.to_nat i)) items)))))
  /\ (snd (remove index disk) = disk
      \/ exists i items acc,
           Quota.parseInt index = Some i /\ 0 <= i
           /\ disk = Text (inr (JArr items))
           /\ items !! Z.to_nat i = Some acc /\ Json.truthy acc = true)
  /\ (status (fst (remove index disk)) = 400 \/ status (fst (remove index disk)) = 404 ->
      snd (remove index disk) = disk)
  /\ In (status (fst (remove index disk))) [200; 400; 404; 500].
Proof.
  split; [|split; [|split]].
  - intros i items acc Hi H0 -> Hacc Ht. unfold deleteAccount. rewrite Hi.
    rewrite (read_array _ _ _ H0 Hacc). cbn [truthy_slot]. rewrite Ht. cbn [negb].
    now rewrite delete_take_drop.
  - unfold deleteAccount.
    destruct (Quota.parseInt index) as [i|]; [|now left].
    destruct disk as [|[message|accounts]]; try (now left).
    destruct (read Number_toString accounts i) as [found|] eqn:Er; [|now left].
    destruct (truthy_slot found) eqn:Et; [|now left]. cbn [negb].
    destruct accounts as [| | | |items|]; try (now left).
    right. unfold read in Er.
    destruct (i <? 0) eqn:E0; [injection Er as <-; discriminate|].
    destruct (items !! Z.to_nat i) as [acc|] eqn:E; [|injection Er as <-; discriminate].
    injection Er as <-. exists i, items, acc. repeat split; try assumption. lia.
  - unfold deleteAccount.
    destruct (Quota.parseInt index) as [i|]; [|reflexivity].
    destruct disk as [|[message|accounts]]; try reflexivity.
    destruct (read Number_toString accounts i) as [found|]; [|reflexivity].
    destruct (negb (truthy_slot found)); [reflexivity|].
    destruct accounts; try reflexivity.
    cbn [fst snd]. destruct (finish_status "删除失败") as [[_ ->]|[_ ->]];
      cbn [status]; intros [H|H]; discriminate.
  - unfold deleteAccount.
    destruct (Quota.parseInt index) as [i|]; [|cbn; tauto].
    destruct disk as [|[message|accounts]]; try (cbn; tauto).
    destruct (read Number_toString accounts i) as [found|]; [|cbn; tauto].
    destruct (negb (truthy_slot found)); [cbn; tauto|].
    destruct accounts; try (cbn; tauto).
    cbn [fst]. destruct (finish_status "删除失败") as [[_ ->]|[_ ->]]; cbn; tauto.
Qed.

(** Switching a credential.  When the index names a record of the list on
    file, the list is written back with that record's [enable] set to the
    truthiness of the request's [enable] (true when it has none): the
    other fields of the record and the other records stay.  A request that
    is answered 400 or 404 leaves the file as it was. *)
Theorem enable_account (index : string) (enable : option json) (disk : stored) :
  (forall i items fields,
      Quota.parseInt index = Some i -> 0 <= i ->
      disk = Text (inr (JArr items)) ->
      items !! Z.to_nat i = Some (JObj fields) ->
      exists updated,
        switch index enable disk
        = (match initialize with
           | Some message => failure message "更新失败"
           | None => Reply 200 (JObj [("success", JBool true)])
           end,
           Text (inr (JArr (<[Z.to_nat i := JObj updated]> items))))
        /\ Json.get "enable" updated
           = Some (JBool (match enable with Some v => Json.truthy v | None => true end))
        /\ forall k, k <> "enable" -> Json.get k updated = Json.get k fields)
  /\ (status (fst (switch index enable disk)) = 400
      \/ status (fst (switch index enable disk)) = 404 ->
      snd (switch index enable disk) = disk)
  /\ In (status (fst (switch index enable disk))) [200; 400; 404; 500].
Proof.
  split; [|split].
  - intros i items fields Hi H0 -> Hacc. eexists. split; [|split].
    + unfold enableAccount. rewrite Hi, (read_array _ _ _ H0 Hacc).
      cbn [truthy_slot Json.truthy negb write_at]. reflexivity.
    + apply AccountsFacts.get_set_eq.
    + intros k Hk. now apply AccountsFacts.get_set_ne.
  - unfold enableAccount.
    destruct (Quota.parseInt index) as [i|]; [|reflexivity].
    destruct disk as [|[message|accounts]]; try reflexivity.
    destruct (read Number_toString accounts i) as [found|]; [|reflexivity].
    destruct (negb (truthy_slot found)); [reflexivity|].
    destruct found as [|[]|]; try reflexivity;
      cbn [fst snd]; destruct (finish_status "更新失败") as [[_ ->]|[_ ->]];
      cbn [status]; intros [H|H]; discriminate.
  - unfold enableAccount.
    destruct (Quota.parseInt index) as [i|]; [|cbn; tauto].
    destruct disk as [|[message|accounts]]; try (cbn; tauto).
    destruct (read Number_toString accounts i) as [found|]; [|cbn; tauto].
    destruct (negb (truthy_slot found)); [cbn; tauto|].
    destruct found as [|[]|]; try (cbn; tauto);
      cbn [fst]; destruct (finish_status "更新失败") as [[_ ->]|[_ ->]]; cbn; tauto.
Qed.

End Handlers.

End AdminFacts.
